(** * The OLX scraping engine: a shallow embedding and its properties

    The development follows the TypeScript sources of the repository:

    - [core/types.ts]                     Result, createResult, createError
    - [tools/base/base-tool.ts]           BaseTool.execute
    - [validation/schemas/listing.schema.ts]   the two argument schemas
    - [scrapers/base/scraper.interface.ts]     withPage, retryOperation
    - [scrapers/olx/domain-config.ts]     the five domain configurations
    - [scrapers/olx/base-olx.scraper.ts]  buildSearchUrl, extractListings,
                                          extractPaginationInfo,
                                          performGetListingDetails
    - [scrapers/olx/olx-pt.scraper.ts], [olx-pl.scraper.ts],
      [scraper.factory.ts]                the locale hooks and the factory
    - [tools/search/search-listings.tool.ts],
      [tools/listing/get-listing-details.tool.ts]

    JavaScript strings are modelled by their UTF-8 encoding ([string], a
    sequence of bytes).  A number that comes in from outside (a price, a
    page number, a clock reading) is an integer-valued double, written
    as the [Z] it equals; a number the engine computes from text is the
    double it is ([Num]: an integer-valued double or [Infinity]), and
    numbers are printed as [Number.prototype.toString] prints them, the
    nearest double for a [Z] that is none.  [async]
    code is modelled by a state-and-exception monad over an explicit
    [World] that holds the web, the clock, the open page and an event
    log. *)

From stdpp Require Import gmap strings list fin_maps pretty.
From Stdlib Require Import ZArith Lia Ascii String.

Open Scope string_scope.
Open Scope Z_scope.

(** ** JavaScript strings, as far as the sources use them *)

Module Js.

(** Truthiness of a string: the empty string is the only falsy one. *)
Definition truthy (s : string) : bool :=
  match s with EmptyString => false | String _ _ => true end.

(** [x || undefined] and [if (x)] on an optional string. *)
Definition truthy_opt (o : option string) : bool :=
  match o with Some s => truthy s | None => false end.

Definition or_undefined (s : string) : option string :=
  if truthy s then Some s else None.

(** Truthiness of an optional number: [undefined] and [0] are falsy. *)
Definition truthy_num (v : option Z) : bool :=
  match v with Some n => negb (n =? 0) | None => false end.

Definition code (a : ascii) : N := N_of_ascii a.

Definition in_range (lo hi : N) (a : ascii) : bool :=
  (N.leb lo (code a) && N.leb (code a) hi)%bool.

Definition is_digit (a : ascii) : bool := in_range 48 57 a.
Definition is_lower (a : ascii) : bool := in_range 97 122 a.
Definition is_upper (a : ascii) : bool := in_range 65 90 a.
Definition is_alnum (a : ascii) : bool :=
  (is_digit a || is_lower a || is_upper a)%bool.
Definition is_dash (a : ascii) : bool := N.eqb (code a) 45.

(** The one-byte members of the regular-expression class [\s]:
    TAB, LF, VT, FF, CR and SPACE. *)
Definition is_space1 (a : ascii) : bool :=
  (in_range 9 13 a || N.eqb (code a) 32)%bool.

(** The two-byte member of [\s]: U+00A0. *)
Definition is_space2 (a b : ascii) : bool :=
  (N.eqb (code a) 194 && N.eqb (code b) 160)%bool.

(** The three-byte members of [\s]: U+1680, U+2000..U+200A, U+2028,
    U+2029, U+202F, U+205F, U+3000 and U+FEFF. *)
Definition is_space3 (a b c : ascii) : bool :=
  let x := code a in
  let y := code b in
  let z := code c in
  ((N.eqb x 225 && N.eqb y 154 && N.eqb z 128)
   || (N.eqb x 226 && N.eqb y 128
       && (in_range 128 138 c || N.eqb z 168 || N.eqb z 169 || N.eqb z 175))
   || (N.eqb x 226 && N.eqb y 129 && N.eqb z 159)
   || (N.eqb x 227 && N.eqb y 128 && N.eqb z 128)
   || (N.eqb x 239 && N.eqb y 187 && N.eqb z 191))%bool.

(** A string is read as a sequence of units: a unit is either one
    white-space character (one to three bytes) or one other byte. *)
Inductive unit_kind := Space | Other.

Fixpoint units (s : string) : list (unit_kind * string) :=
  match s with
  | EmptyString => []
  | String a s1 =>
      if is_space1 a then (Space, String a "") :: units s1
      else
        match s1 with
        | EmptyString => [(Other, String a "")]
        | String b s2 =>
            if is_space2 a b then (Space, String a (String b "")) :: units s2
            else
              match s2 with
              | EmptyString => (Other, String a "") :: units s1
              | String c s3 =>
                  if is_space3 a b c
                  then (Space, String a (String b (String c ""))) :: units s3
                  else (Other, String a "") :: units s1
              end
        end
  end.

(** [s.replace(/\s+/g, '-')] *)
Fixpoint dash_spaces (in_run : bool) (us : list (unit_kind * string)) : string :=
  match us with
  | [] => ""
  | (Space, _) :: us' =>
      if in_run then dash_spaces true us' else "-" ++ dash_spaces true us'
  | (Other, b) :: us' => b ++ dash_spaces false us'
  end.

Definition replace_spaces_with_dash (s : string) : string :=
  dash_spaces false (units s).

(** [s.replace(/[^a-z0-9\s-]/g, '')] *)
Definition keep_slug_unit (u : unit_kind * string) : bool :=
  match u with
  | (Space, _) => true
  | (Other, String a _) => (is_lower a || is_digit a || is_dash a)%bool
  | (Other, EmptyString) => false
  end.

Fixpoint concat_units (us : list (unit_kind * string)) : string :=
  match us with
  | [] => ""
  | (_, b) :: us' => b ++ concat_units us'
  end.

Definition strip_non_slug (s : string) : string :=
  concat_units (List.filter keep_slug_unit (units s)).

(** [s.replace(/-+/g, '-')] *)
Fixpoint collapse_dashes (s : string) : string :=
  match s with
  | EmptyString => ""
  | String a s1 =>
      if is_dash a then
        match s1 with
        | String b _ => if is_dash b then collapse_dashes s1
                        else String a (collapse_dashes s1)
        | EmptyString => String a ""
        end
      else String a (collapse_dashes s1)
  end.

(** [s.replace(/^-|-$/g, '')]: one dash off the front, one off the end. *)
Definition drop_leading_dash (s : string) : string :=
  match s with
  | String a s1 => if is_dash a then s1 else s
  | EmptyString => ""
  end.

Fixpoint drop_trailing_dash (s : string) : string :=
  match s with
  | EmptyString => ""
  | String a EmptyString => if is_dash a then "" else s
  | String a s1 => String a (drop_trailing_dash s1)
  end.

Definition trim_dashes (s : string) : string :=
  drop_trailing_dash (drop_leading_dash s).

(** [s.startsWith(pat)] *)
Fixpoint starts_with (pat s : string) : bool :=
  match pat with
  | EmptyString => true
  | String a pat' =>
      match s with
      | String b s' => (Ascii.eqb a b && starts_with pat' s')%bool
      | EmptyString => false
      end
  end.

(** [s.replace(/pat/g, rep)] for a literal, non-empty pattern. *)
Fixpoint replace_from (pat rep : string) (skip : nat) (s : string) : string :=
  match s with
  | EmptyString => ""
  | String a s1 =>
      match skip with
      | S k => replace_from pat rep k s1
      | O =>
          if starts_with pat s
          then rep ++ replace_from pat rep (Nat.pred (String.length pat)) s1
          else String a (replace_from pat rep 0 s1)
      end
  end.

Definition replace_all (pat rep : string) (s : string) : string :=
  replace_from pat rep 0 s.

(** [s.trim()]: white space off both ends. *)
Fixpoint drop_spaces (us : list (unit_kind * string)) : list (unit_kind * string) :=
  match us with
  | (Space, _) :: us' => drop_spaces us'
  | _ => us
  end.

Definition trim (s : string) : string :=
  concat_units (rev (drop_spaces (rev (drop_spaces (units s))))).

(** *** Numbers

    A Number is an IEEE 754 double.  The integers up to [2^53] in
    magnitude are doubles; a larger integer is a double only when it
    fits in 53 significant bits. *)

(** The integer-valued doubles, and [Infinity]. *)
Inductive Num := Finite (n : Z) | Infinity.

(** [a / b] rounded to the nearest integer, a tie to the even one
    (for [0 <= a] and [0 < b]). *)
Definition half_even (a b : Z) : Z :=
  let k := a / b in
  let r := a mod b in
  if 2 * r <? b then k
  else if b <? 2 * r then k + 1
  else if Z.even k then k else k + 1.

(** The Number value of an integer [m >= 0]: the nearest double, a tie
    to the one with the even significand; [Infinity] when the rounded
    value does not fit below [2^1024]. *)
Definition Number_of_integer (m : Z) : Num :=
  if Z.log2 m <=? 52 then Finite m
  else
    let ulp := 2 ^ (Z.log2 m - 52) in
    let r := half_even m ulp * ulp in
    if Z.log2 r <? 1024 then Finite r else Infinity.

(** [Math.ceil(t / d)] for a Number [t] and an integer [d > 0]: the
    quotient is rounded to a double, of which the ceiling is taken.  A
    quotient of magnitude between 0 and 1 rounds to a double in that
    range, whose ceiling is 1 above zero and 0 below; from 1 on, the
    exponent of the quotient is that of its integer part, the
    significand has 53 bits, and from [2^52] on the rounded quotient
    is an integer. *)
Definition Math_ceil_quotient (t : Num) (d : Z) : Num :=
  match t with
  | Infinity => Infinity
  | Finite t =>
      let a := Z.abs t in
      if a =? 0 then Finite 0
      else if a <? d then Finite (if t <? 0 then 0 else 1)
      else
        let e := Z.log2 (a / d) in
        if e <=? 52 then
          let scale := 2 ^ (52 - e) in
          let r := half_even (a * scale) d in
          Finite (if t <? 0 then - (r / scale) else - ((- r) / scale))
        else
          let ulp := 2 ^ (e - 52) in
          Finite (Z.sgn t * (half_even a (d * ulp) * ulp))
  end.

(** [Math.max(a, b)] *)
Definition Math_max (a b : Num) : Num :=
  match a, b with
  | Finite x, Finite y => Finite (Z.max x y)
  | _, _ => Infinity
  end.

(** *** Printing a number

    [Number.prototype.toString] prints the shortest run of digits that
    reads back as the same double: all the digits of an integer up to
    [2^53], and 17 at most of a larger one, followed by zeros below
    [10^21] and in exponent notation from there on. *)

Fixpoint zeros (n : nat) : string :=
  match n with O => "" | S n' => String "0" (zeros n') end.

(** The significand of [k] digits that reads back as the double [x] of
    [N] digits, if there is one: the closer of the two around [x], the
    even one when they are equally close. *)
Definition significand (x N k : Z) : option Z :=
  let p := 10 ^ (N - k) in
  let lo := x / p in
  let hi := lo + 1 in
  let reads_back s :=
    match Number_of_integer (s * p) with Finite y => y =? x | Infinity => false end in
  match reads_back lo, reads_back hi with
  | true, true =>
      let below := x - lo * p in
      let above := hi * p - x in
      if below <? above then Some lo
      else if above <? below then Some hi
      else if Z.even lo then Some lo else Some hi
  | true, false => Some lo
  | false, true => Some hi
  | false, false => None
  end.

(** The shortest significand, tried from [k] digits up; all [N] digits
    read back as [x]. *)
Fixpoint shortest (fuel : nat) (x N k : Z) : Z * Z :=
  match fuel with
  | O => (x, N)
  | S fuel' =>
      if N <=? k then (x, N)
      else match significand x N k with
           | Some s => (s, k)
           | None => shortest fuel' x N (k + 1)
           end
  end.

(** [x.toString()] for a double [x] above [2^53]. *)
Definition large_toString (x : Z) : string :=
  let N := Z.of_nat (String.length (pretty x)) in
  let '(s, k) := shortest 17 x N 1 in
  let '(s, k, n) := if s =? 10 ^ k then (1, 1, N + 1) else (s, k, N) in
  match pretty s with
  | String d rest =>
      if n <=? 21 then String d rest ++ zeros (Z.to_nat (n - k))
      else
        String d (match rest with EmptyString => "" | _ => "." ++ rest end)
        ++ "e+" ++ pretty (n - 1)
  | EmptyString => ""
  end.

Definition positive_toString (m : Z) : string :=
  match Number_of_integer m with
  | Finite x => if Z.log2 x <=? 52 then pretty x else large_toString x
  | Infinity => "Infinity"
  end.

(** [n.toString()] and [String(n)] for the double nearest to the
    integer [n]. *)
Definition number_toString (n : Z) : string :=
  if n <? 0 then "-" ++ positive_toString (- n) else positive_toString n.

(** [arr.join(sep)] *)
Fixpoint join (sep : string) (l : list string) : string :=
  match l with
  | [] => ""
  | [x] => x
  | x :: l' => x ++ sep ++ join sep l'
  end.

(** *** Values that can be thrown, and their conversion to [Error]

    A [throw] accepts any value.  The values below are the ones the
    sources and their tests throw, and those next to them: [Error]
    objects (a [TypeError] and a [ZodError] are [Error]s), primitives,
    and objects that hold data properties only, with [Object.prototype]
    as their prototype or with none. *)

Inductive PathSeg := Key (k : string) | Index (i : Z).

Record ZodIssue := { path : list PathSeg; issue_message : string }.

Inductive ErrorObject :=
| Error (message : string)
| TypeError (message : string)
| ZodError (errors : list ZodIssue).

#[local] Unset Elimination Schemes.
Inductive Value :=
| Undefined
| Null
| Bool (b : bool)
| Number (n : Z)
| Str (s : string)
| PlainObject (props : list (string * Value))
| NullPrototypeObject (props : list (string * Value))
| ErrorValue (e : ErrorObject).
#[local] Set Elimination Schemes.

(** [name in props], for own properties. *)
Definition has_own (name : string) (props : list (string * Value)) : bool :=
  existsb (fun p => String.eqb (fst p) name) props.

(** The [TypeError] of a conversion to a primitive that fails (the
    message is the one of V8). *)
Definition cannot_convert : ErrorObject :=
  TypeError "Cannot convert object to primitive value".

Inductive Outcome (A : Type) :=
| Returns (a : A)
| Throws (v : Value).

Arguments Returns {A} a.
Arguments Throws {A} v.

(** [error instanceof Error ? error : new Error(String(error))].

    [String] converts an object through its [toString] and then its
    [valueOf] method.  An own property of either name holds data here
    and cannot be called.  Without an own [toString], an object that
    inherits from [Object.prototype] is printed by
    [Object.prototype.toString]; with one, the inherited [valueOf] is
    called and returns the object itself, which is no primitive, and
    the conversion throws a [TypeError].  An object without a prototype
    has neither method. *)
Definition toError (error : Value) : Outcome ErrorObject :=
  match error with
  | ErrorValue e => Returns e
  | Undefined => Returns (Error "undefined")
  | Null => Returns (Error "null")
  | Bool true => Returns (Error "true")
  | Bool false => Returns (Error "false")
  | Number n => Returns (Error (number_toString n))
  | Str s => Returns (Error s)
  | PlainObject props =>
      if has_own "toString" props then Throws (ErrorValue cannot_convert)
      else Returns (Error "[object Object]")
  | NullPrototypeObject _ => Throws (ErrorValue cannot_convert)
  end.

(** [err.path.join('.')] *)
Definition seg_toString (p : PathSeg) : string :=
  match p with Key k => k | Index i => number_toString i end.

Definition path_join (p : list PathSeg) : string :=
  join "." (List.map seg_toString p).

(** *** Asynchronous computations

    An [async] function is a function of the state of the world [W] that
    either returns or throws (a rejected promise, an [Outcome]), and
    leaves a new state. *)

Definition Async (W A : Type) : Type := W -> Outcome A * W.

Definition ret {W A} (a : A) : Async W A := fun w => (Returns a, w).

Definition throw {W A} (v : Value) : Async W A := fun w => (Throws v, w).

(** An expression that returns or throws without touching the state. *)
Definition eval {W A} (o : Outcome A) : Async W A := fun w => (o, w).

Definition bind {W A B} (m : Async W A) (k : A -> Async W B) : Async W B :=
  fun w =>
    match m w with
    | (Returns a, w1) => k a w1
    | (Throws v, w1) => (Throws v, w1)
    end.

(** [try { m } catch (error) { h error }] and [m.catch(h)] *)
Definition try_catch {W A} (m : Async W A) (h : Value -> Async W A) : Async W A :=
  fun w =>
    match m w with
    | (Returns a, w1) => (Returns a, w1)
    | (Throws v, w1) => h v w1
    end.

(** [try { m } finally { f }] *)
Definition try_finally {W A} (m : Async W A) (f : Async W unit) : Async W A :=
  fun w =>
    match m w with
    | (r, w1) =>
        match f w1 with
        | (Returns _, w2) => (r, w2)
        | (Throws v, w2) => (Throws v, w2)
        end
    end.

End Js.

Declare Scope async_scope.
Delimit Scope async_scope with async.
Notation "x <- m ;; k" := (Js.bind m (fun x => k))
  (at level 100, m at next level, right associativity) : async_scope.
Notation "m ;;; k" := (Js.bind m (fun _ => k))
  (at level 100, right associativity) : async_scope.
Open Scope async_scope.

(** ** [core/types.ts] *)

Module Types.

Inductive Result (T : Type) :=
| Success (data : T)
| Failure (error : Js.ErrorObject).

Arguments Success {T} data.
Arguments Failure {T} error.

Definition createResult {T} (data : T) : Result T := Success data.

(** [createError] accepts an [Error] or a string. *)
Definition createError {T} (error : Js.ErrorObject + string) : Result T :=
  match error with
  | inl e => Failure e
  | inr s => Failure (Js.Error s)
  end.

Definition isSuccess {T} (r : Result T) : bool :=
  match r with Success _ => true | Failure _ => false end.

Definition isError {T} (r : Result T) : bool := negb (isSuccess r).

Inductive OlxDomain := olx_pt | olx_pl | olx_bg | olx_ro | olx_ua.

Definition domain_name (d : OlxDomain) : string :=
  match d with
  | olx_pt => "olx.pt"
  | olx_pl => "olx.pl"
  | olx_bg => "olx.bg"
  | olx_ro => "olx.ro"
  | olx_ua => "olx.ua"
  end.

Definition domain_eqb (a b : OlxDomain) : bool :=
  String.eqb (domain_name a) (domain_name b).

Inductive SortBy := relevance | date | price_asc | price_desc.

Record SearchFilters := {
  domain : OlxDomain;
  query : option string;
  category : option string;
  location : option string;
  minPrice : option Z;
  maxPrice : option Z;
  page : option Z;
  limit : option Z;
  sortBy : option SortBy
}.

Record SellerInfo := {
  seller_name : option string;
  verified : bool
}.

Record Listing := {
  id : string;
  title : string;
  price : option string;
  listing_location : option string;
  imageUrl : option string;
  url : string;
  description : option string;
  seller : option SellerInfo
}.

Record SearchResult := {
  listings : list Listing;
  totalCount : Js.Num;
  currentPage : Z;
  totalPages : Js.Num;
  hasNextPage : bool
}.

End Types.

(** ** The URL objects of the platform

    [new URL(input, base)] is the platform's parser (the URL Standard);
    the development is parametric in it.  What the engine does with the
    parsed object, [searchParams.set] and [toString], is modelled here
    following the standard: the query of a URL object is re-serialised
    from its parameter list whenever the list is updated. *)

Module Url.

Record URL := {
  scheme : string;
  hier_part : string;
  url_query : option string;
  fragment : option string;
  searchParams : list (string * string)
}.

(** The [application/x-www-form-urlencoded] byte serializer. *)
Definition hex_digit (n : N) : ascii :=
  if N.ltb n 10 then ascii_of_N (48 + n) else ascii_of_N (55 + n).

Definition percent_byte (a : ascii) : string :=
  String "%" (String (hex_digit (N.div (Js.code a) 16))
             (String (hex_digit (N.modulo (Js.code a) 16)) "")).

Definition form_safe (a : ascii) : bool :=
  let c := Js.code a in
  (Js.is_alnum a || N.eqb c 42 || N.eqb c 45 || N.eqb c 46 || N.eqb c 95)%bool.

Fixpoint urlencode (s : string) : string :=
  match s with
  | EmptyString => ""
  | String a s1 =>
      (if form_safe a then String a ""
       else if N.eqb (Js.code a) 32 then "+"
       else percent_byte a) ++ urlencode s1
  end.

Definition serialize_params (l : list (string * string)) : string :=
  Js.join "&" (List.map (fun p => urlencode (fst p) ++ "=" ++ urlencode (snd p)) l).

(** [params.has(name)] *)
Definition has (name : string) (l : list (string * string)) : bool :=
  existsb (fun p => String.eqb (fst p) name) l.

(** [params.get(name)] *)
Fixpoint get (name : string) (l : list (string * string)) : option string :=
  match l with
  | [] => None
  | (n, v) :: l' => if String.eqb n name then Some v else get name l'
  end.

Definition remove_named (name : string) (l : list (string * string)) :=
  List.filter (fun p => negb (String.eqb (fst p) name)) l.

(** [params.set(name, value)] on the list: the first pair named [name]
    takes the value and the other pairs of that name go; a new name is
    appended. *)
Fixpoint set_first (name value : string) (l : list (string * string)) :=
  match l with
  | [] => [(name, value)]
  | (n, v) :: l' =>
      if String.eqb n name then (n, value) :: remove_named name l'
      else (n, v) :: set_first name value l'
  end.

(** [url.searchParams.set(name, value)] *)
Definition searchParams_set (name value : string) (u : URL) : URL :=
  let l := set_first name value (searchParams u) in
  {| scheme := scheme u;
     hier_part := hier_part u;
     url_query := Some (serialize_params l);
     fragment := fragment u;
     searchParams := l |}.

(** [url.toString()] *)
Definition toString (u : URL) : string :=
  scheme u ++ ":" ++ hier_part u
  ++ match url_query u with Some q => "?" ++ q | None => "" end
  ++ match fragment u with Some f => "#" ++ f | None => "" end.

(** A parser for the worked examples.  It accepts a path-absolute
    reference made of letters, digits and [/ - . _ ~] against an
    [https://host] base, where it agrees with the URL Standard, and
    rejects every other input, as the URL Standard does for those with
    an empty host, such as [//]. *)
Definition plain_path_byte (a : ascii) : bool :=
  let c := Js.code a in
  (Js.is_alnum a || N.eqb c 47 || N.eqb c 45 || N.eqb c 46 || N.eqb c 95
   || N.eqb c 126)%bool.

Fixpoint all_bytes (f : ascii -> bool) (s : string) : bool :=
  match s with
  | EmptyString => true
  | String a s1 => (f a && all_bytes f s1)%bool
  end.

Fixpoint has_dot_segment (segs : list string) : bool :=
  match segs with
  | [] => false
  | x :: segs' =>
      (String.eqb x "." || String.eqb x ".." || has_dot_segment segs')%bool
  end.

Fixpoint split_slash (acc : string) (s : string) : list string :=
  match s with
  | EmptyString => [acc]
  | String a s1 =>
      if N.eqb (Js.code a) 47 then acc :: split_slash "" s1
      else split_slash (acc ++ String a "") s1
  end.

Definition example_URL_new (input base : string) : option URL :=
  match input with
  | String "/" rest =>
      if (Js.starts_with "https://" base
          && all_bytes plain_path_byte input
          && negb (Js.starts_with "/" rest)
          && negb (has_dot_segment (split_slash "" rest)))%bool
      then Some {| scheme := "https";
                   hier_part := String.substring 6 (String.length base) base ++ input;
                   url_query := None;
                   fragment := None;
                   searchParams := [] |}
      else None
  | _ => None
  end.

End Url.

(** ** [scrapers/olx/domain-config.ts] *)

Module Config.

Import Js Types.

Notation "x |> f" := (f x) (at level 45, left associativity, only parsing).

(** The double quote of the attribute selectors. *)
Definition dq : string := String (ascii_of_nat 34) "".

Definition attr (name value : string) : string :=
  "[" ++ name ++ "=" ++ dq ++ value ++ dq ++ "]".

(** The selectors the engine reads (the interface declares more). *)
Record DomainSelectors := {
  search_listingCard : string;
  search_title : string;
  search_price : string;
  search_location : string;
  search_image : string;
  search_link : string;
  search_nextPage : string;
  search_totalCount : string;
  search_noResults : string;
  detail_title : string;
  detail_price : string;
  detail_description : string;
  detail_location : string;
  detail_seller_name : string;
  detail_seller_verified : string
}.

Record DomainUrlPatterns := {
  searchPath : option string -> option string -> string;
  priceParams_min : string;
  priceParams_max : string;
  sortParams : SortBy -> option string;
  categoryParam : string;
  pageParam : string
}.

Record DomainConfig := {
  config_domain : OlxDomain;
  baseUrl : string;
  currency : string;
  language : string;
  selectors : DomainSelectors;
  urlPatterns : DomainUrlPatterns
}.

Definition selectors_with_title (title_selector : string) : DomainSelectors :=
  {| search_listingCard := attr "data-cy" "l-card";
     search_title := title_selector;
     search_price := attr "data-testid" "ad-price";
     search_location := attr "data-testid" "location-date";
     search_image := "img";
     search_link := "a[href]";
     search_nextPage := "a" ++ attr "data-cy" "pagination-forward";
     search_totalCount := attr "data-testid" "total-count";
     search_noResults := attr "data-cy" "empty-state";
     detail_title := attr "data-testid" "offer_title";
     detail_price := attr "data-testid" "ad-price-container";
     detail_description := attr "data-testid" "ad_description";
     detail_location := attr "data-testid" "map-aside-section";
     detail_seller_name := attr "data-testid" "user-profile-user-name";
     detail_seller_verified := attr "data-testid" "trader-title" |}.

Definition title_h4 : string := attr "data-cy" "ad-card-title" ++ " h4".

Definition title_h4_h6 : string :=
  attr "data-cy" "ad-card-title" ++ " h4, " ++ attr "data-cy" "ad-card-title" ++ " h6".

(** The same in all five configurations. *)
Definition common_sortParams (s : SortBy) : option string :=
  match s with
  | relevance => None
  | date => Some "created_at:desc"
  | price_asc => Some "filter_float_price:asc"
  | price_desc => Some "filter_float_price:desc"
  end.

Section Platform.

(** [String.prototype.toLowerCase], the platform's Unicode mapping. *)
Variable toLowerCase : string -> string.

(** olx.pt *)
Definition searchPath_pt (location query : option string) : string :=
  if truthy_opt location then
    let locationSlug := default "" location |> toLowerCase |> replace_spaces_with_dash in
    let path := "/" ++ locationSlug in
    if truthy_opt query then
      let querySlug :=
        default "" query
        |> toLowerCase
        |> strip_non_slug
        |> replace_spaces_with_dash
        |> collapse_dashes
        |> trim_dashes in
      path ++ "/q-" ++ querySlug ++ "/"
    else path ++ "/"
  else
    let path := "/ads/" in
    if truthy_opt query then
      let querySlug :=
        default "" query
        |> toLowerCase
        |> strip_non_slug
        |> replace_spaces_with_dash
        |> collapse_dashes
        |> trim_dashes in
      path ++ "q-" ++ querySlug ++ "/"
    else path.

(** olx.pl *)
Definition searchPath_pl (location query : option string) : string :=
  if truthy_opt location then
    let locationSlug :=
      default "" location
      |> toLowerCase
      |> replace_spaces_with_dash
      |> replace_all "ą" "a"
      |> replace_all "ć" "c"
      |> replace_all "ę" "e"
      |> replace_all "ł" "l"
      |> replace_all "ń" "n"
      |> replace_all "ó" "o"
      |> replace_all "ś" "s"
      |> replace_all "ź" "z"
      |> replace_all "ż" "z" in
    let path := "/" ++ locationSlug in
    if truthy_opt query then
      let querySlug :=
        default "" query
        |> toLowerCase
        |> replace_all "ą" "a"
        |> replace_all "ć" "c"
        |> replace_all "ę" "e"
        |> replace_all "ł" "l"
        |> replace_all "ń" "n"
        |> replace_all "ó" "o"
        |> replace_all "ś" "s"
        |> replace_all "ź" "z"
        |> replace_all "ż" "z"
        |> strip_non_slug
        |> replace_spaces_with_dash
        |> collapse_dashes
        |> trim_dashes in
      path ++ "/q-" ++ querySlug ++ "/"
    else path ++ "/"
  else
    let path := "/oferty/" in
    if truthy_opt query then
      let querySlug :=
        default "" query
        |> toLowerCase
        |> replace_all "ą" "a"
        |> replace_all "ć" "c"
        |> replace_all "ę" "e"
        |> replace_all "ł" "l"
        |> replace_all "ń" "n"
        |> replace_all "ó" "o"
        |> replace_all "ś" "s"
        |> replace_all "ź" "z"
        |> replace_all "ż" "z"
        |> strip_non_slug
        |> replace_spaces_with_dash
        |> collapse_dashes
        |> trim_dashes in
      path ++ "q-" ++ querySlug ++ "/"
    else path.

(** olx.bg *)
Definition searchPath_bg (location query : option string) : string :=
  if truthy_opt location then
    let locationSlug := default "" location |> toLowerCase |> replace_spaces_with_dash in
    let path := "/" ++ locationSlug in
    if truthy_opt query then
      let querySlug :=
        default "" query
        |> toLowerCase
        |> strip_non_slug
        |> replace_spaces_with_dash
        |> collapse_dashes
        |> trim_dashes in
      path ++ "/q-" ++ querySlug ++ "/"
    else path ++ "/"
  else
    let path := "/ads/" in
    if truthy_opt query then
      let querySlug :=
        default "" query
        |> toLowerCase
        |> strip_non_slug
        |> replace_spaces_with_dash
        |> collapse_dashes
        |> trim_dashes in
      path ++ "q-" ++ querySlug ++ "/"
    else path.

(** olx.ro: the query is stripped of everything outside [a-z0-9\s-]
    before the diacritics are folded. *)
Definition searchPath_ro (location query : option string) : string :=
  if truthy_opt location then
    let locationSlug :=
      default "" location
      |> toLowerCase
      |> replace_spaces_with_dash
      |> replace_all "ă" "a"
      |> replace_all "â" "a"
      |> replace_all "î" "i"
      |> replace_all "ș" "s"
      |> replace_all "ț" "t" in
    let path := "/" ++ locationSlug in
    if truthy_opt query then
      let querySlug :=
        default "" query
        |> toLowerCase
        |> strip_non_slug
        |> replace_all "ă" "a"
        |> replace_all "â" "a"
        |> replace_all "î" "i"
        |> replace_all "ș" "s"
        |> replace_all "ț" "t"
        |> replace_spaces_with_dash
        |> collapse_dashes
        |> trim_dashes in
      path ++ "/q-" ++ querySlug ++ "/"
    else path ++ "/"
  else
    let path := "/ads/" in
    if truthy_opt query then
      let querySlug :=
        default "" query
        |> toLowerCase
        |> strip_non_slug
        |> replace_all "ă" "a"
        |> replace_all "â" "a"
        |> replace_all "î" "i"
        |> replace_all "ș" "s"
        |> replace_all "ț" "t"
        |> replace_spaces_with_dash
        |> collapse_dashes
        |> trim_dashes in
      path ++ "q-" ++ querySlug ++ "/"
    else path.

(** olx.ua *)
Definition searchPath_ua (location query : option string) : string :=
  if truthy_opt location then
    let locationSlug := default "" location |> toLowerCase |> replace_spaces_with_dash in
    let path := "/" ++ locationSlug in
    if truthy_opt query then
      let querySlug :=
        default "" query
        |> toLowerCase
        |> strip_non_slug
        |> replace_spaces_with_dash
        |> collapse_dashes
        |> trim_dashes in
      path ++ "/q-" ++ querySlug ++ "/"
    else path ++ "/"
  else
    let path := "/ads/" in
    if truthy_opt query then
      let querySlug :=
        default "" query
        |> toLowerCase
        |> strip_non_slug
        |> replace_spaces_with_dash
        |> collapse_dashes
        |> trim_dashes in
      path ++ "q-" ++ querySlug ++ "/"
    else path.

Definition make_config (d : OlxDomain) (base cur lang title_selector : string)
    (path : option string -> option string -> string) : DomainConfig :=
  {| config_domain := d;
     baseUrl := base;
     currency := cur;
     language := lang;
     selectors := selectors_with_title title_selector;
     urlPatterns :=
       {| searchPath := path;
          priceParams_min := "search[filter_float_price:from]";
          priceParams_max := "search[filter_float_price:to]";
          sortParams := common_sortParams;
          categoryParam := "c";
          pageParam := "page" |} |}.

Definition OLX_DOMAIN_CONFIGS (d : OlxDomain) : DomainConfig :=
  match d with
  | olx_pt => make_config olx_pt "https://www.olx.pt" "EUR" "pt" title_h4 searchPath_pt
  | olx_pl => make_config olx_pl "https://www.olx.pl" "PLN" "pl" title_h4_h6 searchPath_pl
  | olx_bg => make_config olx_bg "https://www.olx.bg" "BGN" "bg" title_h4_h6 searchPath_bg
  | olx_ro => make_config olx_ro "https://www.olx.ro" "RON" "ro" title_h4_h6 searchPath_ro
  | olx_ua => make_config olx_ua "https://www.olx.ua" "UAH" "uk" title_h4_h6 searchPath_ua
  end.

(** [getDomainConfig]: every [OlxDomain] has a configuration, so the
    [Unsupported OLX domain] branch is not reachable from typed code. *)
Definition getDomainConfig (d : OlxDomain) : DomainConfig := OLX_DOMAIN_CONFIGS d.

End Platform.

(** The lower-casing of ASCII text, with which [toLowerCase] agrees on
    every string of ASCII characters. *)
Definition ascii_lower (a : ascii) : ascii :=
  if is_upper a then ascii_of_N (code a + 32) else a.

Fixpoint ascii_toLowerCase (s : string) : string :=
  match s with
  | EmptyString => ""
  | String a s1 => String (ascii_lower a) (ascii_toLowerCase s1)
  end.

End Config.

(** ** [validation/schemas/listing.schema.ts]

    The input of a schema is the record a typed caller passes: every
    field has its declared type, optional fields may be absent, and
    every number is an integer.  An input of another shape (no object,
    a field of another type, a number with a fraction) is outside this
    model.  Issues are reported with zod's default messages. *)

Module Schema.

Import Js Types.

(** [s.length]: UTF-16 code units of a UTF-8 encoded string. *)
Fixpoint js_length (s : string) : Z :=
  match s with
  | EmptyString => 0
  | String a s1 =>
      (if in_range 128 191 a then 0 else if N.leb 240 (code a) then 2 else 1)
      + js_length s1
  end.

Definition issue (field message : string) : ZodIssue :=
  {| path := [Key field]; issue_message := message |}.

Definition parse_domain (s : string) : option OlxDomain :=
  if String.eqb s "olx.pt" then Some olx_pt
  else if String.eqb s "olx.pl" then Some olx_pl
  else if String.eqb s "olx.bg" then Some olx_bg
  else if String.eqb s "olx.ro" then Some olx_ro
  else if String.eqb s "olx.ua" then Some olx_ua
  else None.

Definition parse_sortBy (s : string) : option SortBy :=
  if String.eqb s "relevance" then Some relevance
  else if String.eqb s "date" then Some date
  else if String.eqb s "price-asc" then Some price_asc
  else if String.eqb s "price-desc" then Some price_desc
  else None.

Definition domain_issue (s : string) : ZodIssue :=
  issue "domain"
    ("Invalid enum value. Expected 'olx.pt' | 'olx.pl' | 'olx.bg' | 'olx.ro' | 'olx.ua', received '"
     ++ s ++ "'").

Definition sortBy_issue (s : string) : ZodIssue :=
  issue "sortBy"
    ("Invalid enum value. Expected 'relevance' | 'date' | 'price-asc' | 'price-desc', received '"
     ++ s ++ "'").

(** [z.number().min(lo)] and [.max(hi)] on an optional field. *)
Definition check_min (field : string) (lo : Z) (v : option Z) : list ZodIssue :=
  match v with
  | Some n =>
      if (n <? lo)%Z
      then [issue field ("Number must be greater than or equal to " ++ number_toString lo)]
      else []
  | None => []
  end.

Definition check_max (field : string) (hi : Z) (v : option Z) : list ZodIssue :=
  match v with
  | Some n =>
      if (hi <? n)%Z
      then [issue field ("Number must be less than or equal to " ++ number_toString hi)]
      else []
  | None => []
  end.

(** [z.string().min(1).max(100)] on an optional field. *)
Definition check_query (v : option string) : list ZodIssue :=
  match v with
  | Some s =>
      ((if (js_length s <? 1)%Z
        then [issue "query" "String must contain at least 1 character(s)"] else [])
       ++ (if (100 <? js_length s)%Z
           then [issue "query" "String must contain at most 100 character(s)"] else []))%list
  | None => []
  end.

Record SearchListingsInput := {
  in_domain : string;
  in_query : option string;
  in_category : option string;
  in_location : option string;
  in_minPrice : option Z;
  in_maxPrice : option Z;
  in_page : option Z;
  in_limit : option Z;
  in_sortBy : option string
}.

Record SearchListingsArgs := {
  domain : OlxDomain;
  query : option string;
  category : option string;
  location : option string;
  minPrice : option Z;
  maxPrice : option Z;
  page : Z;
  limit : Z;
  sortBy : SortBy
}.

(** [data => !data.maxPrice || !data.minPrice || data.maxPrice >= data.minPrice] *)
Definition price_range_ok (lo hi : option Z) : bool :=
  (negb (truthy_num hi) || negb (truthy_num lo)
   || (default 0 lo <=? default 0 hi)%Z)%bool.

(** [data => data.query || data.category || data.location] *)
Definition some_criterion (q c l : option string) : bool :=
  (truthy_opt q || truthy_opt c || truthy_opt l)%bool.

Definition refinement_issues (i : SearchListingsInput) : list ZodIssue :=
  ((if price_range_ok (in_minPrice i) (in_maxPrice i) then []
    else [issue "maxPrice" "Max price must be greater than or equal to min price"])
   ++ (if some_criterion (in_query i) (in_category i) (in_location i) then []
       else [issue "query" "At least one of query, category, or location must be provided"]))%list.

Definition field_issues (i : SearchListingsInput) : list ZodIssue :=
  (check_query (in_query i)
   ++ check_min "minPrice" 0 (in_minPrice i)
   ++ check_min "maxPrice" 0 (in_maxPrice i)
   ++ check_min "page" 1 (in_page i)
   ++ check_min "limit" 1 (in_limit i)
   ++ check_max "limit" 50 (in_limit i))%list.

(** [SearchListingsArgsSchema.parse]: the issues, or the arguments with
    the defaults filled in.  The two refinements run when no field had
    the wrong shape (here: when both enumerations parsed). *)
Definition SearchListingsArgsSchema (i : SearchListingsInput)
  : list ZodIssue + SearchListingsArgs :=
  match parse_domain (in_domain i),
        match in_sortBy i with Some s => parse_sortBy s | None => Some relevance end with
  | Some d, Some s =>
      match (field_issues i ++ refinement_issues i)%list with
      | [] =>
          inr {| domain := d;
                 query := in_query i;
                 category := in_category i;
                 location := in_location i;
                 minPrice := in_minPrice i;
                 maxPrice := in_maxPrice i;
                 page := default 1 (in_page i);
                 limit := default 20 (in_limit i);
                 sortBy := s |}
      | issues => inl issues
      end
  | od, os =>
      inl ((match od with None => [domain_issue (in_domain i)] | Some _ => [] end)
           ++ field_issues i
           ++ match os with None => [sortBy_issue (default "" (in_sortBy i))] | Some _ => [] end)%list
  end.

Record GetListingDetailsInput := {
  din_domain : string;
  din_listingId : string;
  din_includeImages : option bool;
  din_includeSellerInfo : option bool
}.

Record GetListingDetailsArgs := {
  d_domain : OlxDomain;
  listingId : string;
  includeImages : bool;
  includeSellerInfo : bool
}.

Definition GetListingDetailsArgsSchema (i : GetListingDetailsInput)
  : list ZodIssue + GetListingDetailsArgs :=
  match parse_domain (din_domain i),
        (if (js_length (din_listingId i) <? 1)%Z
         then [issue "listingId" "String must contain at least 1 character(s)"] else []) with
  | Some d, [] =>
      inr {| d_domain := d;
             listingId := din_listingId i;
             includeImages := default false (din_includeImages i);
             includeSellerInfo := default true (din_includeSellerInfo i) |}
  | od, issues =>
      inl ((match od with None => [domain_issue (din_domain i)] | Some _ => [] end)
           ++ issues)%list
  end.

End Schema.

(** ** The browser, the clock and the web

    The browser driver is outside the engine.  A page answers selector
    queries with the elements that match, in document order; an element
    answers the same queries for its own subtree.  What a navigation
    finds is decided by the web, and may differ from one navigation to
    the next. *)

Module Browser.

Import Js Types.

#[local] Unset Elimination Schemes.
Inductive Element := mkElement {
  textContent : option string;
  getAttribute : string -> option string;
  querySelectorAll : string -> list Element
}.
#[local] Set Elimination Schemes.

Definition Document : Type := string -> list Element.

Definition blank : Document := fun _ => [].

Inductive Response :=
| Loaded (doc : Document)
| NavigationFailed (error : Value).

Inductive Event :=
| NewPage
| ClosePage
| Goto (url : string)
| Timer (ms : Z).

Definition is_goto (e : Event) : bool :=
  match e with Goto _ => true | _ => false end.

Definition UrlCache : Type := gmap string string.

Record World := {
  web : nat -> string -> Response;
  clock : nat -> Z;
  clock_reads : nat;
  log : list Event;
  document : Document;
  scrapers : OlxDomain -> option (gmap string string)
}.

(** The URLs navigated to so far, latest first. *)
Fixpoint navigations (l : list Event) : list string :=
  match l with
  | [] => []
  | Goto u :: l' => u :: navigations l'
  | _ :: l' => navigations l'
  end.

(** The timer delays so far, latest first. *)
Fixpoint timers (l : list Event) : list Z :=
  match l with
  | [] => []
  | Timer ms :: l' => ms :: timers l'
  | _ :: l' => timers l'
  end.

Definition record (e : Event) (w : World) : World :=
  {| web := web w; clock := clock w; clock_reads := clock_reads w;
     log := e :: log w; document := document w; scrapers := scrapers w |}.

Definition show (d : Document) (w : World) : World :=
  {| web := web w; clock := clock w; clock_reads := clock_reads w;
     log := log w; document := d; scrapers := scrapers w |}.

(** An [AbortSignal] is a flag someone else may raise at any time: its
    reading depends on the state of the world when it is read. *)
Definition AbortSignal (W : Type) : Type := W -> bool.

(** [signal?.aborted] *)
Definition aborted {W} (signal : option (AbortSignal W)) : Async W bool :=
  fun w => (Returns (match signal with Some s => s w | None => false end), w).

(** [browser.newPage(options)] *)
Definition newPage : Async World unit :=
  fun w => (Returns tt, show blank (record NewPage w)).

(** [page.close()] *)
Definition page_close : Async World unit :=
  fun w => (Returns tt, record ClosePage w).

(** [page.goto(url, options)] *)
Definition goto (url : string) : Async World unit :=
  fun w =>
    match web w (List.length (navigations (log w))) url with
    | Loaded doc => (Returns tt, show doc (record (Goto url) w))
    | NavigationFailed error => (Throws error, record (Goto url) w)
    end.

Definition no_element (selector : string) : Value :=
  ErrorValue (Error ("failed to find element matching selector " ++ selector)).

(** [page.$$(selector)], [page.$(selector)], [page.$eval(selector, f)] *)
Definition page_queryAll (selector : string) : Async World (list Element) :=
  fun w => (Returns (document w selector), w).

Definition page_query (selector : string) : Async World (option Element) :=
  fun w => (Returns (head (document w selector)), w).

Definition page_eval {A} (selector : string) (f : Element -> A) : Async World A :=
  fun w =>
    match document w selector with
    | el :: _ => (Returns (f el), w)
    | [] => (Throws (no_element selector), w)
    end.

(** [element.$eval(selector, f)] *)
Definition element_eval {W A} (el : Element) (selector : string) (f : Element -> A)
  : Async W A :=
  match querySelectorAll el selector with
  | e :: _ => ret (f e)
  | [] => throw (no_element selector)
  end.

(** [Date.now()] *)
Definition Date_now : Async World Z :=
  fun w =>
    (Returns (clock w (clock_reads w)),
     {| web := web w; clock := clock w; clock_reads := S (clock_reads w);
        log := log w; document := document w; scrapers := scrapers w |}).

(** [await new Promise(resolve => setTimeout(resolve, ms))] *)
Definition setTimeout (ms : Z) (w : World) : World := record (Timer ms) w.

(** [el => el.textContent?.trim() || ''] *)
Definition trimmed_text (el : Element) : string :=
  match textContent el with Some t => trim t | None => "" end.

(** [a || b] on attribute readings *)
Definition or_else (a b : option string) : option string :=
  if truthy_opt a then a else b.

End Browser.

(** ** [scrapers/base/scraper.interface.ts] *)

Module ScraperBase.

Import Js Types Browser.

Section RetryOperation.

Context {W T : Type}.

(** The state after a timer of [ms] milliseconds has run out. *)
Variable sleep : Z -> W -> W.

(** [Math.min(1000 * Math.pow(2, attempt - 1), 10000)] *)
Definition delay (attempt : Z) : Z := Z.min (1000 * 2 ^ (attempt - 1)) 10000.

(** The [for] loop of [retryOperation], entered at [attempt] with
    [todo] iterations left before [attempt <= maxRetries] fails. *)
Fixpoint retry_loop (operation : Async W T) (maxRetries : Z)
    (todo : nat) (attempt : Z) (lastError : Value) : Async W T :=
  fun w =>
    match todo with
    | O => (Throws lastError, w)
    | S todo' =>
        match operation w with
        | (Returns v, w1) => (Returns v, w1)
        | (Throws error, w1) =>
            match toError error with
            | Throws typeError => (Throws typeError, w1)
            | Returns e =>
                let lastError := ErrorValue e in
                if attempt =? maxRetries then (Throws lastError, w1)
                else retry_loop operation maxRetries todo' (attempt + 1) lastError
                       (sleep (delay attempt) w1)
            end
        end
    end.

Definition retryOperation (operation : Async W T) (maxRetries : Z) : Async W T :=
  retry_loop operation maxRetries (Z.to_nat maxRetries) 1 Undefined.

End RetryOperation.

(** [withPage(fn, signal)] *)
Definition withPage {T} (fn : Async World T) (signal : option (AbortSignal World))
  : Async World T :=
  newPage ;;;
  try_finally
    (a <- aborted signal ;;
     if a : bool then throw (ErrorValue (Error "Operation cancelled"))
     else fn)
    page_close.

End ScraperBase.

(** ** [tools/base/base-tool.ts] *)

Module BaseTool.

Import Js Types Browser.

Section Execute.

Context {W TInput TArgs TResult : Type}.

(** [this.inputSchema.parse], which throws a [ZodError]. *)
Variable parse : TInput -> Async W TArgs.

Variable executeImpl : TArgs -> option (AbortSignal W) -> Async W TResult.

(** [err => `${err.path.join('.')}: ${err.message}`] *)
Definition format_issue (err : ZodIssue) : string :=
  path_join (path err) ++ ": " ++ issue_message err.

Definition formattedErrors (errors : list ZodIssue) : string :=
  join ", " (List.map format_issue errors).

Definition execute (args : TInput) (signal : option (AbortSignal W))
  : Async W (Result TResult) :=
  try_catch
    (a <- aborted signal ;;
     (if a : bool then throw (ErrorValue (Error "Operation cancelled")) else ret tt) ;;;
     validatedArgs <- parse args ;;
     result <- executeImpl validatedArgs signal ;;
     ret (createResult result))
    (fun error =>
       match error with
       | ErrorValue (ZodError errors) =>
           ret (createError (inr ("Validation error: " ++ formattedErrors errors)))
       | _ => e <- eval (toError error) ;; ret (createError (inl e))
       end).

End Execute.

(** A schema that reports issues throws them as a [ZodError]. *)
Definition parse_with {W I A} (schema : I -> list ZodIssue + A) (i : I) : Async W A :=
  match schema i with
  | inl issues => throw (ErrorValue (ZodError issues))
  | inr a => ret a
  end.

End BaseTool.

(** ** [scrapers/olx/base-olx.scraper.ts] and the locale scrapers *)

Module Scraper.

Import Js Types Url Config Browser ScraperBase.

(** [url.match(/ID([A-Za-z0-9]+)\.html/)?.[1]]: the match starts at the
    leftmost [ID] that is followed by a run of letters and digits and
    then by [.html]; the run is taken whole, since the character after
    a shorter run is no dot. *)
Fixpoint span_alnum (s : string) : string * string :=
  match s with
  | EmptyString => ("", "")
  | String a s1 =>
      if is_alnum a then let (run, rest) := span_alnum s1 in (String a run, rest)
      else ("", s)
  end.

Definition id_token_here (after_ID : string) : option string :=
  let (run, rest) := span_alnum after_ID in
  if (truthy run && starts_with ".html" rest)%bool then Some run else None.

Fixpoint match_ID_html (s : string) : option string :=
  match s with
  | EmptyString => None
  | String a s1 =>
      match (if Ascii.eqb a "I"
             then match s1 with
                  | String b s2 => if Ascii.eqb b "D" then id_token_here s2 else None
                  | EmptyString => None
                  end
             else None) with
      | Some token => Some token
      | None => match_ID_html s1
      end
  end.

(** [text.match(/(\d+)/)]: the first run of digits. *)
Fixpoint span_digits (s : string) : string * string :=
  match s with
  | EmptyString => ("", "")
  | String a s1 =>
      if is_digit a then let (run, rest) := span_digits s1 in (String a run, rest)
      else ("", s)
  end.

Fixpoint match_digits (s : string) : option string :=
  match s with
  | EmptyString => None
  | String a s1 =>
      if is_digit a then Some (fst (span_digits s)) else match_digits s1
  end.

(** The integer that a run of digits denotes. *)
Fixpoint parseInt_from (acc : Z) (s : string) : Z :=
  match s with
  | EmptyString => acc
  | String a s1 =>
      if is_digit a then parseInt_from (10 * acc + (Z.of_N (code a) - 48)) s1
      else acc
  end.

(** [parseInt(digits, 10)] on a run of digits: the Number value of the
    integer they denote. *)
Definition parseInt (s : string) : Num := Number_of_integer (parseInt_from 0 s).

(** [Math.ceil(a / b)] for a positive [b]. *)
Definition Math_ceil_div (a : Num) (b : Z) : Num := Math_ceil_quotient a b.

(** The class the factory instantiates for a domain. *)
Inductive ScraperClass := OLXPTScraper | OLXPLScraper | GenericOlxScraper.

Definition scraper_class (d : OlxDomain) : ScraperClass :=
  match d with
  | olx_pt => OLXPTScraper
  | olx_pl => OLXPLScraper
  | olx_bg => GenericOlxScraper
  | olx_ro => GenericOlxScraper
  | olx_ua => GenericOlxScraper
  end.

(** The [ScraperConfig] the base constructor passes on. *)
Definition config_timeout : Z := 30000.
Definition config_retries : Z := 3.

(** The cache of the scraper the factory holds for [d]. *)
Definition urlCache (d : OlxDomain) (w : World) : gmap string string :=
  default ∅ (scrapers w d).

Definition with_scraper (d : OlxDomain) (c : option (gmap string string)) (w : World)
  : World :=
  {| web := web w; clock := clock w; clock_reads := clock_reads w;
     log := log w; document := document w;
     scrapers := fun d' => if domain_eqb d' d then c else scrapers w d' |}.

(** [this.urlCache.get(id)] and [this.urlCache.set(id, url)] *)
Definition urlCache_get (d : OlxDomain) (listing : string) : Async World (option string) :=
  fun w => (Returns (urlCache d w !! listing), w).

Definition urlCache_set (d : OlxDomain) (listing url : string) : Async World unit :=
  fun w => (Returns tt, with_scraper d (Some (<[listing := url]> (urlCache d w))) w).

(** [extractListingId], the same text in the three classes. *)
Definition OLXPTScraper_extractListingId (url : string) : Async World string :=
  match match_ID_html url with
  | Some matchedId => ret matchedId
  | None => now <- Date_now ;; ret (number_toString now)
  end.

Definition OLXPLScraper_extractListingId (url : string) : Async World string :=
  match match_ID_html url with
  | Some matchedId => ret matchedId
  | None => now <- Date_now ;; ret (number_toString now)
  end.

Definition GenericOlxScraper_extractListingId (url : string) : Async World string :=
  match match_ID_html url with
  | Some matchedId => ret matchedId
  | None => now <- Date_now ;; ret (number_toString now)
  end.

Definition extractListingId (d : OlxDomain) (url : string) : Async World string :=
  match scraper_class d with
  | OLXPTScraper => OLXPTScraper_extractListingId url
  | OLXPLScraper => OLXPLScraper_extractListingId url
  | GenericOlxScraper => GenericOlxScraper_extractListingId url
  end.

(** [`[data-cy="l-card"] a[href*="ID${listingId}"]`] *)
Definition card_link_selector (listingId : string) : string :=
  attr "data-cy" "l-card" ++ " a[href*=" ++ dq ++ "ID" ++ listingId ++ dq ++ "]".

Section Platform.

Variable toLowerCase : string -> string.

(** [new URL(input, base)]; [None] when the constructor throws. *)
Variable URL_new : string -> string -> option URL.

Definition invalid_URL : Value := ErrorValue (Error "Invalid URL").

Definition new_URL {W} (input base : string) : Async W URL :=
  match URL_new input base with
  | Some u => ret u
  | None => throw invalid_URL
  end.

Definition domainConfig (d : OlxDomain) : DomainConfig := getDomainConfig toLowerCase d.

(** [findListingUrl] of the three classes. *)
Definition OLXPTScraper_findListingUrl (d : OlxDomain) (listingId : string)
  : Async World string :=
  try_catch
    (goto (baseUrl (domainConfig d) ++ "/ads/q-" ++ listingId ++ "/") ;;;
     listingLink <- try_catch
                      (page_eval (card_link_selector listingId)
                         (fun el => getAttribute el "href"))
                      (fun _ => ret None) ;;
     if truthy_opt listingLink then
       u <- new_URL (default "" listingLink) (baseUrl (domainConfig d)) ;;
       ret (toString u)
     else ret "")
    (fun _ => ret "").

Definition OLXPLScraper_findListingUrl (d : OlxDomain) (listingId : string)
  : Async World string :=
  try_catch
    (goto (baseUrl (domainConfig d) ++ "/oferty/q-" ++ listingId ++ "/") ;;;
     listingLink <- try_catch
                      (page_eval (card_link_selector listingId)
                         (fun el => getAttribute el "href"))
                      (fun _ => ret None) ;;
     if truthy_opt listingLink then
       u <- new_URL (default "" listingLink) (baseUrl (domainConfig d)) ;;
       ret (toString u)
     else ret "")
    (fun _ => ret "").

Definition GenericOlxScraper_findListingUrl (d : OlxDomain) (listingId : string)
  : Async World string :=
  try_catch
    (let searchPath :=
       if domain_eqb (config_domain (domainConfig d)) olx_pl then "/oferty/" else "/ads/" in
     goto (baseUrl (domainConfig d) ++ searchPath ++ "q-" ++ listingId ++ "/") ;;;
     listingLink <- try_catch
                      (page_eval (card_link_selector listingId)
                         (fun el => getAttribute el "href"))
                      (fun _ => ret None) ;;
     if truthy_opt listingLink then
       u <- new_URL (default "" listingLink) (baseUrl (domainConfig d)) ;;
       ret (toString u)
     else ret "")
    (fun _ => ret "").

Definition findListingUrl (d : OlxDomain) (listingId : string) : Async World string :=
  match scraper_class d with
  | OLXPTScraper => OLXPTScraper_findListingUrl d listingId
  | OLXPLScraper => OLXPLScraper_findListingUrl d listingId
  | GenericOlxScraper => GenericOlxScraper_findListingUrl d listingId
  end.

(** *** The abstract base class

    [BaseOlxScraper] leaves [extractListingId] and [findListingUrl] to
    its subclasses; its methods are written against the two hooks. *)

Section BaseOlxScraper.

Variable this_extractListingId : string -> Async World string.
Variable this_findListingUrl : string -> Async World string.

(** The URL object of [buildSearchUrl] as it stands at [return]. *)
Definition buildSearchUrl_object (cfg : DomainConfig) (filters : SearchFilters)
  : option URL :=
  let path := searchPath (urlPatterns cfg) (location filters) (query filters) in
  match URL_new path (baseUrl cfg) with
  | None => None
  | Some url =>
      let url :=
        if truthy_opt (category filters)
        then searchParams_set (categoryParam (urlPatterns cfg))
               (default "" (category filters)) url
        else url in
      let url :=
        if truthy_num (minPrice filters)
        then searchParams_set (priceParams_min (urlPatterns cfg))
               (number_toString (default 0 (minPrice filters))) url
        else url in
      let url :=
        if truthy_num (maxPrice filters)
        then searchParams_set (priceParams_max (urlPatterns cfg))
               (number_toString (default 0 (maxPrice filters))) url
        else url in
      let url :=
        match sortBy filters with
        | Some relevance => url
        | Some s =>
            match sortParams (urlPatterns cfg) s with
            | Some sortValue =>
                if truthy sortValue then searchParams_set "search[order]" sortValue url
                else url
            | None => url
            end
        | None => url
        end in
      let url :=
        if (truthy_num (page filters) && (1 <? default 0 (page filters)))%bool
        then searchParams_set (pageParam (urlPatterns cfg))
               (number_toString (default 0 (page filters))) url
        else url in
      Some url
  end.

Definition buildSearchUrl (cfg : DomainConfig) (filters : SearchFilters)
  : option string :=
  option_map toString (buildSearchUrl_object cfg filters).

(** [waitForSearchResults]: both waits are raced and a time-out is
    swallowed, so the page is read as it stands either way. *)
Definition waitForSearchResults : Async World unit := ret tt.

(** One iteration of the loop of [extractListings]: the listings so far,
    with this card's listing pushed unless the card is skipped. *)
Definition extract_card (d : OlxDomain) (element : Element) (listings : list Listing)
  : Async World (list Listing) :=
  let sel := selectors (domainConfig d) in
  try_catch
    (title <- try_catch (element_eval element (search_title sel) trimmed_text)
                (fun _ => ret "") ;;
     price <- try_catch (element_eval element (search_price sel) trimmed_text)
                (fun _ => ret "") ;;
     let finalPrice := or_undefined price in
     location <- try_catch (element_eval element (search_location sel) trimmed_text)
                   (fun _ => ret "") ;;
     let finalLocation := or_undefined location in
     imageUrl <- try_catch
                   (element_eval element (search_image sel)
                      (fun el => default ""
                                   (or_else (getAttribute el "src")
                                            (getAttribute el "data-src"))))
                   (fun _ => ret "") ;;
     let finalImageUrl := or_undefined imageUrl in
     relativeUrl <- try_catch
                      (element_eval element (search_link sel)
                         (fun el => default "" (getAttribute el "href")))
                      (fun _ => ret "") ;;
     if (negb (truthy title) || negb (truthy relativeUrl))%bool then ret listings
     else
       u <- new_URL relativeUrl (baseUrl (domainConfig d)) ;;
       let url := toString u in
       id <- this_extractListingId relativeUrl ;;
       urlCache_set d id url ;;;
       ret (listings ++ [ {| id := id;
                             title := title;
                             price := finalPrice;
                             listing_location := finalLocation;
                             imageUrl := finalImageUrl;
                             url := url;
                             description := None;
                             seller := None |} ])%list)
    (fun _ => ret listings).

Fixpoint extract_cards (d : OlxDomain) (elements : list Element) (listings : list Listing)
  : Async World (list Listing) :=
  match elements with
  | [] => ret listings
  | element :: rest =>
      listings' <- extract_card d element listings ;;
      extract_cards d rest listings'
  end.

Definition extractListings (d : OlxDomain) : Async World (list Listing) :=
  listingElements <- page_queryAll (search_listingCard (selectors (domainConfig d))) ;;
  extract_cards d listingElements [].

(** [el => { const match = (el.textContent || '').match(/(\d+)/);
             return match && match[1] ? parseInt(match[1], 10) : 0 }] *)
Definition count_of (el : Element) : Num :=
  match match_digits (default "" (textContent el)) with
  | Some digits => if truthy digits then parseInt digits else Finite 0
  | None => Finite 0
  end.

Record Pagination := {
  p_totalCount : Num;
  p_currentPage : Z;
  p_totalPages : Num;
  p_hasNextPage : bool
}.

Definition extractPaginationInfo (d : OlxDomain) (currentPage : Z)
  : Async World Pagination :=
  let sel := selectors (domainConfig d) in
  totalCount <- try_catch (page_eval (search_totalCount sel) count_of)
                  (fun _ => ret (Finite 0)) ;;
  next <- page_query (search_nextPage sel) ;;
  let hasNextPage := match next with Some _ => true | None => false end in
  let itemsPerPage := 40 in
  let totalPages := Math_ceil_div totalCount itemsPerPage in
  ret {| p_totalCount := totalCount;
         p_currentPage := currentPage;
         p_totalPages := Math_max totalPages (Finite 1);
         p_hasNextPage := hasNextPage |}.

Definition cancelled : Value := ErrorValue (Error "Operation cancelled").

Definition performSearch (d : OlxDomain) (filters : SearchFilters)
    (signal : option (AbortSignal World)) : Async World SearchResult :=
  withPage
    (searchUrl <- match buildSearchUrl (domainConfig d) filters with
                  | Some s => ret s
                  | None => throw invalid_URL
                  end ;;
     goto searchUrl ;;;
     waitForSearchResults ;;;
     a <- aborted signal ;;
     if a : bool then throw cancelled
     else
       listings <- extractListings d ;;
       pagination <- extractPaginationInfo d
                       (if truthy_num (page filters) then default 0 (page filters) else 1) ;;
       ret {| listings := listings;
              totalCount := p_totalCount pagination;
              currentPage := p_currentPage pagination;
              totalPages := p_totalPages pagination;
              hasNextPage := p_hasNextPage pagination |})
    signal.

Definition scrape (d : OlxDomain) (filters : SearchFilters)
    (signal : option (AbortSignal World)) : Async World (Result SearchResult) :=
  try_catch
    (result <- retryOperation setTimeout (performSearch d filters signal) config_retries ;;
     ret (createResult result))
    (fun error => e <- eval (toError error) ;; ret (createError (inl e))).

Definition extractSellerInfo (d : OlxDomain) : Async World (option SellerInfo) :=
  let sel := selectors (domainConfig d) in
  nameText <- try_catch (page_eval (detail_seller_name sel) trimmed_text)
                (fun _ => ret "") ;;
  let name := or_undefined nameText in
  badge <- page_query (detail_seller_verified sel) ;;
  let verified := match badge with Some _ => true | None => false end in
  ret (if (truthy_opt name || verified)%bool
       then Some {| seller_name := name; verified := verified |}
       else None).

Definition not_found (listingId : string) : Value :=
  ErrorValue (Error ("Listing with ID " ++ listingId
                     ++ " not found. Try searching first to cache the URL.")).

Definition performGetListingDetails (d : OlxDomain) (listingId : string)
    (signal : option (AbortSignal World)) : Async World Listing :=
  let sel := selectors (domainConfig d) in
  withPage
    (cachedUrl <- urlCache_get d listingId ;;
     finalUrl <- (if truthy_opt cachedUrl then ret (default "" cachedUrl)
                  else this_findListingUrl listingId) ;;
     if negb (truthy finalUrl) then throw (not_found listingId)
     else
       goto finalUrl ;;;
       a <- aborted signal ;;
       if a : bool then throw cancelled
       else
         title <- try_catch (page_eval (detail_title sel) trimmed_text)
                    (fun _ => ret "") ;;
         priceText <- try_catch (page_eval (detail_price sel) trimmed_text)
                        (fun _ => ret "") ;;
         let price := or_undefined priceText in
         descriptionText <- try_catch (page_eval (detail_description sel) trimmed_text)
                              (fun _ => ret "") ;;
         let description := or_undefined descriptionText in
         locationText <- try_catch (page_eval (detail_location sel) trimmed_text)
                           (fun _ => ret "") ;;
         let location := or_undefined locationText in
         seller <- extractSellerInfo d ;;
         ret {| id := listingId;
                title := title;
                price := price;
                listing_location := location;
                imageUrl := None;
                url := finalUrl;
                description := description;
                seller := seller |})
    signal.

Definition getListingDetails (d : OlxDomain) (listingId : string)
    (signal : option (AbortSignal World)) : Async World (Result Listing) :=
  try_catch
    (result <- retryOperation setTimeout (performGetListingDetails d listingId signal)
                 config_retries ;;
     ret (createResult result))
    (fun error => e <- eval (toError error) ;; ret (createError (inl e))).


End BaseOlxScraper.

(** *** The scraper the factory makes for a domain *)

Definition scraper_scrape (d : OlxDomain) :=
  scrape (extractListingId d) d.

Definition scraper_getListingDetails (d : OlxDomain) :=
  getListingDetails (findListingUrl d) d.

End Platform.

End Scraper.

(** ** [scrapers/olx/scraper.factory.ts]

    A scraper instance is identified with the domain it was made for:
    the factory holds at most one per domain, and the instance's only
    state is its URL cache. *)

Module Factory.

Import Js Types Browser Scraper.

Definition createScraper (d : OlxDomain) : Async World OlxDomain :=
  fun w =>
    match scrapers w d with
    | Some _ => (Returns d, w)
    | None => (Returns d, with_scraper d (Some ∅) w)
    end.

Definition getScraper (d : OlxDomain) : Async World OlxDomain := createScraper d.

Definition hasScraper (d : OlxDomain) : Async World bool :=
  fun w => (Returns (match scrapers w d with Some _ => true | None => false end), w).

Definition clearCache : Async World unit :=
  fun w =>
    (Returns tt,
     {| web := web w; clock := clock w; clock_reads := clock_reads w;
        log := log w; document := document w; scrapers := fun _ => None |}).

End Factory.

(** ** [tools/search/search-listings.tool.ts] and
       [tools/listing/get-listing-details.tool.ts] *)

Module Tools.

Import Js Types Browser Scraper.

Section Platform.

Variable toLowerCase : string -> string.
Variable URL_new : string -> string -> option Url.URL.

Definition filters_of (args : Schema.SearchListingsArgs) : SearchFilters :=
  {| domain := Schema.domain args;
     query := Schema.query args;
     category := Schema.category args;
     location := Schema.location args;
     minPrice := Schema.minPrice args;
     maxPrice := Schema.maxPrice args;
     page := Some (Schema.page args);
     limit := Some (Schema.limit args);
     sortBy := Some (Schema.sortBy args) |}.

Definition SearchListingsTool_executeImpl (args : Schema.SearchListingsArgs)
    (signal : option (AbortSignal World)) : Async World SearchResult :=
  scraper <- Factory.getScraper (Schema.domain args) ;;
  let filters := filters_of args in
  result <- scraper_scrape toLowerCase URL_new scraper filters signal ;;
  match result with
  | Failure error => throw (ErrorValue error)
  | Success data => ret data
  end.

Definition searchListings (args : Schema.SearchListingsInput)
    (signal : option (AbortSignal World)) : Async World (Result SearchResult) :=
  BaseTool.execute (BaseTool.parse_with Schema.SearchListingsArgsSchema)
    SearchListingsTool_executeImpl args signal.

Definition GetListingDetailsTool_executeImpl (args : Schema.GetListingDetailsArgs)
    (signal : option (AbortSignal World)) : Async World Listing :=
  scraper <- Factory.getScraper (Schema.d_domain args) ;;
  let listingId := Schema.listingId args in
  result <- scraper_getListingDetails toLowerCase URL_new scraper listingId signal ;;
  match result with
  | Failure error => throw (ErrorValue error)
  | Success data => ret data
  end.

Definition getListingDetailsTool (args : Schema.GetListingDetailsInput)
    (signal : option (AbortSignal World)) : Async World (Result Listing) :=
  BaseTool.execute (BaseTool.parse_with Schema.GetListingDetailsArgsSchema)
    GetListingDetailsTool_executeImpl args signal.

End Platform.

End Tools.

(** ** [scrapers/olx/domain-config.ts]: the queries on the table *)

Module Domains.

Import Js Types.

(** [Object.keys(OLX_DOMAIN_CONFIGS)]: the keys in the order of the
    object literal. *)
Definition getSupportedDomains : list string :=
  ["olx.pt"; "olx.pl"; "olx.bg"; "olx.ro"; "olx.ua"].

Section Platform.

(** The property names an object literal inherits from
    [Object.prototype] ([toString], [constructor], ...): the [in]
    operator finds them too. *)
Variable Object_prototype_has : string -> bool.

(** [domain in OLX_DOMAIN_CONFIGS] *)
Definition isDomainSupported (domain : string) : bool :=
  (existsb (String.eqb domain) getSupportedDomains || Object_prototype_has domain)%bool.

End Platform.

End Domains.

(** ** [tools/base/base-tool.ts]: [validateAndTransform] *)

Module Validation.

Import Js Types.

Section ValidateAndTransform.

Context {W TData T : Type}.

(** [schema.parse], which throws a [ZodError]. *)
Variable parse : TData -> Async W T.

Definition validateAndTransform (data : TData) : Async W (Result T) :=
  try_catch
    (validated <- parse data ;;
     ret (createResult validated))
    (fun error =>
       match error with
       | ErrorValue (ZodError errors) =>
           ret (createError (inr ("Validation error: " ++ BaseTool.formattedErrors errors)))
       | _ => e <- eval (toError error) ;; ret (createError (inl e))
       end).

End ValidateAndTransform.

End Validation.

(** ** [core/tool-registry.ts]

    The registry is a [Map] from names to tools; a [Map] keeps its
    entries in the order in which their keys were first set. *)

Module Registry.

Import Js Types.

Section ToolRegistry.

(** [MCPTool], of which the registry reads the [name]. *)
Variable MCPTool : Type.
Variable tool_name : MCPTool -> string.

Definition Tools : Type := list (string * MCPTool).

Definition empty : Tools := [].

(** [this.tools.has(name)] *)
Definition has (name : string) (tools : Tools) : bool :=
  existsb (fun entry => String.eqb (fst entry) name) tools.

(** [this.tools.get(name)] *)
Fixpoint get (name : string) (tools : Tools) : option MCPTool :=
  match tools with
  | [] => None
  | (n, tool) :: rest => if String.eqb n name then Some tool else get name rest
  end.

(** [this.tools.set(name, tool)]: the value of an existing key is
    replaced in place, a new key goes to the end. *)
Fixpoint Map_set (name : string) (tool : MCPTool) (tools : Tools) : Tools :=
  match tools with
  | [] => [(name, tool)]
  | (n, t) :: rest =>
      if String.eqb n name then (n, tool) :: rest else (n, t) :: Map_set name tool rest
  end.

(** [this.tools.delete(name)] *)
Definition Map_delete (name : string) (tools : Tools) : Tools :=
  List.filter (fun entry => negb (String.eqb (fst entry) name)) tools.

Definition register (tool : MCPTool) : Async Tools unit :=
  fun tools =>
    if has (tool_name tool) tools
    then (Throws (ErrorValue (Error ("Tool " ++ tool_name tool ++ " already registered"))),
          tools)
    else (Returns tt, Map_set (tool_name tool) tool tools).

Definition getAllTools (tools : Tools) : list MCPTool := List.map snd tools.

Definition hasTools (tools : Tools) : bool := (0 <? Z.of_nat (List.length tools))%Z.

Definition getToolNames (tools : Tools) : list string := List.map fst tools.

Definition unregister (name : string) : Async Tools bool :=
  fun tools => (Returns (has name tools), Map_delete name tools).

Definition clear : Async Tools unit := fun _ => (Returns tt, []).

End ToolRegistry.

End Registry.

(** * Properties of the embedding *)

Import Js Types Url Config Browser ScraperBase Scraper.

(** ** Strings *)

Lemma append_cons (x : ascii) (a b : string) : String x a ++ b = String x (a ++ b).
Proof. reflexivity. Qed.

Lemma append_assoc (a b c : string) : (a ++ b) ++ c = a ++ (b ++ c).
Proof.
  induction a as [|x a IH]; [reflexivity|].
  rewrite !append_cons. now rewrite IH.
Qed.

Lemma truthy_cons (s : string) : truthy s = true -> exists a s', s = String a s'.
Proof. destruct s as [|a s']; [discriminate | eauto]. Qed.

Lemma truthy_append_l (a b : string) : truthy a = true -> truthy (a ++ b) = true.
Proof. destruct a; [discriminate | reflexivity]. Qed.

(** ** The search path of the five configurations *)

(** The path under which a query is listed when no location is given. *)
Definition flat_prefix (d : OlxDomain) : string :=
  match d with
  | olx_pl => "/oferty/"
  | _ => "/ads/"
  end.

Section SearchPath.

Variable toLowerCase : string -> string.

Definition path_of (d : OlxDomain) : option string -> option string -> string :=
  searchPath (urlPatterns (getDomainConfig toLowerCase d)).

Lemma path_of_unfold (d : OlxDomain) :
  path_of d =
  match d with
  | olx_pt => searchPath_pt toLowerCase
  | olx_pl => searchPath_pl toLowerCase
  | olx_bg => searchPath_bg toLowerCase
  | olx_ro => searchPath_ro toLowerCase
  | olx_ua => searchPath_ua toLowerCase
  end.
Proof. destruct d; reflexivity. Qed.

Lemma location_segment (l s : string) :
  ("/" ++ l) ++ "/q-" ++ s ++ "/" = ("/" ++ l ++ "/") ++ "q-" ++ s ++ "/".
Proof. rewrite !append_assoc. reflexivity. Qed.

(** A location that is absent or empty gives the flat path. *)
Lemma path_of_empty_location (d : OlxDomain) (q : option string) :
  path_of d (Some "") q = path_of d None q.
Proof. rewrite path_of_unfold. destruct d; reflexivity. Qed.

(** Without a query the flat path is the bare listing path. *)
Lemma path_of_nothing (d : OlxDomain) : path_of d None None = flat_prefix d.
Proof. destruct d; reflexivity. Qed.

(** C8. For every domain configuration, every location [loc] and every
    non-empty query [q], the path built from the query alone and the
    path built from the location and the query embed the same segment
    [q-<slug>/]: the first is the flat listing path followed by it, the
    second is the location segment (which does not depend on the query;
    for an empty location it is the flat listing path again) followed
    by it. *)
Theorem C8_same_slug_with_and_without_location (d : OlxDomain) (loc : string) :
  exists locationSlug : string,
    forall q : string,
      truthy q = true ->
      exists slug : string,
        path_of d None (Some q) = flat_prefix d ++ "q-" ++ slug ++ "/"
        /\ path_of d (Some loc) (Some q) =
           (if truthy loc then "/" ++ locationSlug ++ "/" else flat_prefix d)
           ++ "q-" ++ slug ++ "/".
Proof.
  rewrite path_of_unfold.
  destruct d;
    unfold searchPath_pt, searchPath_pl, searchPath_bg, searchPath_ro, searchPath_ua;
    cbn [truthy_opt default flat_prefix];
    (destruct (truthy loc); [eexists | exists ""]);
    intros q Hq; rewrite Hq;
    eexists; (split; [reflexivity|]);
    first [apply location_segment | reflexivity].
Qed.

End SearchPath.

(** The claim at the Polish configuration, for a query and a location
    with diacritics. *)
Lemma C8_witness :
  exists locationSlug slug : string,
    path_of ascii_toLowerCase olx_pl None (Some "mąka ząb")
    = flat_prefix olx_pl ++ "q-" ++ slug ++ "/"
    /\ path_of ascii_toLowerCase olx_pl (Some "łódź") (Some "mąka ząb")
       = (if truthy "łódź" then "/" ++ locationSlug ++ "/" else flat_prefix olx_pl)
         ++ "q-" ++ slug ++ "/".
Proof.
  destruct (C8_same_slug_with_and_without_location ascii_toLowerCase olx_pl "łódź")
    as [locationSlug H].
  exists locationSlug.
  apply (H "mąka ząb").
  reflexivity.
Defined.

Example searchPath_pl_example :
  path_of ascii_toLowerCase olx_pl (Some "łódź") (Some "mąka ząb") = "/lodz/q-maka-zab/"
  /\ path_of ascii_toLowerCase olx_pl None (Some "mąka ząb") = "/oferty/q-maka-zab/".
Proof. split; reflexivity. Qed.

(** In the Romanian configuration the diacritics of a query are removed
    before they could be folded. *)
Example searchPath_ro_example :
  path_of ascii_toLowerCase olx_ro None (Some "mașină") = "/ads/q-main/".
Proof. reflexivity. Qed.

(** ** Listing identifiers *)

Lemma span_alnum_token (token rest : string) :
  all_bytes is_alnum token = true ->
  (match rest with String a _ => is_alnum a | EmptyString => false end) = false ->
  span_alnum (token ++ rest) = (token, rest).
Proof.
  intros Htoken Hrest.
  induction token as [|a token IH].
  - destruct rest as [|b rest]; [reflexivity|].
    cbn [append span_alnum]. change ("" ++ String b rest) with (String b rest).
    cbn [span_alnum]. now rewrite Hrest.
  - cbn [all_bytes] in Htoken. apply andb_prop in Htoken as [Ha Htoken].
    rewrite append_cons. cbn [span_alnum]. rewrite Ha, (IH Htoken). reflexivity.
Qed.

Lemma id_token_here_found (token post : string) :
  truthy token = true ->
  all_bytes is_alnum token = true ->
  id_token_here (token ++ ".html" ++ post) = Some token.
Proof.
  intros Hne Htoken. unfold id_token_here.
  rewrite (span_alnum_token token (".html" ++ post) Htoken) by reflexivity.
  rewrite Hne. reflexivity.
Qed.

(** A URL that contains [ID], letters or digits, and [.html] matches. *)
Lemma match_ID_html_found (pre token post : string) :
  truthy token = true ->
  all_bytes is_alnum token = true ->
  exists found, match_ID_html (pre ++ "ID" ++ token ++ ".html" ++ post) = Some found.
Proof.
  intros Hne Htoken.
  induction pre as [|a pre [found IH]].
  - exists token. change ("" ++ "ID" ++ token ++ ".html" ++ post)
      with (String "I" (String "D" (token ++ ".html" ++ post))).
    cbn [match_ID_html]. change (Ascii.eqb "I" "I") with true.
    change (Ascii.eqb "D" "D") with true. cbv iota.
    now rewrite id_token_here_found.
  - rewrite append_cons. cbn [match_ID_html]. rewrite IH.
    match goal with |- context [match ?x with Some _ => _ | None => _ end] =>
      destruct x as [t|] end; eauto.
Qed.

(** All three classes run the same text. *)
Lemma extractListingId_unfold (d : OlxDomain) (url : string) :
  extractListingId d url =
  match match_ID_html url with
  | Some matchedId => ret matchedId
  | None => now <- Date_now ;; ret (number_toString now)
  end.
Proof. destruct d; reflexivity. Qed.

(** A world whose clock shows one more millisecond at each reading. *)
Definition ticking_world : World :=
  {| web := fun _ _ => Loaded blank;
     clock := fun n => 1700000000000 + Z.of_nat n;
     clock_reads := 0;
     log := [];
     document := blank;
     scrapers := fun _ => None |}.

(** C7, as stated, fails: the URL of a listing page that carries no
    [ID...html] token gets a different identifier at each of two
    successive calls. *)
Lemma C7_counterexample :
  let url := "https://www.olx.pl/d/oferta/rower-gorski.html" in
  let first := extractListingId olx_pl url ticking_world in
  let second := extractListingId olx_pl url (snd first) in
  fst first = Returns "1700000000000"
  /\ fst second = Returns "1700000000001"
  /\ fst first <> fst second.
Proof.
  cbv zeta. split; [|split].
  - vm_compute. reflexivity.
  - vm_compute. reflexivity.
  - vm_compute. discriminate.
Qed.

(** C7, amended. On a URL that contains [ID], one or more letters or
    digits, and [.html], every call of [extractListingId] returns the
    same identifier, whatever the state of the world and the clock, and
    changes nothing; on any other URL the identifier is the reading of
    the clock at the call. *)
Theorem C7_extractListingId_deterministic_on_matching_urls
    (d : OlxDomain) (url : string) :
  (forall pre token post : string,
      url = pre ++ "ID" ++ token ++ ".html" ++ post ->
      truthy token = true ->
      all_bytes is_alnum token = true ->
      exists id : string,
        forall w : World, extractListingId d url w = (Returns id, w))
  /\ (match_ID_html url = None ->
      forall w : World,
        fst (extractListingId d url w)
        = Returns (number_toString (clock w (clock_reads w)))).
Proof.
  rewrite extractListingId_unfold. split.
  - intros pre token post -> Hne Htoken.
    destruct (match_ID_html_found pre token post Hne Htoken) as [found ->].
    exists found. reflexivity.
  - intros ->. reflexivity.
Qed.

Lemma C7_witness :
  (exists id : string,
     forall w : World,
       extractListingId olx_pl "https://www.olx.pl/d/oferta/rower-IDabc12.html" w
       = (Returns id, w))
  /\ fst (extractListingId olx_pl "/d/oferta/rower.html" ticking_world)
     = Returns (number_toString (clock ticking_world (clock_reads ticking_world))).
Proof.
  split.
  - apply (proj1 (C7_extractListingId_deterministic_on_matching_urls olx_pl
                    "https://www.olx.pl/d/oferta/rower-IDabc12.html")
             "https://www.olx.pl/d/oferta/rower-" "abc12" "");
      reflexivity.
  - apply (proj2 (C7_extractListingId_deterministic_on_matching_urls olx_pl
                    "/d/oferta/rower.html")).
    reflexivity.
Defined.

Example extractListingId_token :
  forall w, extractListingId olx_pt "/d/anuncio/bike-IDabc12.html" w = (Returns "abc12", w).
Proof. reflexivity. Qed.

(** ** Reading the page *)

(** [page.$eval(selector, f).catch(() => fallback)] reads the first
    element that matches, or falls back. *)
Lemma page_eval_catch {A} (selector : string) (f : Element -> A) (fallback : A) (w : World) :
  try_catch (page_eval selector f) (fun _ => ret fallback) w
  = (Returns (match document w selector with el :: _ => f el | [] => fallback end), w).
Proof. unfold try_catch, page_eval, ret. destruct (document w selector); reflexivity. Qed.

Lemma element_eval_catch {A} (el : Element) (selector : string) (f : Element -> A)
    (fallback : A) (w : World) :
  try_catch (element_eval el selector f) (fun _ => ret fallback) w
  = (Returns (match querySelectorAll el selector with e :: _ => f e | [] => fallback end), w).
Proof.
  unfold try_catch, element_eval, ret, throw.
  destruct (querySelectorAll el selector); reflexivity.
Qed.

(** The text of the first match, and whether anything matches. *)
Definition first_text (doc : Document) (selector : string) : string :=
  match doc selector with e :: _ => trimmed_text e | [] => "" end.

Definition present (doc : Document) (selector : string) : bool :=
  match doc selector with _ :: _ => true | [] => false end.

(** ** Pagination *)

Definition no_digit (s : string) : bool := all_bytes (fun a => negb (is_digit a)) s.

Definition no_leading_digit (s : string) : bool :=
  match s with String a _ => negb (is_digit a) | EmptyString => true end.

Lemma span_digits_run (digits rest : string) :
  all_bytes is_digit digits = true ->
  no_leading_digit rest = true ->
  span_digits (digits ++ rest) = (digits, rest).
Proof.
  intros Hd Hr. induction digits as [|a digits IH].
  - destruct rest as [|b rest]; [reflexivity|].
    change ("" ++ String b rest) with (String b rest). cbn [span_digits].
    cbn [no_leading_digit] in Hr. apply negb_true_iff in Hr. now rewrite Hr.
  - cbn [all_bytes] in Hd. apply andb_prop in Hd as [Ha Hd].
    rewrite append_cons. cbn [span_digits]. now rewrite Ha, (IH Hd).
Qed.

Lemma match_digits_none (s : string) : no_digit s = true -> match_digits s = None.
Proof.
  induction s as [|a s IH]; [reflexivity|].
  unfold no_digit. cbn [all_bytes match_digits]. intros H.
  apply andb_prop in H as [Ha Hs]. apply negb_true_iff in Ha. rewrite Ha. now apply IH.
Qed.

Lemma match_digits_first (pre digits post : string) :
  no_digit pre = true ->
  truthy digits = true ->
  all_bytes is_digit digits = true ->
  no_leading_digit post = true ->
  match_digits (pre ++ digits ++ post) = Some digits.
Proof.
  intros Hpre Hne Hd Hpost. induction pre as [|a pre IH].
  - change ("" ++ digits ++ post) with (digits ++ post).
    destruct digits as [|c digits]; [discriminate|].
    rewrite append_cons. cbn [match_digits].
    pose proof Hd as Hd'. cbn [all_bytes] in Hd'. apply andb_prop in Hd' as [Hc _].
    rewrite Hc. rewrite <- append_cons, (span_digits_run _ _ Hd Hpost). reflexivity.
  - unfold no_digit in Hpre. cbn [all_bytes] in Hpre. apply andb_prop in Hpre as [Ha Hpre].
    apply negb_true_iff in Ha. rewrite append_cons. cbn [match_digits]. rewrite Ha.
    now apply IH.
Qed.

(** [parseInt] reads a run of digits as a decimal numeral. *)
Lemma parseInt_from_digits (s : string) (acc : Z) :
  all_bytes is_digit s = true ->
  parseInt_from acc s = acc * 10 ^ Z.of_nat (String.length s) + parseInt_from 0 s.
Proof.
  revert acc. induction s as [|a s IH]; intros acc H.
  - cbn. lia.
  - cbn [all_bytes] in H. apply andb_prop in H as [Ha Hs].
    cbn [parseInt_from String.length]. rewrite Ha.
    rewrite (IH (10 * acc + (Z.of_N (code a) - 48)) Hs).
    rewrite (IH (10 * 0 + (Z.of_N (code a) - 48)) Hs).
    rewrite Nat2Z.inj_succ, Z.pow_succ_r by lia. ring.
Qed.

Lemma pretty_N_char_digit (x : N) :
  (x < 10)%N ->
  is_digit (pretty_N_char x) = true /\ Z.of_N (code (pretty_N_char x)) - 48 = Z.of_N x.
Proof.
  intros H.
  assert (Hx : In x [0; 1; 2; 3; 4; 5; 6; 7; 8; 9]%N).
  { cbn. lia. }
  cbn in Hx. repeat (destruct Hx as [<-|Hx]; [split; reflexivity|]). contradiction.
Qed.

Lemma pretty_N_go_digits (x : N) :
  forall s : string,
    all_bytes is_digit s = true ->
    all_bytes is_digit (pretty_N_go x s) = true
    /\ parseInt_from 0 (pretty_N_go x s)
       = Z.of_N x * 10 ^ Z.of_nat (String.length s) + parseInt_from 0 s.
Proof.
  induction x as [x IH] using (well_founded_induction N.lt_wf_0).
  intros s Hs.
  destruct (N.eq_dec x 0) as [->|Hx].
  - rewrite pretty_N_go_0. split; [assumption | lia].
  - rewrite pretty_N_go_step by lia.
    assert (Hlt : (x `div` 10 < x)%N) by (apply N.div_lt; lia).
    assert (Hmod : (x `mod` 10 < 10)%N) by (apply N.mod_lt; lia).
    destruct (pretty_N_char_digit _ Hmod) as [Hc Hv].
    assert (Hs' : all_bytes is_digit (String (pretty_N_char (x `mod` 10)) s) = true).
    { cbn [all_bytes]. now rewrite Hc, Hs. }
    destruct (IH _ Hlt _ Hs') as [Hall Hval].
    split; [assumption|].
    rewrite Hval. cbn [String.length]. cbn [parseInt_from].
    rewrite Hc, Hv. rewrite (parseInt_from_digits s _ Hs).
    rewrite Nat2Z.inj_succ, Z.pow_succ_r by lia.
    pose proof (N.div_mod x 10 ltac:(lia)) as Hdm.
    assert (Z.of_N x = 10 * Z.of_N (x `div` 10) + Z.of_N (x `mod` 10)) by lia.
    nia.
Qed.

Lemma pretty_N_go_truthy (x : N) :
  forall s : string, truthy s = true -> truthy (pretty_N_go x s) = true.
Proof.
  induction x as [x IH] using (well_founded_induction N.lt_wf_0).
  intros s Hs.
  destruct (N.eq_dec x 0) as [->|Hx].
  - now rewrite pretty_N_go_0.
  - rewrite pretty_N_go_step by lia.
    apply IH; [apply N.div_lt; lia | reflexivity].
Qed.

Lemma parseInt_pretty_N (x : N) :
  truthy (pretty x) = true
  /\ all_bytes is_digit (pretty x) = true
  /\ parseInt_from 0 (pretty x) = Z.of_N x.
Proof.
  unfold pretty, pretty_N.
  destruct (decide (x = 0%N)) as [->|Hx]; [repeat split; reflexivity|].
  destruct (pretty_N_go_digits x "" eq_refl) as [Hall Hval].
  split; [|split; [exact Hall|]].
  - rewrite pretty_N_go_step by lia. now apply pretty_N_go_truthy.
  - rewrite Hval. change (parseInt_from 0 "") with 0. cbn [String.length Z.of_nat]. lia.
Qed.

(** The decimal numeral [pretty n] of a natural number is a non-empty
    run of digits, and [parseInt] reads it as the double nearest
    to [n]. *)
Lemma parseInt_numeral (n : Z) :
  0 <= n ->
  truthy (pretty n) = true
  /\ all_bytes is_digit (pretty n) = true
  /\ parseInt (pretty n) = Number_of_integer n.
Proof.
  intros Hn. unfold parseInt.
  destruct n as [|p|p]; [repeat split; reflexivity| |lia].
  change (pretty (Z.pos p)) with (pretty (N.pos p)).
  destruct (parseInt_pretty_N (N.pos p)) as (H1 & H2 & H3).
  repeat split; [exact H1 | exact H2 | rewrite H3; reflexivity].
Qed.

(** *** Doubles in the range of the exact integers *)

(** An integer up to [2^53] is a double. *)
Lemma Number_of_integer_safe (m : Z) :
  0 <= m <= 2 ^ 53 -> Number_of_integer m = Finite m.
Proof.
  intros [H0 H53]. unfold Number_of_integer.
  destruct (Z.eq_dec m (2 ^ 53)) as [->|Hne]; [reflexivity|].
  destruct (Z.eq_dec m 0) as [->|Hpos]; [reflexivity|].
  assert (Z.log2 m < 53) by (apply Z.log2_lt_pow2; lia).
  destruct (Z.leb_spec (Z.log2 m) 52); [reflexivity | lia].
Qed.

(** ... and is printed with all its digits. *)
Lemma number_toString_safe (n : Z) :
  0 <= n <= 2 ^ 53 -> number_toString n = pretty n.
Proof.
  intros Hn. unfold number_toString, positive_toString.
  destruct (Z.ltb_spec n 0); [lia|].
  rewrite (Number_of_integer_safe n Hn).
  destruct (Z.leb_spec (Z.log2 n) 52) as [|Hlog]; [reflexivity|].
  assert (n = 2 ^ 53) as ->; [|reflexivity].
  destruct (Z.eq_dec n (2 ^ 53)) as [|Hne]; [assumption|].
  destruct (Z.eq_dec n 0) as [->|Hpos]; [cbn in Hlog; lia|].
  assert (Z.log2 n < 53) by (apply Z.log2_lt_pow2; lia). lia.
Qed.

Definition Num_nonneg (x : Num) : Prop :=
  match x with Finite n => 0 <= n | Infinity => True end.

Lemma half_even_cases (a b : Z) :
  0 < b ->
  (half_even a b = a / b /\ 2 * (a mod b) <= b)
  \/ (half_even a b = a / b + 1 /\ b <= 2 * (a mod b)).
Proof.
  intros Hb. unfold half_even.
  destruct (Z.ltb_spec (2 * (a mod b)) b); [left; lia|].
  destruct (Z.ltb_spec b (2 * (a mod b))); [right; lia|].
  destruct (Z.even (a / b)); [left | right]; lia.
Qed.

Lemma Number_of_integer_nonneg (m : Z) : 0 <= m -> Num_nonneg (Number_of_integer m).
Proof.
  intros Hm. unfold Number_of_integer.
  destruct (Z.leb_spec (Z.log2 m) 52) as [|Hlog]; [exact Hm|].
  set (ulp := 2 ^ (Z.log2 m - 52)).
  destruct (Z.log2 (half_even m ulp * ulp) <? 1024); [|exact I].
  cbn. assert (Hulp : 0 < ulp) by (apply Z.pow_pos_nonneg; lia).
  assert (0 <= m / ulp) by (apply Z.div_pos; lia).
  destruct (half_even_cases m ulp Hulp) as [[-> _]|[-> _]]; nia.
Qed.

Lemma ceil_unique (r s c : Z) :
  0 < s -> (c - 1) * s < r <= c * s -> - ((- r) / s) = c.
Proof.
  intros Hs [Hlo Hhi].
  assert (H : (- r) / s = - c); [|lia].
  symmetry. apply (Z.div_unique_pos (- r) s (- c) (c * s - r)); lia.
Qed.

(** Up to [2^53] items, the rounding of the quotient does not show:
    [Math.ceil(t / 40)] is the ceiling of the exact quotient. *)
Lemma Math_ceil_div_safe (t : Z) :
  0 <= t <= 2 ^ 53 -> Math_ceil_div (Finite t) 40 = Finite (- ((- t) / 40)).
Proof.
  intros [H0 H53]. unfold Math_ceil_div, Math_ceil_quotient.
  destruct (Z.eqb_spec (Z.abs t) 0) as [Hz|Hpos].
  { assert (t = 0) as -> by lia. reflexivity. }
  rewrite Z.abs_eq by lia.
  destruct (Z.ltb_spec t 0) as [|_]; [lia|].
  destruct (Z.ltb_spec t 40) as [Hsmall|Hbig].
  { f_equal. symmetry. apply ceil_unique; lia. }
  set (e := Z.log2 (t / 40)).
  assert (Hq : 1 <= t / 40 < 2 ^ 48).
  { change (2 ^ 53) with 9007199254740992 in H53. change (2 ^ 48) with 281474976710656.
    Z.div_mod_to_equations. lia. }
  assert (He : 0 <= e < 48).
  { subst e. split; [apply Z.log2_nonneg | apply Z.log2_lt_pow2; lia]. }
  destruct (Z.leb_spec e 52) as [_|]; [|lia].
  set (s := 2 ^ (52 - e)).
  assert (Hs : 32 <= s).
  { subst s. change 32 with (2 ^ 5). apply Z.pow_le_mono_r; lia. }
  f_equal. apply ceil_unique; [lia|].
  set (c := - ((- t) / 40)).
  assert (Hc : 40 * (c - 1) < t <= 40 * c).
  { subst c. Z.div_mod_to_equations. lia. }
  assert (Ha : 40 * ((c - 1) * s) + s <= t * s <= 40 * (c * s)) by nia.
  generalize dependent (t * s). intros a Ha.
  generalize dependent (c * s). intros b. generalize ((c - 1) * s). intros b' Ha.
  destruct (half_even_cases a 40 ltac:(lia)) as [[-> Hr]|[-> Hr]];
    Z.div_mod_to_equations; lia.
Qed.

(** The number of pages of up to [2^53] items is the least number of
    pages of 40 that holds them, and at least 1. *)
Lemma Math_ceil_div_40 (n : Z) :
  0 <= n <= 2 ^ 53 ->
  exists pages : Z,
    Math_max (Math_ceil_div (Finite n) 40) (Finite 1) = Finite pages
    /\ 1 <= pages /\ n <= 40 * pages /\ (pages = 1 \/ 40 * (pages - 1) < n).
Proof.
  intros Hn. rewrite (Math_ceil_div_safe n Hn). cbn [Math_max].
  eexists. split; [reflexivity|].
  Z.div_mod_to_equations. lia.
Qed.

Lemma parseInt_from_nonneg (s : string) :
  forall acc : Z, 0 <= acc -> 0 <= parseInt_from acc s.
Proof.
  induction s as [|a s IH]; intros acc Hacc; cbn [parseInt_from]; [exact Hacc|].
  destruct (is_digit a) eqn:Ha; [|exact Hacc].
  apply IH. unfold is_digit, in_range in Ha. apply andb_prop in Ha as [Hlo _].
  apply N.leb_le in Hlo. lia.
Qed.

Lemma count_of_nonneg (el : Element) : Num_nonneg (count_of el).
Proof.
  unfold count_of.
  destruct (match_digits _) as [digits|]; [|cbn; lia].
  destruct (truthy digits); [|cbn; lia].
  apply Number_of_integer_nonneg, parseInt_from_nonneg. lia.
Qed.

Section Pagination.

Variable toLowerCase : string -> string.

(** The two selectors of the pagination are the same in all domains. *)
Lemma pagination_selectors (d : OlxDomain) :
  search_totalCount (selectors (domainConfig toLowerCase d)) = attr "data-testid" "total-count"
  /\ search_nextPage (selectors (domainConfig toLowerCase d))
     = "a" ++ attr "data-cy" "pagination-forward".
Proof. destruct d; split; reflexivity. Qed.

(** The count that [extractPaginationInfo] reads off the page. *)
Definition count_on (doc : Document) : Num :=
  match doc (attr "data-testid" "total-count") with
  | el :: _ => count_of el
  | [] => Finite 0
  end.

(** What [extractPaginationInfo] computes, written out. *)
Lemma extractPaginationInfo_reads (d : OlxDomain) (currentPage : Z) (w : World) :
  extractPaginationInfo toLowerCase d currentPage w
  = (Returns
       {| p_totalCount := count_on (document w);
          p_currentPage := currentPage;
          p_totalPages := Math_max (Math_ceil_div (count_on (document w)) 40) (Finite 1);
          p_hasNextPage := present (document w) ("a" ++ attr "data-cy" "pagination-forward") |},
     w).
Proof.
  destruct (pagination_selectors d) as [Hcount Hnext].
  unfold extractPaginationInfo. rewrite Hcount, Hnext.
  unfold bind at 1. rewrite page_eval_catch.
  unfold bind, page_query, ret, present, count_on.
  destruct (document w ("a" ++ attr "data-cy" "pagination-forward")); reflexivity.
Qed.

(** C6. [extractPaginationInfo] always returns and leaves the world as
    it is.  The total count is 0 when no element matches the total-count
    selector or when the text of the first match has no digit.  When the
    first run of digits in that text is the decimal numeral of [n], the
    count is the Number that [parseInt] makes of it: the double nearest
    to [n], which is [n] itself up to [2^53].  [hasNextPage] holds
    exactly when an element matches the next-page selector.
    [totalPages] is [Math.max(Math.ceil(totalCount / 40), 1)] with the
    page size 40 of every domain, computed on doubles; it is at least 1,
    and for a count up to [2^53] it is the least number of pages of 40
    items that holds [totalCount] items. *)
Theorem C6_pagination (d : OlxDomain) (currentPage : Z) (w : World) :
  exists p : Pagination,
    extractPaginationInfo toLowerCase d currentPage w = (Returns p, w)
    /\ p_currentPage p = currentPage
    /\ (document w (attr "data-testid" "total-count") = [] -> p_totalCount p = Finite 0)
    /\ (forall (el : Element) (others : list Element),
           document w (attr "data-testid" "total-count") = el :: others ->
           (no_digit (default "" (textContent el)) = true -> p_totalCount p = Finite 0)
           /\ (forall (pre post : string) (n : Z),
                  default "" (textContent el) = pre ++ pretty n ++ post ->
                  0 <= n ->
                  no_digit pre = true ->
                  no_leading_digit post = true ->
                  p_totalCount p = Number_of_integer n
                  /\ (n <= 2 ^ 53 -> p_totalCount p = Finite n)))
    /\ (p_hasNextPage p = true
        <-> document w ("a" ++ attr "data-cy" "pagination-forward") <> [])
    /\ p_totalPages p = Math_max (Math_ceil_div (p_totalCount p) 40) (Finite 1)
    /\ (forall pages : Z, p_totalPages p = Finite pages -> 1 <= pages)
    /\ (forall n : Z,
           p_totalCount p = Finite n ->
           n <= 2 ^ 53 ->
           exists pages : Z,
             p_totalPages p = Finite pages
             /\ n <= 40 * pages
             /\ (pages = 1 \/ 40 * (pages - 1) < n)).
Proof.
  rewrite extractPaginationInfo_reads.
  assert (Hnonneg : Num_nonneg (count_on (document w))).
  { unfold count_on. destruct (document w _); [cbn; lia | apply count_of_nonneg]. }
  eexists. split; [reflexivity|].
  cbn [p_totalCount p_currentPage p_totalPages p_hasNextPage].
  split; [reflexivity|]. split; [|split; [|split; [|split; [|split]]]].
  - intros E. unfold count_on. now rewrite E.
  - intros el others E. unfold count_on. rewrite E. split.
    + intros Hno. unfold count_of. now rewrite (match_digits_none _ Hno).
    + intros pre post n Htext Hn Hpre Hpost.
      assert (Hcount : count_of el = Number_of_integer n).
      { unfold count_of.
        destruct (parseInt_numeral n Hn) as (Hne & Hall & Hval).
        rewrite Htext, (match_digits_first pre _ post Hpre Hne Hall Hpost), Hne.
        exact Hval. }
      split; [exact Hcount|].
      intros Hle. rewrite Hcount. apply Number_of_integer_safe. lia.
  - unfold present.
    destruct (document w ("a" ++ attr "data-cy" "pagination-forward")); split;
      congruence.
  - reflexivity.
  - intros pages. destruct (count_on (document w)) as [n|]; [|discriminate].
    destruct (Math_ceil_div (Finite n) 40) as [c|]; [|discriminate].
    cbn [Math_max]. intros [= <-]. lia.
  - intros n Hn Hle. rewrite Hn in Hnonneg |- *. cbn in Hnonneg.
    destruct (Math_ceil_div_40 n ltac:(lia)) as (pages & Hp & _ & H1 & H2).
    exists pages. auto.
Qed.

End Pagination.

(** ** The retry coordinator *)

Section Retry.

Context {W T : Type}.

Variable sleep : Z -> W -> W.
Variable operation : Async W T.
Variable maxAttempts : Z.



(** With no attempt allowed the operation is not invoked at all. *)
Lemma retryOperation_no_attempt (w : W) :
  maxAttempts <= 0 ->
  retryOperation sleep operation maxAttempts w = (Throws Undefined, w).
Proof.
  intros H. unfold retryOperation.
  replace (Z.to_nat maxAttempts) with 0%nat by lia. reflexivity.
Qed.


End Retry.

(** An operation over a counter of its own invocations and the list of
    pauses: it fails until it has been invoked [failures] times. *)
Definition flaky (failures : nat) (thrown : Value) : Async (nat * list Z) string :=
  fun s =>
    if (fst s <? failures)%nat then (Throws thrown, (S (fst s), snd s))
    else (Returns "done", (S (fst s), snd s)).

Definition pause (ms : Z) (s : nat * list Z) : nat * list Z := (fst s, ms :: snd s).



(** Two failures, then a success, with three attempts allowed: three
    invocations, pauses of 1 s and 2 s. *)
Example retry_third_time_lucky :
  retryOperation pause (flaky 2 (ErrorValue (Error "net"))) 3 (0%nat, [])
  = (Returns "done", (3%nat, [2000; 1000])).
Proof. reflexivity. Qed.

(** Three failures with three attempts allowed: the last error comes
    out, and no pause follows it. *)
Example retry_exhausted :
  retryOperation pause (flaky 5 (ErrorValue (Error "net"))) 3 (0%nat, [])
  = (Throws (ErrorValue (Error "net")), (3%nat, [2000; 1000])).
Proof. reflexivity. Qed.

(** A thrown object whose [toString] is no function: the conversion
    to an [Error] throws, and the first attempt is the only one. *)
Example retry_unconverted :
  retryOperation pause (flaky 5 (PlainObject [("toString", Number 5)])) 3 (0%nat, [])
  = (Throws (ErrorValue cannot_convert), (1%nat, [])).
Proof. reflexivity. Qed.

(** The pauses double from one second and are capped at ten. *)
Example delays :
  List.map delay [1; 2; 3; 4; 5; 6] = [1000; 2000; 4000; 8000; 10000; 10000].
Proof. reflexivity. Qed.

(** ** The execution framework *)

Section Execute.

Context {W TInput TArgs TResult : Type}.

Variable parse : TInput -> Async W TArgs.
Variable executeImpl : TArgs -> option (AbortSignal W) -> Async W TResult.

(** What [execute] wraps: the cancellation check, the validation and
    the implementation. *)
Definition guarded (args : TInput) (signal : option (AbortSignal W)) : Async W TResult :=
  a <- aborted signal ;;
  (if a : bool then throw (ErrorValue (Error "Operation cancelled")) else ret tt) ;;;
  validatedArgs <- parse args ;;
  executeImpl validatedArgs signal.

Lemma execute_guarded (args : TInput) (signal : option (AbortSignal W)) (w : W) :
  BaseTool.execute parse executeImpl args signal w =
  match guarded args signal w with
  | (Returns result, w1) => (Returns (Success result), w1)
  | (Throws (ErrorValue (ZodError errors)), w1) =>
      (Returns (Failure (Error ("Validation error: " ++ BaseTool.formattedErrors errors))), w1)
  | (Throws error, w1) =>
      match toError error with
      | Returns e => (Returns (Failure e), w1)
      | Throws typeError => (Throws typeError, w1)
      end
  end.
Proof.
  unfold BaseTool.execute, guarded, try_catch, bind, aborted, ret, throw, eval.
  destruct (match signal with Some s => s w | None => false end); [reflexivity|].
  destruct (parse args w) as [[a|v] w1].
  - destruct (executeImpl a signal w1) as [[r|v] w2]; [reflexivity|].
    destruct v as [| |[|]| | |props| |[m|m|errors]]; reflexivity.
  - destruct v as [| |[|]| | |props| |[m|m|errors]]; reflexivity.
Qed.

(** A token that is already signaled stops [execute] before the schema
    and the implementation are run: the state is untouched, whatever
    they would have done. *)
Lemma execute_pre_aborted (args : TInput) (s : AbortSignal W) (w : W) :
  s w = true ->
  BaseTool.execute parse executeImpl args (Some s) w
  = (Returns (Failure (Error "Operation cancelled")), w).
Proof.
  intros H. unfold BaseTool.execute, try_catch, bind, aborted. rewrite H. reflexivity.
Qed.

(** C2. [execute] can throw.  It returns a success when the wrapped
    code returns.  When the wrapped code throws it returns a failure
    that carries an [Error], namely the thrown [Error] itself, an
    [Error] whose message is the thrown string, or an [Error] whose
    message is [[object Object]] for a thrown plain object without a
    [toString] property of its own, as long as the thrown value can be
    made an [Error].  The conversion [new Error(String(error))] sits in
    the [catch] block and is not guarded: when the wrapped code throws
    an object that [String] cannot convert, such as one whose own
    [toString] property is no function, [execute] throws the
    [TypeError] of the conversion. *)
Theorem C2_execute_throws_what_it_cannot_convert
    (args : TInput) (signal : option (AbortSignal W)) (w : W) :
  (forall (r : TResult) (w1 : W),
      guarded args signal w = (Returns r, w1) ->
      BaseTool.execute parse executeImpl args signal w = (Returns (Success r), w1))
  /\ (forall (v : Value) (w1 : W),
         guarded args signal w = (Throws v, w1) ->
         BaseTool.execute parse executeImpl args signal w
         = match v, toError v with
           | ErrorValue (ZodError errors), _ =>
               (Returns (Failure (Error ("Validation error: "
                                         ++ BaseTool.formattedErrors errors))), w1)
           | _, Returns e => (Returns (Failure e), w1)
           | _, Throws typeError => (Throws typeError, w1)
           end)
  /\ (forall (m : string) (w1 : W),
         guarded args signal w = (Throws (ErrorValue (Error m)), w1) ->
         BaseTool.execute parse executeImpl args signal w
         = (Returns (Failure (Error m)), w1))
  /\ (forall (s : string) (w1 : W),
         guarded args signal w = (Throws (Str s), w1) ->
         BaseTool.execute parse executeImpl args signal w
         = (Returns (Failure (Error s)), w1))
  /\ (forall (props : list (string * Value)) (w1 : W),
         guarded args signal w = (Throws (PlainObject props), w1) ->
         has_own "toString" props = false ->
         BaseTool.execute parse executeImpl args signal w
         = (Returns (Failure (Error "[object Object]")), w1))
  /\ (forall (props : list (string * Value)) (w1 : W),
         guarded args signal w = (Throws (PlainObject props), w1) ->
         has_own "toString" props = true ->
         BaseTool.execute parse executeImpl args signal w
         = (Throws (ErrorValue cannot_convert), w1)).
Proof.
  rewrite execute_guarded.
  destruct (guarded args signal w) as [[r|v] w1].
  - split; [now intros r' w1' [= <- <-]|]. repeat split; intros; discriminate.
  - split; [intros; discriminate|]. split; [|repeat split].
    + intros v' w1' [= <- <-].
      destruct v as [| |[|]| | |props| |[m|m|errors]]; reflexivity.
    + intros m w1' [= -> <-]. reflexivity.
    + intros s w1' [= -> <-]. reflexivity.
    + intros props w1' [= -> <-] H. cbn [toError]. now rewrite H.
    + intros props w1' [= -> <-] H. cbn [toError]. now rewrite H.
Qed.

End Execute.

(** The throwing tools of the test suite: the implementation throws an
    [Error], a string or an object literal. *)
Definition throwing_tool (thrown : Value)
  : string -> option (AbortSignal unit) -> Async unit string :=
  fun _ _ => throw thrown.

Definition object_error : list (string * Value) :=
  [("message", Str "Object error"); ("code", Number 500)].

(** An object whose [toString] property holds a number. *)
Definition unprintable : list (string * Value) := [("toString", Number 5)].

(** The three throwing tools return failures; a fourth, which throws
    [{toString: 5}], makes [execute] throw. *)
Lemma C2_witness :
  BaseTool.execute ret (throwing_tool (ErrorValue (Error "Negative values not allowed")))
    "test" None tt
  = (Returns (Failure (Error "Negative values not allowed")), tt)
  /\ BaseTool.execute ret (throwing_tool (Str "String error")) "test" None tt
     = (Returns (Failure (Error "String error")), tt)
  /\ BaseTool.execute ret (throwing_tool (PlainObject object_error)) "test" None tt
     = (Returns (Failure (Error "[object Object]")), tt)
  /\ BaseTool.execute ret (throwing_tool (PlainObject unprintable)) "test" None tt
     = (Throws (ErrorValue cannot_convert), tt).
Proof.
  split; [|split; [|split]].
  - apply (proj1 (proj2 (proj2
             (C2_execute_throws_what_it_cannot_convert ret
                (throwing_tool (ErrorValue (Error "Negative values not allowed")))
                "test" None tt)))).
    reflexivity.
  - apply (proj1 (proj2 (proj2 (proj2
             (C2_execute_throws_what_it_cannot_convert ret
                (throwing_tool (Str "String error")) "test" None tt))))).
    reflexivity.
  - apply (proj1 (proj2 (proj2 (proj2 (proj2
             (C2_execute_throws_what_it_cannot_convert ret
                (throwing_tool (PlainObject object_error)) "test" None tt)))))
             object_error tt); reflexivity.
  - apply (proj2 (proj2 (proj2 (proj2 (proj2
             (C2_execute_throws_what_it_cannot_convert ret
                (throwing_tool (PlainObject unprintable)) "test" None tt)))))
             unprintable tt); reflexivity.
Defined.

(** ** Cancellation before the start *)

Section Cancellation.

Variable toLowerCase : string -> string.
Variable URL_new : string -> string -> option URL.

(** C3. When the token is already signaled at the call, [searchListings]
    and [getListingDetails] return the failure [Operation cancelled]
    for every input, valid or not, and leave the world as it was: no
    page is opened and no navigation is attempted. *)
Theorem C3_pre_signaled_token
    (s : AbortSignal World) (w : World)
    (search : Schema.SearchListingsInput) (details : Schema.GetListingDetailsInput) :
  s w = true ->
  Tools.searchListings toLowerCase URL_new search (Some s) w
  = (Returns (Failure (Error "Operation cancelled")), w)
  /\ Tools.getListingDetailsTool toLowerCase URL_new details (Some s) w
     = (Returns (Failure (Error "Operation cancelled")), w).
Proof.
  intros H. split; apply execute_pre_aborted; exact H.
Qed.

End Cancellation.

(** ** The search URL *)

(** A search for a category with both price bounds set to 0, which the
    schema accepts. *)
Definition free_items_input : Schema.SearchListingsInput :=
  {| Schema.in_domain := "olx.pt";
     Schema.in_query := None;
     Schema.in_category := Some "electronics";
     Schema.in_location := None;
     Schema.in_minPrice := Some 0;
     Schema.in_maxPrice := Some 0;
     Schema.in_page := None;
     Schema.in_limit := None;
     Schema.in_sortBy := None |}.

Definition free_items_filters : SearchFilters :=
  {| domain := olx_pt;
     query := None;
     category := Some "electronics";
     location := None;
     minPrice := Some 0;
     maxPrice := Some 0;
     page := Some 1;
     limit := Some 20;
     sortBy := Some relevance |}.

Section SearchUrl.

Variable toLowerCase : string -> string.
Variable URL_new : string -> string -> option URL.

(** Which parameters [buildSearchUrl] sets, for a path that brings no
    parameters of its own: the category when it is a non-empty string,
    a price bound when it is set and not 0, the order when the sort mode
    is not [relevance], the page when it is greater than 1. *)
Lemma buildSearchUrl_parameters (d : OlxDomain) (filters : SearchFilters) (parsed : URL) :
  let cfg := domainConfig toLowerCase d in
  URL_new (searchPath (urlPatterns cfg) (location filters) (query filters)) (baseUrl cfg)
  = Some parsed ->
  searchParams parsed = [] ->
  exists u : URL,
    buildSearchUrl_object URL_new cfg filters = Some u
    /\ has "c" (searchParams u) = truthy_opt (category filters)
    /\ has "search[filter_float_price:from]" (searchParams u) = truthy_num (minPrice filters)
    /\ has "search[filter_float_price:to]" (searchParams u) = truthy_num (maxPrice filters)
    /\ has "search[order]" (searchParams u)
       = match sortBy filters with Some relevance | None => false | Some _ => true end
    /\ has "page" (searchParams u)
       = match page filters with Some n => 1 <? n | None => false end.
Proof.
  intros cfg Hparse Hempty. unfold buildSearchUrl_object. fold cfg. rewrite Hparse.
  eexists. split; [reflexivity|].
  assert (Hnames : categoryParam (urlPatterns cfg) = "c"
                   /\ priceParams_min (urlPatterns cfg) = "search[filter_float_price:from]"
                   /\ priceParams_max (urlPatterns cfg) = "search[filter_float_price:to]"
                   /\ pageParam (urlPatterns cfg) = "page"
                   /\ sortParams (urlPatterns cfg) = common_sortParams).
  { subst cfg. destruct d; repeat split; reflexivity. }
  destruct Hnames as (-> & -> & -> & -> & ->).
  destruct parsed as [sch hier q frag params]. cbn [searchParams] in Hempty. subst params.
  assert (Hpage : (truthy_num (page filters) && (1 <? default 0 (page filters)))%bool
                  = match page filters with Some n => 1 <? n | None => false end).
  { destruct (page filters) as [n|]; [|reflexivity]. cbn [truthy_num default].
    destruct (Z.ltb_spec 1 n), (Z.eqb_spec n 0); cbn; try reflexivity; lia. }
  rewrite Hpage.
  destruct (truthy_opt (category filters)), (truthy_num (minPrice filters)),
    (truthy_num (maxPrice filters)), (sortBy filters) as [[| | |]|],
    (match page filters with Some n => 1 <? n | None => false end);
    repeat split; reflexivity.
Qed.

(** C1 at the failing input: both price bounds are set, to 0, and the
    only parameter [buildSearchUrl] adds to the parsed path is the
    category.  The claim asks for both price parameters. *)
Theorem C1_zero_price_bounds_are_dropped :
  Schema.SearchListingsArgsSchema free_items_input
  = inr {| Schema.domain := olx_pt;
           Schema.query := None;
           Schema.category := Some "electronics";
           Schema.location := None;
           Schema.minPrice := Some 0;
           Schema.maxPrice := Some 0;
           Schema.page := 1;
           Schema.limit := 20;
           Schema.sortBy := relevance |}
  /\ buildSearchUrl_object URL_new (domainConfig toLowerCase olx_pt) free_items_filters
     = option_map (searchParams_set "c" "electronics")
         (URL_new "/ads/" "https://www.olx.pt")
  /\ buildSearchUrl example_URL_new (domainConfig toLowerCase olx_pt) free_items_filters
     = Some "https://www.olx.pt/ads/?c=electronics".
Proof.
  split; [reflexivity|]. split.
  - unfold buildSearchUrl_object. cbn.
    destruct (URL_new "/ads/" "https://www.olx.pt"); reflexivity.
  - reflexivity.
Qed.

End SearchUrl.

Example filters_of_free_items :
  Tools.filters_of {| Schema.domain := olx_pt;
                      Schema.query := None;
                      Schema.category := Some "electronics";
                      Schema.location := None;
                      Schema.minPrice := Some 0;
                      Schema.maxPrice := Some 0;
                      Schema.page := 1;
                      Schema.limit := 20;
                      Schema.sortBy := relevance |}
  = free_items_filters.
Proof. reflexivity. Qed.

(** The URL of the test suite, with every parameter set. *)
Example buildSearchUrl_all_parameters :
  buildSearchUrl example_URL_new (domainConfig ascii_toLowerCase olx_pt)
    {| domain := olx_pt;
       query := Some "test query";
       category := Some "electronics";
       location := Some "lisboa";
       minPrice := Some 50;
       maxPrice := Some 500;
       page := Some 2;
       limit := None;
       sortBy := Some price_asc |}
  = Some ("https://www.olx.pt/lisboa/q-test-query/?c=electronics"
          ++ "&search%5Bfilter_float_price%3Afrom%5D=50"
          ++ "&search%5Bfilter_float_price%3Ato%5D=500"
          ++ "&search%5Border%5D=filter_float_price%3Aasc&page=2").
Proof. reflexivity. Qed.

(** ** Retrying: what the loop preserves *)

(** The [Error] that a [catch] block makes of what it caught: the
    caught [Error] itself, [new Error(String(error))] for another
    value, and the [TypeError] that this expression throws when the
    value has no string form. *)
Definition as_Error (error : Value) : ErrorObject :=
  match toError error with
  | Returns e => e
  | Throws _ => cannot_convert
  end.

Lemma toError_cases (error : Value) :
  toError error = Returns (as_Error error)
  \/ (toError error = Throws (ErrorValue cannot_convert)
      /\ as_Error error = cannot_convert).
Proof.
  unfold as_Error.
  destruct error as [| |[|]| | |props| |e]; cbn [toError]; auto.
  destruct (has_own "toString" props); auto.
Qed.

Lemma as_Error_of_Error (e : ErrorObject) : as_Error (ErrorValue e) = e.
Proof. reflexivity. Qed.

(** Whether that expression returns. *)
Definition convertible (error : Value) : bool :=
  match toError error with
  | Returns _ => true
  | Throws _ => false
  end.

Lemma toError_convertible (error : Value) :
  convertible error = true -> toError error = Returns (as_Error error).
Proof.
  unfold convertible. destruct (toError_cases error) as [H|[H _]]; rewrite H;
    [reflexivity | discriminate].
Qed.

Lemma toError_not_convertible (error : Value) :
  convertible error = false -> toError error = Throws (ErrorValue cannot_convert).
Proof.
  unfold convertible. destruct (toError_cases error) as [H|[H _]]; rewrite H;
    [discriminate | reflexivity].
Qed.

Section RetryFacts.

Context {W T : Type}.

Variable sleep : Z -> W -> W.

(** An attempt that returns at once ends the operation. *)
Lemma retryOperation_returns_first (operation : Async W T) (n : Z) (w w1 : W) (v : T) :
  1 <= n ->
  operation w = (Returns v, w1) ->
  retryOperation sleep operation n w = (Returns v, w1).
Proof.
  intros Hn Hop. unfold retryOperation.
  destruct (Z.to_nat n) as [|todo] eqn:E; [lia|].
  cbn [retry_loop]. now rewrite Hop.
Qed.

(** A value that comes out of the loop was returned by some attempt, and
    the state is the one that attempt left. *)
Lemma retry_loop_returns (operation : Async W T) (n : Z) (todo : nat) (k : Z)
    (lastError : Value) (w w1 : W) (v : T) :
  retry_loop sleep operation n todo k lastError w = (Returns v, w1) ->
  exists w0 : W, operation w0 = (Returns v, w1).
Proof.
  revert k lastError w. induction todo as [|todo IH]; intros k lastError w H.
  - discriminate.
  - cbn [retry_loop] in H.
    destruct (operation w) as [[v0|error] w0] eqn:Hop.
    + exists w. congruence.
    + destruct (toError error) as [e|typeError]; [|discriminate].
      destruct (k =? n); [discriminate|]. eauto.
Qed.

(** A property of the state that every attempt and every pause keep
    holds when the loop ends. *)
Lemma retry_loop_keeps (P : W -> Prop) (operation : Async W T) (n : Z) :
  (forall w, P w -> P (snd (operation w))) ->
  (forall ms w, P w -> P (sleep ms w)) ->
  forall (todo : nat) (k : Z) (lastError : Value) (w : W),
    P w -> P (snd (retry_loop sleep operation n todo k lastError w)).
Proof.
  intros Hop Hsleep. induction todo as [|todo IH]; intros k lastError w Hw.
  - exact Hw.
  - cbn [retry_loop]. specialize (Hop w Hw).
    destruct (operation w) as [[v|error] w1]; cbn [snd] in *; [exact Hop|].
    destruct (toError error) as [e|typeError]; cbn [snd]; [|exact Hop].
    destruct (k =? n); cbn [snd]; [exact Hop|].
    apply IH. now apply Hsleep.
Qed.


(** When every attempt throws the same value, that value comes out. *)
Lemma retry_loop_always_throws (P : W -> Prop) (operation : Async W T) (n : Z)
    (e : ErrorObject) :
  (forall w, P w -> fst (operation w) = Throws (ErrorValue e)) ->
  (forall w, P w -> P (snd (operation w))) ->
  (forall ms w, P w -> P (sleep ms w)) ->
  forall (todo : nat) (k : Z) (w : W),
    (0 < todo)%nat ->
    P w ->
    fst (retry_loop sleep operation n todo k (ErrorValue e) w) = Throws (ErrorValue e).
Proof.
  intros Hthrow Hop Hsleep. induction todo as [|todo IH]; intros k w Hpos Hw; [lia|].
  cbn [retry_loop]. specialize (Hthrow w Hw). specialize (Hop w Hw).
  destruct (operation w) as [[v|error] w1]; cbn [fst snd] in *; [discriminate|].
  injection Hthrow as ->. cbn [toError].
  destruct (k =? n); [reflexivity|].
  destruct todo as [|todo']; [reflexivity|].
  apply IH; [lia | now apply Hsleep].
Qed.

End RetryFacts.

(** ** Reading a signal *)

Definition signaled {W} (signal : option (AbortSignal W)) (w : W) : bool :=
  match signal with Some s => s w | None => false end.

Lemma aborted_signaled {W} (signal : option (AbortSignal W)) (w : W) :
  aborted signal w = (Returns (signaled signal w), w).
Proof. reflexivity. Qed.

(** ** The detail page *)

Section Details.

Variable toLowerCase : string -> string.
Variable URL_new : string -> string -> option URL.

(** The detail selectors are the same in all domains. *)
Lemma detail_selectors (d : OlxDomain) :
  let sel := selectors (domainConfig toLowerCase d) in
  detail_title sel = attr "data-testid" "offer_title"
  /\ detail_price sel = attr "data-testid" "ad-price-container"
  /\ detail_description sel = attr "data-testid" "ad_description"
  /\ detail_location sel = attr "data-testid" "map-aside-section"
  /\ detail_seller_name sel = attr "data-testid" "user-profile-user-name"
  /\ detail_seller_verified sel = attr "data-testid" "trader-title".
Proof. destruct d; repeat split; reflexivity. Qed.

(** The listing read off a detail page. *)
Definition seller_on (doc : Document) : option SellerInfo :=
  let name := or_undefined (first_text doc (attr "data-testid" "user-profile-user-name")) in
  let badge := present doc (attr "data-testid" "trader-title") in
  if (truthy_opt name || badge)%bool
  then Some {| seller_name := name; verified := badge |}
  else None.

Definition details_on (doc : Document) (listingId finalUrl : string) : Listing :=
  {| id := listingId;
     title := first_text doc (attr "data-testid" "offer_title");
     price := or_undefined (first_text doc (attr "data-testid" "ad-price-container"));
     listing_location := or_undefined (first_text doc (attr "data-testid" "map-aside-section"));
     imageUrl := None;
     url := finalUrl;
     description := or_undefined (first_text doc (attr "data-testid" "ad_description"));
     seller := seller_on doc |}.

Lemma extractSellerInfo_reads (d : OlxDomain) (w : World) :
  extractSellerInfo toLowerCase d w = (Returns (seller_on (document w)), w).
Proof.
  unfold extractSellerInfo.
  destruct (detail_selectors d) as (_ & _ & _ & _ & -> & ->).
  unfold bind at 1. rewrite page_eval_catch.
  unfold bind, page_query, ret, seller_on, first_text, present.
  destruct (document w (attr "data-testid" "trader-title")); reflexivity.
Qed.

(** What follows the navigation to the detail page. *)
Lemma read_details (d : OlxDomain) (listingId finalUrl : string) (w : World) :
  let sel := selectors (domainConfig toLowerCase d) in
  (title <- try_catch (page_eval (detail_title sel) trimmed_text) (fun _ => ret "") ;;
   priceText <- try_catch (page_eval (detail_price sel) trimmed_text) (fun _ => ret "") ;;
   let price := or_undefined priceText in
   descriptionText <- try_catch (page_eval (detail_description sel) trimmed_text)
                        (fun _ => ret "") ;;
   let description := or_undefined descriptionText in
   locationText <- try_catch (page_eval (detail_location sel) trimmed_text)
                     (fun _ => ret "") ;;
   let location := or_undefined locationText in
   seller <- extractSellerInfo toLowerCase d ;;
   ret {| id := listingId;
          title := title;
          price := price;
          listing_location := location;
          imageUrl := None;
          url := finalUrl;
          description := description;
          seller := seller |}) w
  = (Returns (details_on (document w) listingId finalUrl), w).
Proof.
  intros sel. subst sel.
  destruct (detail_selectors d) as (-> & -> & -> & -> & _ & _).
  unfold bind at 1. rewrite page_eval_catch.
  unfold bind at 1. rewrite page_eval_catch.
  unfold bind at 1. rewrite page_eval_catch.
  unfold bind at 1. rewrite page_eval_catch.
  unfold bind at 1. rewrite extractSellerInfo_reads.
  reflexivity.
Qed.

End Details.

(** ** Stepping through a computation *)

Lemma bind_returns {W A B} (m : Async W A) (k : A -> Async W B) (w w1 : W) (a : A) :
  m w = (Returns a, w1) -> bind m k w = k a w1.
Proof. intros H. unfold bind. now rewrite H. Qed.

Lemma bind_ret {W A B} (a : A) (k : A -> Async W B) (w : W) :
  bind (ret a) k w = k a w.
Proof. reflexivity. Qed.

Lemma bind_throws {W A B} (m : Async W A) (k : A -> Async W B) (w w1 : W) (v : Value) :
  m w = (Throws v, w1) -> bind m k w = (Throws v, w1).
Proof. intros H. unfold bind. now rewrite H. Qed.

(** The page is opened, and closed whatever happens in between. *)
Lemma withPage_cancelled {T} (fn : Async World T) (signal : option (AbortSignal World))
    (w : World) :
  signaled signal (show blank (record NewPage w)) = true ->
  withPage fn signal w
  = (Throws cancelled, record ClosePage (show blank (record NewPage w))).
Proof.
  intros H. unfold withPage, bind, newPage, try_finally, page_close.
  rewrite aborted_signaled, H. reflexivity.
Qed.

Lemma withPage_runs {T} (fn : Async World T) (signal : option (AbortSignal World))
    (w w1 : World) (r : Outcome T) :
  signaled signal (show blank (record NewPage w)) = false ->
  fn (show blank (record NewPage w)) = (r, w1) ->
  withPage fn signal w = (r, record ClosePage w1).
Proof.
  intros H Hfn. unfold withPage, bind, newPage, try_finally, page_close.
  rewrite aborted_signaled, H, Hfn. reflexivity.
Qed.

Lemma goto_loaded (u : string) (w : World) (doc : Document) :
  web w (List.length (navigations (log w))) u = Loaded doc ->
  goto u w = (Returns tt, show doc (record (Goto u) w)).
Proof. intros H. unfold goto. now rewrite H. Qed.

Lemma goto_failed (u : string) (w : World) (error : Value) :
  web w (List.length (navigations (log w))) u = NavigationFailed error ->
  goto u w = (Throws error, record (Goto u) w).
Proof. intros H. unfold goto. now rewrite H. Qed.

Section GetDetails.

Variable toLowerCase : string -> string.

(** The [findListingUrl] of the scraper at hand. *)
Variable find : string -> Async World string.

(** One attempt at the details of a listing whose URL is cached: the
    hook is not consulted; the page goes to the cached URL and is read. *)
Lemma performGetListingDetails_cached (d : OlxDomain) (listingId u : string)
    (signal : option (AbortSignal World)) (w : World) :
  urlCache d w !! listingId = Some u ->
  truthy u = true ->
  performGetListingDetails toLowerCase find d listingId signal w =
  let w1 := show blank (record NewPage w) in
  if signaled signal w1 then (Throws cancelled, record ClosePage w1)
  else
    match web w (List.length (navigations (log w))) u with
    | NavigationFailed error => (Throws error, record ClosePage (record (Goto u) w1))
    | Loaded doc =>
        let w2 := show doc (record (Goto u) w1) in
        if signaled signal w2 then (Throws cancelled, record ClosePage w2)
        else (Returns (details_on doc listingId u), record ClosePage w2)
    end.
Proof.
  intros Hhit Hu. cbv zeta. unfold performGetListingDetails.
  destruct (signaled signal (show blank (record NewPage w))) eqn:Hsig.
  { now apply withPage_cancelled. }
  assert (Hget : urlCache_get d listingId (show blank (record NewPage w))
                 = (Returns (Some u), show blank (record NewPage w))).
  { unfold urlCache_get.
    change (urlCache d (show blank (record NewPage w))) with (urlCache d w).
    now rewrite Hhit. }
  destruct (web w (List.length (navigations (log w))) u) as [doc|error] eqn:Hweb.
  - destruct (signaled signal (show doc (record (Goto u) (show blank (record NewPage w)))))
      eqn:Hsig2.
    + apply withPage_runs; [exact Hsig|].
      rewrite (bind_returns _ _ _ _ _ Hget). change (truthy_opt (Some u)) with (truthy u).
      change (default "" (Some u)) with u. rewrite Hu.
      cbv iota. rewrite bind_ret. cbv beta. rewrite Hu. cbn [negb].
      rewrite (bind_returns _ _ _ _ _ (goto_loaded u (show blank (record NewPage w)) doc Hweb)).
      rewrite (bind_returns _ _ _ _ _ (aborted_signaled _ _)). now rewrite Hsig2.
    + apply withPage_runs; [exact Hsig|].
      rewrite (bind_returns _ _ _ _ _ Hget). change (truthy_opt (Some u)) with (truthy u).
      change (default "" (Some u)) with u. rewrite Hu.
      cbv iota. rewrite bind_ret. cbv beta. rewrite Hu. cbn [negb].
      rewrite (bind_returns _ _ _ _ _ (goto_loaded u (show blank (record NewPage w)) doc Hweb)).
      rewrite (bind_returns _ _ _ _ _ (aborted_signaled _ _)). rewrite Hsig2.
      apply read_details.
  - apply withPage_runs; [exact Hsig|].
    rewrite (bind_returns _ _ _ _ _ Hget). change (truthy_opt (Some u)) with (truthy u).
      change (default "" (Some u)) with u. rewrite Hu.
    cbv iota. rewrite bind_ret. cbv beta. rewrite Hu. cbn [negb].
    now rewrite (bind_throws _ _ _ _ _ (goto_failed u (show blank (record NewPage w)) error Hweb)).
Qed.


End GetDetails.

(** ** Details of a listing *)

Section GetListingDetails.

Variable toLowerCase : string -> string.

Lemma getListingDetails_returns (find : string -> Async World string) (d : OlxDomain)
    (listingId : string) (signal : option (AbortSignal World)) (w w1 : World)
    (listing : Listing) :
  performGetListingDetails toLowerCase find d listingId signal w = (Returns listing, w1) ->
  getListingDetails toLowerCase find d listingId signal w = (Returns (Success listing), w1).
Proof.
  intros H. unfold getListingDetails, try_catch.
  rewrite (bind_returns _ _ _ _ _
             (retryOperation_returns_first setTimeout _ config_retries w w1 listing
                ltac:(unfold config_retries; lia) H)).
  reflexivity.
Qed.

(** [getListingDetails] wraps what the retried attempts give. *)
Lemma getListingDetails_wraps (find : string -> Async World string) (d : OlxDomain)
    (listingId : string) (signal : option (AbortSignal World)) (w : World) :
  getListingDetails toLowerCase find d listingId signal w =
  match retryOperation setTimeout
          (performGetListingDetails toLowerCase find d listingId signal)
          config_retries w with
  | (Returns listing, w1) => (Returns (Success listing), w1)
  | (Throws error, w1) =>
      match toError error with
      | Returns e => (Returns (Failure e), w1)
      | Throws typeError => (Throws typeError, w1)
      end
  end.
Proof.
  unfold getListingDetails, try_catch, bind.
  destruct (retryOperation _ _ _ w) as [[listing|error] w1]; [reflexivity|].
  unfold eval, ret. destruct (toError error); reflexivity.
Qed.

(** C10. Once the URL of the listing is known and the detail page has
    loaded, [getListingDetails] succeeds whatever the page holds: each
    field is read from the first element its selector matches and
    defaults when nothing matches.  With no title element the listing
    has the empty title; with no price, description or location element
    the field is absent; with neither a seller name nor a badge there
    is no seller. *)
Theorem C10_missing_fields_degrade
    (find : string -> Async World string) (d : OlxDomain) (listingId u : string)
    (doc : Document) (signal : option (AbortSignal World)) (w : World) :
  urlCache d w !! listingId = Some u ->
  truthy u = true ->
  web w (List.length (navigations (log w))) u = Loaded doc ->
  (forall w' : World, signaled signal w' = false) ->
  exists (listing : Listing) (w1 : World),
    getListingDetails toLowerCase find d listingId signal w
    = (Returns (Success listing), w1)
    /\ id listing = listingId
    /\ url listing = u
    /\ title listing = first_text doc (attr "data-testid" "offer_title")
    /\ (doc (attr "data-testid" "offer_title") = [] -> title listing = "")
    /\ (doc (attr "data-testid" "ad-price-container") = [] -> price listing = None)
    /\ (doc (attr "data-testid" "ad_description") = [] -> description listing = None)
    /\ (doc (attr "data-testid" "map-aside-section") = [] -> listing_location listing = None)
    /\ (doc (attr "data-testid" "user-profile-user-name") = [] ->
        doc (attr "data-testid" "trader-title") = [] ->
        seller listing = None).
Proof.
  intros Hhit Hu Hweb Hquiet.
  exists (details_on doc listingId u). eexists. split.
  - apply getListingDetails_returns.
    rewrite (performGetListingDetails_cached toLowerCase find d listingId u signal w Hhit Hu).
    cbv zeta. rewrite Hquiet, Hweb, Hquiet. reflexivity.
  - unfold details_on, seller_on, first_text, present.
    cbn [id url title price description listing_location seller].
    repeat split; try (intros ->; reflexivity).
    intros -> ->. reflexivity.
Qed.

(** ** The URL cache comes first *)


End GetListingDetails.

(** ** Looking a listing up by its identifier *)

(** The search-by-id page of a domain. *)
Definition find_url (d : OlxDomain) (listingId : string) : string :=
  match d with
  | olx_pt => "https://www.olx.pt/ads/q-"
  | olx_pl => "https://www.olx.pl/oferty/q-"
  | olx_bg => "https://www.olx.bg/ads/q-"
  | olx_ro => "https://www.olx.ro/ads/q-"
  | olx_ua => "https://www.olx.ua/ads/q-"
  end ++ listingId ++ "/".

(** The link of the first result card whose [href] holds the
    identifier, if the page has one and its [href] is not empty. *)
Definition card_link (doc : Document) (listingId : string) : option string :=
  match doc (card_link_selector listingId) with
  | el :: _ => if truthy_opt (getAttribute el "href") then getAttribute el "href" else None
  | [] => None
  end.

Section FindListingUrl.

Variable toLowerCase : string -> string.
Variable URL_new : string -> string -> option URL.

Definition found_url (d : OlxDomain) (doc : Document) (listingId : string) : string :=
  match card_link doc listingId with
  | Some href =>
      match URL_new href (baseUrl (domainConfig toLowerCase d)) with
      | Some u => toString u
      | None => ""
      end
  | None => ""
  end.

(** What follows the navigation in [findListingUrl]. *)
Lemma find_on_page (d : OlxDomain) (listingId : string) (w : World) :
  (listingLink <- try_catch
                    (page_eval (card_link_selector listingId)
                       (fun el => getAttribute el "href"))
                    (fun _ => ret None) ;;
   if truthy_opt listingLink then
     u <- new_URL URL_new (default "" listingLink) (baseUrl (domainConfig toLowerCase d)) ;;
     ret (toString u)
   else ret "") w
  = (match URL_new (default "" (card_link (document w) listingId))
             (baseUrl (domainConfig toLowerCase d)),
           card_link (document w) listingId with
     | Some u, Some _ => Returns (toString u)
     | None, Some _ => Throws invalid_URL
     | _, None => Returns ""
     end, w).
Proof.
  unfold bind at 1. rewrite page_eval_catch. unfold card_link.
  destruct (document w (card_link_selector listingId)) as [|el others].
  - cbn [truthy_opt]. destruct (URL_new _ _); reflexivity.
  - destruct (getAttribute el "href") as [href|] eqn:Hhref; cbn [truthy_opt].
    + destruct (truthy href) eqn:Ht.
      * change (default "" (Some href)) with href. unfold new_URL, bind.
        destruct (URL_new href _); reflexivity.
      * destruct (URL_new _ _); reflexivity.
    + destruct (URL_new _ _); reflexivity.
Qed.

(** [findListingUrl] never throws and navigates exactly once, to the
    search-by-id page of the domain; it returns the resolved link of
    the matching card, and the empty string when the navigation fails,
    when no card matches or when the link does not resolve. *)
Lemma findListingUrl_runs (d : OlxDomain) (listingId : string) (w : World) :
  findListingUrl toLowerCase URL_new d listingId w =
  match web w (List.length (navigations (log w))) (find_url d listingId) with
  | NavigationFailed _ => (Returns "", record (Goto (find_url d listingId)) w)
  | Loaded doc =>
      (Returns (found_url d doc listingId),
       show doc (record (Goto (find_url d listingId)) w))
  end.
Proof.
  assert (Hurl : forall path,
             (path = "/ads/q-" \/ path = "/oferty/q-") ->
             baseUrl (domainConfig toLowerCase d) ++ path ++ listingId ++ "/"
             = (baseUrl (domainConfig toLowerCase d) ++ path) ++ listingId ++ "/").
  { intros path _. now rewrite append_assoc. }
  assert (Hrun : forall u k,
             try_catch (goto u ;;; k) (fun _ => ret "") w =
             match web w (List.length (navigations (log w))) u with
             | NavigationFailed _ => (Returns "", record (Goto u) w)
             | Loaded doc =>
                 try_catch k (fun _ => ret "") (show doc (record (Goto u) w))
             end).
  { intros u k. unfold try_catch, bind, goto.
    destruct (web w _ u); reflexivity. }
  unfold findListingUrl, found_url.
  destruct d; cbn [scraper_class];
    unfold OLXPTScraper_findListingUrl, OLXPLScraper_findListingUrl,
      GenericOlxScraper_findListingUrl;
    cbv zeta; rewrite Hrun;
    match goal with
    | |- match web w ?n ?u1 with _ => _ end = match web w ?n ?u2 with _ => _ end =>
        change u1 with u2
    end.
  all: destruct (web w _ _) as [doc|error]; [|reflexivity].
  all: unfold try_catch at 1; rewrite find_on_page.
  all: change (document (show doc _)) with doc.
  all: destruct (card_link doc listingId) as [href|];
    [change (default "" (Some href)) with href|];
    destruct (URL_new _ _); reflexivity.
Qed.

End FindListingUrl.

Section CacheFirst.

Variable toLowerCase : string -> string.
Variable URL_new : string -> string -> option URL.








End CacheFirst.

(** ** Reading the result cards *)

(** A URL object always prints as a non-empty string. *)
Lemma toString_truthy (u : URL) : truthy (toString u) = true.
Proof.
  unfold toString. destruct (scheme u) as [|a s]; [|reflexivity].
  change ("" ++ ":" ++ ?x) with (String ":" x). reflexivity.
Qed.

(** The world after a reading of the clock. *)
Definition tick (w : World) : World :=
  {| web := web w; clock := clock w; clock_reads := S (clock_reads w);
     log := log w; document := document w; scrapers := scrapers w |}.

(** The identifier a link gets in a given state of the world, and the
    state after it was given. *)
Definition listing_id (href : string) (w : World) : string :=
  match match_ID_html href with
  | Some token => token
  | None => number_toString (clock w (clock_reads w))
  end.

Definition after_id (href : string) (w : World) : World :=
  match match_ID_html href with
  | Some _ => w
  | None => tick w
  end.

Lemma extractListingId_runs (d : OlxDomain) (href : string) (w : World) :
  extractListingId d href w = (Returns (listing_id href w), after_id href w).
Proof.
  rewrite extractListingId_unfold. unfold listing_id, after_id.
  destruct (match_ID_html href); reflexivity.
Qed.

Lemma after_id_frame (href : string) (w : World) :
  web (after_id href w) = web w
  /\ log (after_id href w) = log w
  /\ document (after_id href w) = document w
  /\ scrapers (after_id href w) = scrapers w.
Proof. unfold after_id. destruct (match_ID_html href); repeat split; reflexivity. Qed.

Definition card_text (el : Element) (selector : string) : string :=
  match querySelectorAll el selector with e :: _ => trimmed_text e | [] => "" end.

Definition card_href (el : Element) : string :=
  match querySelectorAll el "a[href]" with
  | e :: _ => default "" (getAttribute e "href")
  | [] => ""
  end.

Definition card_image (el : Element) : string :=
  match querySelectorAll el "img" with
  | e :: _ => default "" (or_else (getAttribute e "src") (getAttribute e "data-src"))
  | [] => ""
  end.

Section Cards.

Variable toLowerCase : string -> string.
Variable URL_new : string -> string -> option URL.

Definition card_title (d : OlxDomain) (el : Element) : string :=
  card_text el (search_title (selectors (domainConfig toLowerCase d))).

(** The absolute URL under which a card is listed: the card has a
    title and a link, and the link resolves. *)
Definition card_url (d : OlxDomain) (el : Element) : option string :=
  if (truthy (card_title d el) && truthy (card_href el))%bool
  then option_map toString (URL_new (card_href el) (baseUrl (domainConfig toLowerCase d)))
  else None.

Definition listing_of_card (d : OlxDomain) (el : Element) (listing url : string) : Listing :=
  {| id := listing;
     title := card_title d el;
     price := or_undefined (card_text el (attr "data-testid" "ad-price"));
     listing_location := or_undefined (card_text el (attr "data-testid" "location-date"));
     imageUrl := or_undefined (card_image el);
     url := url;
     description := None;
     seller := None |}.

Lemma card_selectors (d : OlxDomain) :
  let sel := selectors (domainConfig toLowerCase d) in
  search_listingCard sel = attr "data-cy" "l-card"
  /\ search_price sel = attr "data-testid" "ad-price"
  /\ search_location sel = attr "data-testid" "location-date"
  /\ search_image sel = "img"
  /\ search_link sel = "a[href]".
Proof. destruct d; repeat split; reflexivity. Qed.

(** One card: skipped, with nothing changed, or pushed behind the
    listings so far, with its URL cached under its identifier. *)
Lemma extract_card_runs (d : OlxDomain) (el : Element) (listings : list Listing)
    (w : World) :
  extract_card toLowerCase URL_new (extractListingId d) d el listings w =
  match card_url d el with
  | None => (Returns listings, w)
  | Some url =>
      let listing := listing_id (card_href el) w in
      let w1 := after_id (card_href el) w in
      (Returns (listings ++ [listing_of_card d el listing url])%list,
       with_scraper d (Some (<[listing := url]> (urlCache d w1))) w1)
  end.
Proof.
  unfold extract_card, card_url, card_title.
  destruct (card_selectors d) as (_ & -> & -> & -> & ->).
  unfold try_catch at 1.
  rewrite (bind_returns _ _ _ _ _ (element_eval_catch el _ trimmed_text "" w)).
  rewrite (bind_returns _ _ _ _ _ (element_eval_catch el _ trimmed_text "" w)).
  rewrite (bind_returns _ _ _ _ _ (element_eval_catch el _ trimmed_text "" w)).
  rewrite (bind_returns _ _ _ _ _ (element_eval_catch el _ _ "" w)).
  rewrite (bind_returns _ _ _ _ _ (element_eval_catch el _ _ "" w)).
  fold (card_text el (search_title (selectors (domainConfig toLowerCase d)))).
  fold (card_href el).
  destruct (truthy (card_text el _)) eqn:Ht; [|reflexivity].
  destruct (truthy (card_href el)) eqn:Hh; [|reflexivity].
  cbn [negb orb andb]. unfold new_URL.
  destruct (URL_new (card_href el) _) as [u|]; [|reflexivity].
  rewrite bind_ret. cbv beta.
  rewrite (bind_returns _ _ _ _ _ (extractListingId_runs d (card_href el) w)).
  reflexivity.
Qed.

End Cards.

Lemma domain_eqb_eq (a b : OlxDomain) : domain_eqb a b = true <-> a = b.
Proof. destruct a, b; split; intros H; try reflexivity; discriminate. Qed.

Lemma urlCache_with_scraper (d : OlxDomain) (m : gmap string string) (w : World) :
  urlCache d (with_scraper d (Some m) w) = m.
Proof.
  unfold urlCache, with_scraper. cbn [scrapers].
  now rewrite (proj2 (domain_eqb_eq d d) eq_refl).
Qed.

Lemma scrapers_with_scraper_other (d d' : OlxDomain) (c : option (gmap string string))
    (w : World) :
  d' <> d -> scrapers (with_scraper d c w) d' = scrapers w d'.
Proof.
  intros Hne. unfold with_scraper. cbn [scrapers].
  destruct (domain_eqb d' d) eqn:E; [|reflexivity].
  apply domain_eqb_eq in E. contradiction.
Qed.

Lemma omap_cons {A B} (f : A -> option B) (x : A) (l : list A) :
  omap f (x :: l) = match f x with Some y => y :: omap f l | None => omap f l end.
Proof. reflexivity. Qed.

Definition entry_of (l : Listing) : string * string := (title l, url l).

(** The cache after the URLs of these listings were written to it,
    one after the other. *)
Definition cache_after (m : gmap string string) (new : list Listing) : gmap string string :=
  fold_left (fun m l => <[id l := url l]> m) new m.

(** Every listing written to the cache can be looked up afterwards, and
    finds a non-empty URL: the one written last under its identifier. *)
Lemma cache_after_lookup (new : list Listing) :
  Forall (fun l => truthy (url l) = true) new ->
  forall (m : gmap string string) (k : string),
    (In k (List.map id new) ->
     exists l, In l new /\ id l = k /\ cache_after m new !! k = Some (url l))
    /\ (~ In k (List.map id new) -> cache_after m new !! k = m !! k).
Proof.
  intros Hall. induction Hall as [|l new Hl Hall IH]; intros m k.
  - split; [intros [] | reflexivity].
  - cbn [cache_after fold_left List.map In].
    change (fold_left _ new ?x) with (cache_after x new).
    destruct (IH (<[id l := url l]> m) k) as [IHin IHout].
    destruct (in_dec string_dec k (List.map id new)) as [Hk|Hk].
    + split; [|tauto]. intros _. destruct (IHin Hk) as (l' & Hin & Hid & Hlook).
      exists l'. split; [now right | now split].
    + split.
      * intros [Hid|Hin]; [|contradiction]. exists l. split; [now left|].
        split; [exact Hid|]. rewrite (IHout Hk), <- Hid. apply lookup_insert_eq.
      * intros Hno. rewrite (IHout Hk). apply lookup_insert_ne. tauto.
Qed.

Section CardList.

Variable toLowerCase : string -> string.
Variable URL_new : string -> string -> option URL.

(** The title and the URL under which a card is listed, if it is. *)
Definition card_entry (d : OlxDomain) (el : Element) : option (string * string) :=
  option_map (pair (card_title toLowerCase d el)) (card_url toLowerCase URL_new d el).

(** The loop over the cards never throws.  It pushes one listing for
    every card that has a title and a link that resolves, in the order
    of the cards; it writes the URL of each of them to the cache under
    its identifier, in that order, and touches neither the page, the
    event log nor the other scrapers. *)
Lemma extract_cards_runs (d : OlxDomain) (els : list Element) :
  forall (listings : list Listing) (w : World),
  exists (new : list Listing) (w1 : World),
    extract_cards toLowerCase URL_new (extractListingId d) d els listings w
    = (Returns (listings ++ new)%list, w1)
    /\ List.map entry_of new = omap (card_entry d) els
    /\ Forall (fun l => truthy (url l) = true) new
    /\ urlCache d w1 = cache_after (urlCache d w) new
    /\ web w1 = web w
    /\ log w1 = log w
    /\ document w1 = document w
    /\ (forall d', d' <> d -> scrapers w1 d' = scrapers w d').
Proof.
  induction els as [|el els IH]; intros listings w.
  - exists [], w. cbn [extract_cards]. rewrite app_nil_r.
    repeat split; try reflexivity. constructor.
  - cbn [extract_cards]. unfold bind at 1. rewrite extract_card_runs.
    assert (Hentry : card_entry d el
                     = option_map (pair (card_title toLowerCase d el))
                         (card_url toLowerCase URL_new d el)) by reflexivity.
    destruct (card_url toLowerCase URL_new d el) as [u|] eqn:Hurl.
    + cbv zeta. cbn [option_map].
      set (k0 := listing_id (card_href el) w).
      set (wi := after_id (card_href el) w).
      set (w0 := with_scraper d (Some (<[k0 := u]> (urlCache d wi))) wi).
      destruct (after_id_frame (card_href el) w) as (Fweb & Flog & Fdoc & Fscr).
      fold wi in Fweb, Flog, Fdoc, Fscr.
      assert (Hu : truthy u = true).
      { unfold card_url in Hurl. destruct (_ && _)%bool; [|discriminate].
        destruct (URL_new _ _) as [x|]; [|discriminate].
        injection Hurl as <-. apply toString_truthy. }
      assert (Hcache0 : urlCache d w0 = <[k0 := u]> (urlCache d w)).
      { subst w0. rewrite urlCache_with_scraper. unfold urlCache. now rewrite Fscr. }
      destruct (IH (listings ++ [listing_of_card toLowerCase d el k0 u])%list w0)
        as (new & w1 & Hrun & Hentries & Hall & Hcache & Hweb & Hlog & Hdoc & Hother).
      exists (listing_of_card toLowerCase d el k0 u :: new), w1.
      rewrite Hrun. rewrite <- app_assoc. split; [reflexivity|].
      split; [rewrite omap_cons, Hentry; cbn [List.map option_map];
              now rewrite Hentries|].
      split; [constructor; [exact Hu | exact Hall]|].
      split; [rewrite Hcache, Hcache0; reflexivity|].
      split; [now rewrite Hweb|]. split; [now rewrite Hlog|]. split; [now rewrite Hdoc|].
      intros d' Hne. rewrite (Hother d' Hne). subst w0.
      rewrite (scrapers_with_scraper_other d d' _ wi Hne). now rewrite Fscr.
    + destruct (IH listings w)
        as (new & w1 & Hrun & Hentries & Hall & Hcache & Hweb & Hlog & Hdoc & Hother).
      exists new, w1. split; [exact Hrun|].
      split; [rewrite omap_cons, Hentry; exact Hentries|].
      repeat split; assumption.
Qed.

End CardList.

(** ** One search *)

Lemma withPage_inv {T} (fn : Async World T) (signal : option (AbortSignal World))
    (w w' : World) (v : T) :
  withPage fn signal w = (Returns v, w') ->
  exists w1 : World,
    fn (show blank (record NewPage w)) = (Returns v, w1) /\ w' = record ClosePage w1.
Proof.
  intros H.
  destruct (signaled signal (show blank (record NewPage w))) eqn:Hsig.
  - rewrite (withPage_cancelled fn signal w Hsig) in H. discriminate.
  - destruct (fn (show blank (record NewPage w))) as [r w1] eqn:Hfn.
    rewrite (withPage_runs fn signal w w1 r Hsig Hfn) in H.
    injection H as -> <-. now exists w1.
Qed.

Section Search.

Variable toLowerCase : string -> string.
Variable URL_new : string -> string -> option URL.

(** What a successful attempt of [performSearch] has done: one
    navigation, to the URL built from the filters; the listings are
    those of the cards of the page that loaded, and their URLs are in
    the cache. *)
Lemma performSearch_returns (d : OlxDomain) (filters : SearchFilters)
    (signal : option (AbortSignal World)) (w w' : World) (result : SearchResult) :
  performSearch toLowerCase URL_new (extractListingId d) d filters signal w
  = (Returns result, w') ->
  exists searchUrl : string,
    buildSearchUrl URL_new (domainConfig toLowerCase d) filters = Some searchUrl
    /\ web w (List.length (navigations (log w))) searchUrl = Loaded (document w')
    /\ navigations (log w') = searchUrl :: navigations (log w)
    /\ List.map entry_of (listings result)
       = omap (card_entry toLowerCase URL_new d) (document w' (attr "data-cy" "l-card"))
    /\ Forall (fun l => truthy (url l) = true) (listings result)
    /\ urlCache d w' = cache_after (urlCache d w) (listings result)
    /\ web w' = web w
    /\ currentPage result
       = (if truthy_num (page filters) then default 0 (page filters) else 1)
    /\ hasNextPage result
       = present (document w') ("a" ++ attr "data-cy" "pagination-forward").
Proof.
  intros H. unfold performSearch in H.
  apply withPage_inv in H as (w3 & H & ->).
  set (w1 := show blank (record NewPage w)) in *.
  destruct (buildSearchUrl URL_new (domainConfig toLowerCase d) filters) as [searchUrl|];
    [|discriminate].
  exists searchUrl. split; [reflexivity|].
  rewrite bind_ret in H. cbv beta in H.
  destruct (web w (List.length (navigations (log w))) searchUrl) as [doc|error] eqn:Hweb.
  2:{ rewrite (bind_throws _ _ _ _ _ (goto_failed searchUrl w1 error Hweb)) in H.
      discriminate. }
  rewrite (bind_returns _ _ _ _ _ (goto_loaded searchUrl w1 doc Hweb)) in H.
  unfold waitForSearchResults in H. rewrite bind_ret in H.
  rewrite (bind_returns _ _ _ _ _ (aborted_signaled _ _)) in H.
  destruct (signaled signal _); [discriminate|].
  set (w2 := show doc (record (Goto searchUrl) w1)) in *.
  unfold extractListings in H.
  destruct (card_selectors toLowerCase d) as (Hcard & _). rewrite Hcard in H.
  assert (Hall : page_queryAll (attr "data-cy" "l-card") w2
                 = (Returns (doc (attr "data-cy" "l-card")), w2)) by reflexivity.
  unfold bind at 1 in H. unfold bind at 1 in H. rewrite Hall in H.
  destruct (extract_cards_runs toLowerCase URL_new d (doc (attr "data-cy" "l-card")) [] w2)
    as (new & w4 & Hrun & Hentries & Htruthy & Hcache & Fweb & Flog & Fdoc & _).
  rewrite Hrun in H. cbn [app] in H.
  rewrite (bind_returns _ _ _ _ _ (extractPaginationInfo_reads toLowerCase d _ w4)) in H.
  injection H as <- <-.
  cbn [listings currentPage hasNextPage p_currentPage p_hasNextPage record log document web
         navigations].
  rewrite Fdoc, Flog, Fweb.
  change (document w2) with doc. change (log w2) with (Goto searchUrl :: NewPage :: log w).
  change (web w2) with (web w). cbn [navigations].
  repeat split; try assumption; try reflexivity.
Qed.

(** [scrape] wraps what the retried attempts give. *)
Lemma scrape_wraps (hook : string -> Async World string) (d : OlxDomain)
    (filters : SearchFilters) (signal : option (AbortSignal World)) (w : World) :
  scrape toLowerCase URL_new hook d filters signal w =
  match retryOperation setTimeout
          (performSearch toLowerCase URL_new hook d filters signal) config_retries w with
  | (Returns result, w1) => (Returns (Success result), w1)
  | (Throws error, w1) =>
      match toError error with
      | Returns e => (Returns (Failure e), w1)
      | Throws typeError => (Throws typeError, w1)
      end
  end.
Proof.
  unfold scrape, try_catch, bind.
  destruct (retryOperation _ _ _ w) as [[result|error] w1]; [reflexivity|].
  unfold eval, ret. destruct (toError error); reflexivity.
Qed.

(** A successful [scrape] ends with a successful attempt. *)
Lemma scrape_success (d : OlxDomain) (filters : SearchFilters)
    (signal : option (AbortSignal World)) (w w' : World) (result : SearchResult) :
  scraper_scrape toLowerCase URL_new d filters signal w = (Returns (Success result), w') ->
  exists w0 : World,
    performSearch toLowerCase URL_new (extractListingId d) d filters signal w0
    = (Returns result, w').
Proof.
  unfold scraper_scrape. rewrite scrape_wraps. unfold retryOperation.
  destruct (retry_loop _ _ _ _ _ _ w) as [[r|error] w1] eqn:Hloop;
    [|destruct (toError error); discriminate].
  intros [= <- <-]. eapply retry_loop_returns. exact Hloop.
Qed.

End Search.

(** ** The limit of a search *)

Definition with_limit (l : option Z) (f : SearchFilters) : SearchFilters :=
  {| domain := domain f;
     query := query f;
     category := category f;
     location := location f;
     minPrice := minPrice f;
     maxPrice := maxPrice f;
     page := page f;
     limit := l;
     sortBy := sortBy f |}.

Definition input_with_limit (l : option Z) (i : Schema.SearchListingsInput)
  : Schema.SearchListingsInput :=
  {| Schema.in_domain := Schema.in_domain i;
     Schema.in_query := Schema.in_query i;
     Schema.in_category := Schema.in_category i;
     Schema.in_location := Schema.in_location i;
     Schema.in_minPrice := Schema.in_minPrice i;
     Schema.in_maxPrice := Schema.in_maxPrice i;
     Schema.in_page := Schema.in_page i;
     Schema.in_limit := l;
     Schema.in_sortBy := Schema.in_sortBy i |}.

Section Limit.

Variable toLowerCase : string -> string.
Variable URL_new : string -> string -> option URL.

Lemma scrape_ignores_limit (hook : string -> Async World string) (d : OlxDomain)
    (filters : SearchFilters) (l : option Z) :
  scrape toLowerCase URL_new hook d (with_limit l filters)
  = scrape toLowerCase URL_new hook d filters.
Proof. reflexivity. Qed.

(** The schema lets a limit between 1 and 50 pass without a trace: the
    issues, if any, are those of the other fields. *)
Lemma schema_limit_in_range (i : Schema.SearchListingsInput) (l1 l2 : Z) :
  1 <= l1 <= 50 -> 1 <= l2 <= 50 ->
  match Schema.SearchListingsArgsSchema (input_with_limit (Some l1) i),
        Schema.SearchListingsArgsSchema (input_with_limit (Some l2) i) with
  | inl issues1, inl issues2 => issues1 = issues2
  | inr a1, inr a2 =>
      Tools.filters_of a1 = with_limit (Some l1) (Tools.filters_of a2)
      /\ Schema.domain a1 = Schema.domain a2
  | _, _ => False
  end.
Proof.
  intros H1 H2.
  assert (Hf : forall l, 1 <= l <= 50 ->
             Schema.field_issues (input_with_limit (Some l) i)
             = (Schema.check_query (Schema.in_query i)
                ++ Schema.check_min "minPrice" 0 (Schema.in_minPrice i)
                ++ Schema.check_min "maxPrice" 0 (Schema.in_maxPrice i)
                ++ Schema.check_min "page" 1 (Schema.in_page i))%list).
  { intros l Hl. unfold Schema.field_issues. cbn [input_with_limit Schema.in_query
      Schema.in_minPrice Schema.in_maxPrice Schema.in_page Schema.in_limit
      Schema.check_min Schema.check_max].
    destruct (Z.ltb_spec l 1); [lia|]. destruct (Z.ltb_spec 50 l); [lia|].
    cbn [app]. now rewrite !app_nil_r. }
  unfold Schema.SearchListingsArgsSchema. rewrite (Hf l1 H1), (Hf l2 H2).
  cbn [input_with_limit Schema.in_domain Schema.in_sortBy].
  change (Schema.refinement_issues (input_with_limit (Some l1) i))
    with (Schema.refinement_issues i).
  change (Schema.refinement_issues (input_with_limit (Some l2) i))
    with (Schema.refinement_issues i).
  destruct (Schema.parse_domain (Schema.in_domain i)) as [d|];
    destruct (match Schema.in_sortBy i with
              | Some s => Schema.parse_sortBy s
              | None => Some relevance
              end) as [s|]; try reflexivity.
  destruct (_ ++ Schema.refinement_issues i)%list; [|reflexivity].
  split; reflexivity.
Qed.

(** C9, amended. The limit plays no part after validation.  [scrape]
    does the same for every limit, and [searchListings] returns the
    same for any two limits the schema admits.  A successful [scrape]
    returns one listing for every result card of the loaded page that
    has a title and a link which the URL constructor accepts, in page
    order, however many that is; a card whose link makes [new URL]
    throw is left out, like a card without a title or a link. *)
Theorem C9_limit_is_not_consulted
    (d : OlxDomain) (filters : SearchFilters) (signal : option (AbortSignal World))
    (w : World) :
  (forall l : option Z,
      scraper_scrape toLowerCase URL_new d (with_limit l filters) signal w
      = scraper_scrape toLowerCase URL_new d filters signal w)
  /\ (forall (input : Schema.SearchListingsInput) (l1 l2 : Z),
         1 <= l1 <= 50 -> 1 <= l2 <= 50 ->
         Tools.searchListings toLowerCase URL_new (input_with_limit (Some l1) input) signal w
         = Tools.searchListings toLowerCase URL_new (input_with_limit (Some l2) input) signal w)
  /\ (forall (result : SearchResult) (w' : World),
         scraper_scrape toLowerCase URL_new d filters signal w
         = (Returns (Success result), w') ->
         List.map entry_of (listings result)
         = omap (card_entry toLowerCase URL_new d) (document w' (attr "data-cy" "l-card"))).
Proof.
  split; [reflexivity|]. split.
  - intros input l1 l2 H1 H2.
    pose proof (schema_limit_in_range input l1 l2 H1 H2) as Hs.
    unfold Tools.searchListings. rewrite !execute_guarded.
    match goal with
    | |- match ?g1 with _ => _ end = match ?g2 with _ => _ end =>
        assert (Hg : g1 = g2); [|now rewrite Hg]
    end.
    unfold guarded. rewrite !(bind_returns _ _ _ _ _ (aborted_signaled _ _)).
    destruct (signaled signal w); [reflexivity|].
    rewrite !bind_ret. unfold BaseTool.parse_with.
    destruct (Schema.SearchListingsArgsSchema (input_with_limit (Some l1) input)) as [i1|a1],
      (Schema.SearchListingsArgsSchema (input_with_limit (Some l2) input)) as [i2|a2];
      try contradiction.
    + subst i2. reflexivity.
    + destruct Hs as [Hf Hd]. rewrite !bind_ret.
      unfold Tools.SearchListingsTool_executeImpl. rewrite Hf, Hd.
      reflexivity.
  - intros result w' H. apply scrape_success in H as [w0 H].
    apply performSearch_returns in H as (searchUrl & _ & _ & _ & Hentries & _).
    exact Hentries.
Qed.

End Limit.

(** ** A worked example: one search page and one detail page *)

Definition text_element (t : string) : Element :=
  mkElement (Some t) (fun _ => None) (fun _ => []).

Definition link_element (href : string) : Element :=
  mkElement (Some "")
    (fun a => if String.eqb a "href" then Some href else None)
    (fun _ => []).

(** A result card with a title (none when [t] is empty) and a link. *)
Definition result_card (t href : string) : Element :=
  mkElement None (fun _ => None)
    (fun s =>
       if String.eqb s title_h4 then (if truthy t then [text_element t] else [])
       else if String.eqb s "a[href]" then [link_element href]
       else []).

(** Three cards, the second without a title, 81 results in all and a
    link to the next page. *)
Definition results_page : Document :=
  fun s =>
    if String.eqb s (attr "data-cy" "l-card")
    then [result_card " Bike " "/d/anuncio/bike-IDabc12.html";
          result_card "" "/d/anuncio/untitled-IDzzz99.html";
          result_card "Car" "/d/anuncio/car-IDdef34.html"]
    else if String.eqb s (attr "data-testid" "total-count")
    then [text_element "We found 81 ads"]
    else if String.eqb s ("a" ++ attr "data-cy" "pagination-forward")
    then [link_element "/ads/q-bike/?page=2"]
    else [].

(** A detail page with a price and nothing else. *)
Definition detail_page : Document :=
  fun s =>
    if String.eqb s (attr "data-testid" "ad-price-container")
    then [text_element " 120 EUR "]
    else [].

Definition sample_web (n : nat) (u : string) : Response :=
  if String.eqb u "https://www.olx.pt/ads/q-bike/" then Loaded results_page
  else if String.eqb u "https://www.olx.pt/d/anuncio/bike-IDabc12.html" then Loaded detail_page
  else Loaded blank.

Definition sample_world : World :=
  {| web := sample_web;
     clock := fun n => 1700000000000 + Z.of_nat n;
     clock_reads := 0;
     log := [];
     document := blank;
     scrapers := fun _ => None |}.

(** A search for bikes that asks for a single result. *)
Definition bike_filters : SearchFilters :=
  {| domain := olx_pt;
     query := Some "bike";
     category := None;
     location := None;
     minPrice := None;
     maxPrice := None;
     page := Some 1;
     limit := Some 1;
     sortBy := Some relevance |}.

Definition bike_search : Outcome (Result SearchResult) * World :=
  scraper_scrape ascii_toLowerCase example_URL_new olx_pt bike_filters None sample_world.

Definition bike_result : SearchResult :=
  {| listings :=
       [ {| id := "abc12";
            title := "Bike";
            price := None;
            listing_location := None;
            imageUrl := None;
            url := "https://www.olx.pt/d/anuncio/bike-IDabc12.html";
            description := None;
            seller := None |};
         {| id := "def34";
            title := "Car";
            price := None;
            listing_location := None;
            imageUrl := None;
            url := "https://www.olx.pt/d/anuncio/car-IDdef34.html";
            description := None;
            seller := None |} ];
     totalCount := Finite 81;
     currentPage := 1;
     totalPages := Finite 3;
     hasNextPage := true |}.

Lemma with_state {A B} (x : A * B) (a : A) : fst x = a -> x = (a, snd x).
Proof. intros <-. apply surjective_pairing. Qed.

(** Two listings come back although one was asked for, and the card
    without a title is left out. *)
Lemma bike_search_runs : bike_search = (Returns (Success bike_result), snd bike_search).
Proof. apply with_state. vm_compute. reflexivity. Qed.

Lemma bike_search_cached :
  urlCache olx_pt (snd bike_search) !! "abc12"
  = Some "https://www.olx.pt/d/anuncio/bike-IDabc12.html".
Proof. vm_compute. reflexivity. Qed.


Section CacheFirstClaim.

Variable toLowerCase : string -> string.
Variable URL_new : string -> string -> option URL.



End CacheFirstClaim.

(** ** The claims on the worked example *)

(** An input the schema rejects twice over. *)
Definition bad_search : Schema.SearchListingsInput :=
  {| Schema.in_domain := "olx.pt";
     Schema.in_query := Some "";
     Schema.in_category := None;
     Schema.in_location := None;
     Schema.in_minPrice := None;
     Schema.in_maxPrice := None;
     Schema.in_page := None;
     Schema.in_limit := Some 51;
     Schema.in_sortBy := None |}.

Definition bike_details : Schema.GetListingDetailsInput :=
  {| Schema.din_domain := "olx.pt";
     Schema.din_listingId := "abc12";
     Schema.din_includeImages := None;
     Schema.din_includeSellerInfo := None |}.

Definition raised : AbortSignal World := fun _ => true.

Lemma C3_witness :
  Tools.searchListings ascii_toLowerCase example_URL_new bad_search (Some raised) sample_world
  = (Returns (Failure (Error "Operation cancelled")), sample_world)
  /\ Tools.getListingDetailsTool ascii_toLowerCase example_URL_new bike_details (Some raised)
       sample_world
     = (Returns (Failure (Error "Operation cancelled")), sample_world).
Proof.
  apply (C3_pre_signaled_token ascii_toLowerCase example_URL_new raised sample_world
           bad_search bike_details).
  reflexivity.
Defined.

(** Without the signal the same input is validated and rejected, and
    the details are fetched with two navigations. *)
Example bad_search_is_validated :
  fst (Tools.searchListings ascii_toLowerCase example_URL_new bad_search None sample_world)
  = Returns (Failure (Error
      ("Validation error: query: String must contain at least 1 character(s), "
       ++ "limit: Number must be less than or equal to 50, "
       ++ "query: At least one of query, category, or location must be provided"))).
Proof. vm_compute. reflexivity. Qed.

Example bike_details_navigates :
  navigations (log (snd (Tools.getListingDetailsTool ascii_toLowerCase example_URL_new
                           bike_details None sample_world)))
  = ["https://www.olx.pt/ads/q-abc12/"; "https://www.olx.pt/ads/q-abc12/";
     "https://www.olx.pt/ads/q-abc12/"].
Proof. vm_compute. reflexivity. Qed.

Lemma C6_witness :
  exists p : Pagination,
    extractPaginationInfo ascii_toLowerCase olx_pt 1 (show results_page sample_world)
    = (Returns p, show results_page sample_world)
    /\ p_totalCount p = Finite 81
    /\ p_hasNextPage p = true
    /\ p_totalPages p = Finite 3.
Proof.
  destruct (C6_pagination ascii_toLowerCase olx_pt 1 (show results_page sample_world))
    as (p & Hrun & _ & _ & Hsome & Hnext & _ & _ & Hpages).
  exists p. split; [exact Hrun|].
  assert (Hcount : p_totalCount p = Finite 81).
  { apply (proj2 (proj2 (Hsome (text_element "We found 81 ads") [] eq_refl)
                    "We found " " ads" 81 eq_refl ltac:(lia) eq_refl eq_refl)).
    vm_compute. discriminate. }
  split; [exact Hcount|]. split.
  - apply Hnext. vm_compute. discriminate.
  - destruct (Hpages 81 Hcount ltac:(vm_compute; discriminate)) as (pages & -> & Hle & Hor).
    f_equal. lia.
Defined.

(** A page that counts [n] results and shows none. *)
Definition counting_page (n : string) : Document :=
  fun s =>
    if String.eqb s (attr "data-testid" "total-count")
    then [text_element ("We found " ++ n ++ " ads")]
    else [].

(** Above [2^53] the count is rounded to a double, ... *)
Example pagination_rounds_the_count :
  fst (extractPaginationInfo ascii_toLowerCase olx_pt 1
         (show (counting_page "9007199254740993") sample_world))
  = Returns {| p_totalCount := Finite 9007199254740992;
               p_currentPage := 1;
               p_totalPages := Finite 225179981368525;
               p_hasNextPage := false |}.
Proof. vm_compute. reflexivity. Qed.

(** ... and so is the quotient: [2^60] results fit on
    28823037615171175 pages of 40, and [totalPages] is one more. *)
Example pagination_rounds_the_quotient :
  fst (extractPaginationInfo ascii_toLowerCase olx_pt 1
         (show (counting_page "1152921504606846976") sample_world))
  = Returns {| p_totalCount := Finite 1152921504606846976;
               p_currentPage := 1;
               p_totalPages := Finite 28823037615171176;
               p_hasNextPage := false |}
  /\ 1152921504606846976 <= 40 * 28823037615171175.
Proof. split; [vm_compute; reflexivity | lia]. Qed.

Lemma C9_witness :
  Tools.searchListings ascii_toLowerCase example_URL_new
    (input_with_limit (Some 1) free_items_input) None sample_world
  = Tools.searchListings ascii_toLowerCase example_URL_new
      (input_with_limit (Some 50) free_items_input) None sample_world
  /\ List.map entry_of (listings bike_result)
     = omap (card_entry ascii_toLowerCase example_URL_new olx_pt)
         (document (snd bike_search) (attr "data-cy" "l-card")).
Proof.
  split.
  - apply (proj1 (proj2 (C9_limit_is_not_consulted ascii_toLowerCase example_URL_new
                           olx_pt bike_filters None sample_world))); lia.
  - apply (proj2 (proj2 (C9_limit_is_not_consulted ascii_toLowerCase example_URL_new
                           olx_pt bike_filters None sample_world))
             bike_result (snd bike_search)).
    exact bike_search_runs.
Defined.

(** A result page whose only card has a title and a link, [//], that
    is no URL reference: [new URL('//', base)] throws. *)
Definition broken_link_page : Document :=
  fun s =>
    if String.eqb s (attr "data-cy" "l-card") then [result_card "Lamp" "//"] else [].

Definition broken_link_world : World :=
  {| web := fun _ _ => Loaded broken_link_page;
     clock := fun n => 1700000000000 + Z.of_nat n;
     clock_reads := 0;
     log := [];
     document := blank;
     scrapers := fun _ => None |}.

(** C9, as stated, fails: the page has one card, with a title and a
    link, and the search succeeds without a listing. *)
Lemma C9_counterexample :
  broken_link_page (attr "data-cy" "l-card") = [result_card "Lamp" "//"]
  /\ card_title ascii_toLowerCase olx_pt (result_card "Lamp" "//") = "Lamp"
  /\ card_href (result_card "Lamp" "//") = "//"
  /\ example_URL_new "//" "https://www.olx.pt" = None
  /\ fst (scraper_scrape ascii_toLowerCase example_URL_new olx_pt bike_filters None
            broken_link_world)
     = Returns (Success {| listings := [];
                           totalCount := Finite 0;
                           currentPage := 1;
                           totalPages := Finite 1;
                           hasNextPage := false |}).
Proof.
  split; [reflexivity|]. split; [reflexivity|]. split; [reflexivity|].
  split; [reflexivity|]. vm_compute. reflexivity.
Qed.

Lemma C10_witness :
  exists (listing : Listing) (w1 : World),
    getListingDetails ascii_toLowerCase
      (findListingUrl ascii_toLowerCase example_URL_new olx_pt)
      olx_pt "abc12" None (snd bike_search)
    = (Returns (Success listing), w1)
    /\ title listing = ""
    /\ description listing = None
    /\ seller listing = None.
Proof.
  destruct (C10_missing_fields_degrade ascii_toLowerCase
              (findListingUrl ascii_toLowerCase example_URL_new olx_pt)
              olx_pt "abc12" "https://www.olx.pt/d/anuncio/bike-IDabc12.html"
              detail_page None (snd bike_search))
    as (listing & w1 & Hrun & _ & _ & _ & Htitle & _ & Hdescription & _ & Hseller).
  - exact bike_search_cached.
  - reflexivity.
  - vm_compute. reflexivity.
  - intros w'. reflexivity.
  - exists listing, w1. split; [exact Hrun|].
    split; [apply Htitle; reflexivity|].
    split; [apply Hdescription; reflexivity|].
    apply Hseller; reflexivity.
Defined.



(** * Further properties of the engine *)

(** ** The page runner and the retry loop *)

(** X1. [withPage] opens exactly one page and always closes it: the
    last event is the closing of the page, on every exit path.  With
    the token signaled [fn] is not run and the cancellation error is
    thrown; otherwise the outcome of [fn] is passed on unchanged. *)
Theorem X1_withPage_always_closes {T} (fn : Async World T)
    (signal : option (AbortSignal World)) (w : World) :
  let w1 := show blank (record NewPage w) in
  exists rest : list Event,
    log (snd (withPage fn signal w)) = ClosePage :: rest
    /\ (signaled signal w1 = true ->
        withPage fn signal w = (Throws cancelled, record ClosePage w1))
    /\ (signaled signal w1 = false ->
        withPage fn signal w = (fst (fn w1), record ClosePage (snd (fn w1)))).
Proof.
  cbv zeta. destruct (signaled signal (show blank (record NewPage w))) eqn:Hsig.
  - rewrite (withPage_cancelled fn signal w Hsig). eexists. split; [reflexivity|].
    split; [reflexivity | discriminate].
  - rewrite (withPage_runs fn signal w _ _ Hsig (surjective_pairing _)).
    eexists. split; [reflexivity|]. split; [discriminate | reflexivity].
Qed.

(** A page function that fails after a navigation. *)
Definition failing_after_navigation : Async World string :=
  goto "https://www.olx.pt/ads/" ;;; throw (Str "boom").

Lemma X1_witness :
  withPage failing_after_navigation (Some raised) sample_world
  = (Throws cancelled, record ClosePage (show blank (record NewPage sample_world)))
  /\ withPage failing_after_navigation None sample_world
     = (fst (failing_after_navigation (show blank (record NewPage sample_world))),
        record ClosePage (snd (failing_after_navigation (show blank (record NewPage sample_world))))).
Proof.
  destruct (X1_withPage_always_closes failing_after_navigation (Some raised) sample_world)
    as (rest1 & _ & Hraised & _).
  destruct (X1_withPage_always_closes failing_after_navigation None sample_world)
    as (rest2 & _ & _ & Hquiet).
  split; [apply Hraised | apply Hquiet]; reflexivity.
Defined.

Example withPage_closes_after_failure :
  fst (withPage failing_after_navigation None sample_world) = Throws (Str "boom")
  /\ log (snd (withPage failing_after_navigation None sample_world))
     = [ClosePage; Goto "https://www.olx.pt/ads/"; NewPage].
Proof. split; reflexivity. Qed.

(** X2. With [maxRetries] of 0 or less the loop body never runs:
    [retryOperation] does not invoke the operation, sets no timer, and
    throws [undefined]. *)
Theorem X2_retryOperation_without_attempts {W T} (sleep : Z -> W -> W)
    (operation : Async W T) (maxRetries : Z) (w : W) :
  maxRetries <= 0 ->
  retryOperation sleep operation maxRetries w = (Throws Undefined, w).
Proof.
  intros H. unfold retryOperation.
  replace (Z.to_nat maxRetries) with 0%nat by lia. reflexivity.
Qed.

Lemma X2_witness :
  retryOperation pause (flaky 0 (Str "unused")) 0 (0%nat, []) = (Throws Undefined, (0%nat, [])).
Proof. apply X2_retryOperation_without_attempts. lia. Defined.

(** X3. The pause after a failed attempt [k >= 1] is between one and
    ten seconds, never shrinks from one attempt to the next, doubles
    while under the cap, and is ten seconds from the fifth
    attempt on. *)
Theorem X3_delay_bounds (k : Z) :
  1 <= k ->
  1000 <= delay k <= 10000
  /\ delay k <= delay (k + 1)
  /\ (k <= 4 -> delay k = 1000 * 2 ^ (k - 1) /\ (k <= 3 -> delay (k + 1) = 2 * delay k))
  /\ (5 <= k -> delay k = 10000).
Proof.
  intros Hk. unfold delay.
  assert (Hpow : 1 <= 2 ^ (k - 1)) by (apply Z.pow_le_mono_r with (b := 0); lia).
  assert (Hmono : 2 ^ (k - 1) <= 2 ^ (k + 1 - 1)) by (apply Z.pow_le_mono_r; lia).
  assert (Hstep : 2 ^ (k + 1 - 1) = 2 * 2 ^ (k - 1)).
  { replace (k + 1 - 1) with (Z.succ (k - 1)) by lia. apply Z.pow_succ_r. lia. }
  split; [lia|]. split; [lia|]. split.
  - intros Hk4.
    assert (2 ^ (k - 1) <= 2 ^ 3) by (apply Z.pow_le_mono_r; lia).
    change (2 ^ 3) with 8 in *. split; [lia|].
    intros Hk3.
    assert (2 ^ (k - 1) <= 2 ^ 2) by (apply Z.pow_le_mono_r; lia).
    change (2 ^ 2) with 4 in *. lia.
  - intros Hk5.
    assert (2 ^ 4 <= 2 ^ (k - 1)) by (apply Z.pow_le_mono_r; lia).
    change (2 ^ 4) with 16 in *. lia.
Qed.

Lemma X3_witness :
  1000 <= delay 2 <= 10000
  /\ delay 2 <= delay (2 + 1)
  /\ (2 <= 4 -> delay 2 = 1000 * 2 ^ (2 - 1) /\ (2 <= 3 -> delay (2 + 1) = 2 * delay 2))
  /\ (5 <= 2 -> delay 2 = 10000).
Proof. apply X3_delay_bounds. lia. Defined.

(** ** One attempt of a search, case by case *)

Definition search_result_on (doc : Document) (found : list Listing) (current : Z)
  : SearchResult :=
  {| listings := found;
     totalCount := count_on doc;
     currentPage := current;
     totalPages := Math_max (Math_ceil_div (count_on doc) 40) (Finite 1);
     hasNextPage := present doc ("a" ++ attr "data-cy" "pagination-forward") |}.

(** [filters.page || 1] *)
Definition page_or_1 (filters : SearchFilters) : Z :=
  if truthy_num (page filters) then default 0 (page filters) else 1.

Section SearchAttempt.

Variable toLowerCase : string -> string.
Variable URL_new : string -> string -> option URL.

(** The cards of a page, read in a given state. *)
Definition cards_read (d : OlxDomain) (doc : Document) (w : World)
  : Outcome (list Listing) * World :=
  extract_cards toLowerCase URL_new (extractListingId d) d (doc (attr "data-cy" "l-card")) [] w.

Lemma performSearch_runs (d : OlxDomain) (filters : SearchFilters)
    (signal : option (AbortSignal World)) (w : World) :
  performSearch toLowerCase URL_new (extractListingId d) d filters signal w =
  let w1 := show blank (record NewPage w) in
  if signaled signal w1 then (Throws cancelled, record ClosePage w1)
  else
    match buildSearchUrl URL_new (domainConfig toLowerCase d) filters with
    | None => (Throws invalid_URL, record ClosePage w1)
    | Some searchUrl =>
        match web w (List.length (navigations (log w))) searchUrl with
        | NavigationFailed error =>
            (Throws error, record ClosePage (record (Goto searchUrl) w1))
        | Loaded doc =>
            let w2 := show doc (record (Goto searchUrl) w1) in
            if signaled signal w2 then (Throws cancelled, record ClosePage w2)
            else
              match cards_read d doc w2 with
              | (Returns found, w3) =>
                  (Returns (search_result_on doc found (page_or_1 filters)),
                   record ClosePage w3)
              | (Throws error, w3) => (Throws error, record ClosePage w3)
              end
        end
    end.
Proof.
  cbv zeta. unfold performSearch.
  destruct (signaled signal (show blank (record NewPage w))) eqn:Hsig.
  { now apply withPage_cancelled. }
  destruct (buildSearchUrl URL_new (domainConfig toLowerCase d) filters) as [searchUrl|].
  2:{ apply withPage_runs; [exact Hsig | reflexivity]. }
  destruct (web w (List.length (navigations (log w))) searchUrl) as [doc|error] eqn:Hweb.
  2:{ apply withPage_runs; [exact Hsig|]. rewrite bind_ret. cbv beta.
      now rewrite (bind_throws _ _ _ _ _
                     (goto_failed searchUrl (show blank (record NewPage w)) error Hweb)). }
  assert (Hprefix : forall (k : Async World SearchResult),
             (searchUrl0 <- ret searchUrl ;;
              goto searchUrl0 ;;; waitForSearchResults ;;; k)
               (show blank (record NewPage w))
             = k (show doc (record (Goto searchUrl) (show blank (record NewPage w))))).
  { intros k. rewrite bind_ret. cbv beta.
    rewrite (bind_returns _ _ _ _ _
               (goto_loaded searchUrl (show blank (record NewPage w)) doc Hweb)).
    unfold waitForSearchResults. now rewrite bind_ret. }
  destruct (signaled signal (show doc (record (Goto searchUrl)
                                         (show blank (record NewPage w))))) eqn:Hsig2.
  { apply withPage_runs; [exact Hsig|]. rewrite Hprefix.
    rewrite (bind_returns _ _ _ _ _ (aborted_signaled _ _)). now rewrite Hsig2. }
  unfold cards_read.
  destruct (extract_cards_runs toLowerCase URL_new d (doc (attr "data-cy" "l-card")) []
              (show doc (record (Goto searchUrl) (show blank (record NewPage w)))))
    as (found & w3 & Hrun & _ & _ & _ & _ & _ & Hdoc & _).
  rewrite Hrun. cbn [app].
  apply withPage_runs; [exact Hsig|]. rewrite Hprefix.
  rewrite (bind_returns _ _ _ _ _ (aborted_signaled _ _)). rewrite Hsig2.
  unfold extractListings.
  destruct (card_selectors toLowerCase d) as (Hcard & _). rewrite Hcard.
  assert (Hall : page_queryAll (attr "data-cy" "l-card")
                   (show doc (record (Goto searchUrl) (show blank (record NewPage w))))
                 = (Returns (doc (attr "data-cy" "l-card")),
                    show doc (record (Goto searchUrl) (show blank (record NewPage w)))))
    by reflexivity.
  unfold bind at 1. unfold bind at 1. rewrite Hall, Hrun. cbn [app].
  rewrite (bind_returns _ _ _ _ _ (extractPaginationInfo_reads toLowerCase d _ w3)).
  unfold ret, search_result_on, count_on, page_or_1.
  cbn [p_totalCount p_currentPage p_totalPages p_hasNextPage].
  rewrite Hdoc. reflexivity.
Qed.

End SearchAttempt.

(** ** Retrying: what a loop that ends has seen *)

Section RetryEnds.

Context {W T : Type}.

Variable sleep : Z -> W -> W.
Variable operation : Async W T.
Variable n : Z.

(** A property of the state that failing attempts and pauses keep. *)
Variable P : W -> Prop.
Hypothesis failing_keeps :
  forall (w w1 : W) (v : Value), P w -> operation w = (Throws v, w1) -> P w1.
Hypothesis sleep_keeps : forall (ms : Z) (w : W), P w -> P (sleep ms w).

(** The value that comes out was returned by an attempt started where
    the property still held. *)
Lemma retry_loop_returns_from (todo : nat) (k : Z) (lastError : Value) (w w1 : W) (v : T) :
  P w ->
  retry_loop sleep operation n todo k lastError w = (Returns v, w1) ->
  exists w0 : W, P w0 /\ operation w0 = (Returns v, w1).
Proof.
  revert k lastError w. induction todo as [|todo IH]; intros k lastError w Hw H.
  - discriminate.
  - cbn [retry_loop] in H.
    destruct (operation w) as [[v0|error] w0] eqn:Hop.
    + exists w. split; [exact Hw | congruence].
    + destruct (toError error) as [e|typeError]; [|discriminate].
      destruct (k =? n); [discriminate|].
      apply (IH _ _ _ (sleep_keeps _ _ (failing_keeps _ _ _ Hw Hop)) H).
Qed.

(** The error that comes out of a loop that runs up to attempt [n] is
    what the [catch] block made of the value that the last attempt
    threw; the property holds where that attempt started and where it
    ended. *)
Lemma retry_loop_throws_from (todo : nat) (k : Z) (lastError : Value) (w w1 : W)
    (v : Value) :
  (0 < todo)%nat ->
  k + Z.of_nat todo = n + 1 ->
  P w ->
  retry_loop sleep operation n todo k lastError w = (Throws v, w1) ->
  exists (w0 : W) (v0 : Value),
    P w0 /\ P w1 /\ operation w0 = (Throws v0, w1) /\ v = ErrorValue (as_Error v0).
Proof.
  revert k lastError w. induction todo as [|todo IH]; intros k lastError w Hpos Hk Hw H; [lia|].
  cbn [retry_loop] in H.
  destruct (operation w) as [[v0|error] w0] eqn:Hop; [discriminate|].
  destruct (toError_cases error) as [Herr|[Herr Has]]; rewrite Herr in H.
  2:{ injection H as <- <-. exists w, error. rewrite Has.
      repeat split; try assumption. exact (failing_keeps _ _ _ Hw Hop). }
  destruct (Z.eqb_spec k n) as [->|Hne].
  - injection H as <- <-. exists w, error.
    repeat split; try assumption. exact (failing_keeps _ _ _ Hw Hop).
  - apply (IH (k + 1) _ _ ltac:(lia) ltac:(lia)
             (sleep_keeps _ _ (failing_keeps _ _ _ Hw Hop)) H).
Qed.

End RetryEnds.

(** What comes out of the three attempts of a scraper, when they throw,
    is an [Error]. *)
Lemma retryOperation_throws_Error {T} (operation : Async World T) (w w1 : World)
    (error : Value) :
  retryOperation setTimeout operation config_retries w = (Throws error, w1) ->
  exists e : ErrorObject, error = ErrorValue e.
Proof.
  unfold retryOperation. change (Z.to_nat config_retries) with 3%nat. intros Hloop.
  destruct (retry_loop_throws_from setTimeout operation config_retries (fun _ => True)
              ltac:(trivial) ltac:(trivial) 3 1 Undefined w w1 error
              ltac:(lia) ltac:(reflexivity) I Hloop)
    as (w0 & v0 & _ & _ & _ & ->).
  eauto.
Qed.

(** A measure that an attempt raises by one at most, and that pauses
    leave alone, has grown by the number of attempts at most. *)
Lemma retry_loop_bounded {W T} (sleep : Z -> W -> W) (operation : Async W T) (n : Z)
    (f : W -> nat) :
  (forall w, (f (snd (operation w)) <= S (f w))%nat) ->
  (forall ms w, f (sleep ms w) = f w) ->
  forall (todo : nat) (k : Z) (lastError : Value) (w : W),
    (f (snd (retry_loop sleep operation n todo k lastError w)) <= f w + todo)%nat.
Proof.
  intros Hop Hsleep. induction todo as [|todo IH]; intros k lastError w.
  - cbn [retry_loop snd]. lia.
  - cbn [retry_loop]. specialize (Hop w).
    destruct (operation w) as [[v|error] w1]; cbn [snd] in *; [lia|].
    destruct (toError error) as [e|typeError]; cbn [snd]; [|lia].
    destruct (k =? n); cbn [snd]; [lia|].
    specialize (IH (k + 1) (ErrorValue e) (sleep (delay k) w1)).
    rewrite Hsleep in IH. lia.
Qed.

(** ** What one attempt of a search leaves behind *)

Section SearchFrames.

Variable toLowerCase : string -> string.
Variable URL_new : string -> string -> option URL.

(** A failed attempt has read no clock and written no cache; it has
    navigated once at most, to the search URL. *)
Lemma performSearch_fails (d : OlxDomain) (filters : SearchFilters)
    (signal : option (AbortSignal World)) (w w1 : World) (v : Value) :
  performSearch toLowerCase URL_new (extractListingId d) d filters signal w
  = (Throws v, w1) ->
  web w1 = web w
  /\ clock w1 = clock w
  /\ clock_reads w1 = clock_reads w
  /\ scrapers w1 = scrapers w
  /\ timers (log w1) = timers (log w)
  /\ (navigations (log w1) = navigations (log w)
      \/ exists u : string,
           buildSearchUrl URL_new (domainConfig toLowerCase d) filters = Some u
           /\ navigations (log w1) = u :: navigations (log w)).
Proof.
  rewrite performSearch_runs. cbv zeta.
  destruct (signaled signal _).
  { intros [= <- <-]. repeat split; try reflexivity. now left. }
  destruct (buildSearchUrl URL_new (domainConfig toLowerCase d) filters) as [u|].
  2:{ intros [= <- <-]. repeat split; try reflexivity. now left. }
  destruct (web w _ u) as [doc|error].
  2:{ intros [= <- <-]. repeat split; try reflexivity. right. now exists u. }
  destruct (signaled signal _).
  { intros [= <- <-]. repeat split; try reflexivity. right. now exists u. }
  unfold cards_read.
  destruct (extract_cards_runs toLowerCase URL_new d (doc (attr "data-cy" "l-card")) []
              (show doc (record (Goto u) (show blank (record NewPage w)))))
    as (found & w3 & Hrun & _).
  rewrite Hrun. discriminate.
Qed.

(** Any attempt navigates once at most, to the search URL, and leaves
    the web as it is. *)
Lemma performSearch_navigates (d : OlxDomain) (filters : SearchFilters)
    (signal : option (AbortSignal World)) (w : World) :
  let w1 := snd (performSearch toLowerCase URL_new (extractListingId d) d filters signal w) in
  web w1 = web w
  /\ (navigations (log w1) = navigations (log w)
      \/ exists u : string,
           buildSearchUrl URL_new (domainConfig toLowerCase d) filters = Some u
           /\ navigations (log w1) = u :: navigations (log w)).
Proof.
  cbv zeta.
  destruct (performSearch toLowerCase URL_new (extractListingId d) d filters signal w)
    as [[result|v] w1] eqn:H; cbn [snd].
  - destruct (performSearch_returns toLowerCase URL_new d filters signal w w1 result H)
      as (u & Hu & _ & Hn & _ & _ & _ & Hweb & _).
    split; [exact Hweb|]. right. now exists u.
  - destruct (performSearch_fails d filters signal w w1 v H) as (Hweb & _ & _ & _ & _ & Hn).
    split; assumption.
Qed.

End SearchFrames.

(** ** The two operations of a scraper *)

Section ScraperOperations.

Variable toLowerCase : string -> string.
Variable URL_new : string -> string -> option URL.

(** X4. [scrape] and [getListingDetails] never throw, whatever the
    subclass hooks do: they return a [Result] from every state.  A
    failure carries what the [catch] block of [retryOperation] made of
    the value that the last attempt threw: that value when it is an
    [Error], [new Error(String(value))] when it is not, and the
    [TypeError] of this conversion when the value has no string
    form. *)
Theorem X4_scraper_operations_never_throw
    (extract find : string -> Async World string) (d : OlxDomain)
    (filters : SearchFilters) (listingId : string)
    (signal : option (AbortSignal World)) (w : World) :
  (exists (r : Result SearchResult) (w1 : World),
      scrape toLowerCase URL_new extract d filters signal w = (Returns r, w1))
  /\ (exists (r : Result Listing) (w1 : World),
         getListingDetails toLowerCase find d listingId signal w = (Returns r, w1))
  /\ (forall (e : ErrorObject) (w1 : World),
         scrape toLowerCase URL_new extract d filters signal w = (Returns (Failure e), w1) ->
         exists (w0 : World) (v : Value),
           performSearch toLowerCase URL_new extract d filters signal w0 = (Throws v, w1)
           /\ match toError v with
              | Returns e' => e = e'
              | Throws typeError => ErrorValue e = typeError
              end)
  /\ (forall (e : ErrorObject) (w1 : World),
         getListingDetails toLowerCase find d listingId signal w = (Returns (Failure e), w1) ->
         exists (w0 : World) (v : Value),
           performGetListingDetails toLowerCase find d listingId signal w0 = (Throws v, w1)
           /\ match toError v with
              | Returns e' => e = e'
              | Throws typeError => ErrorValue e = typeError
              end).
Proof.
  assert (Hends : forall (T : Type) (operation : Async World T) (e : ErrorObject)
                    (w1 : World),
             match retry_loop setTimeout operation config_retries 3 1 Undefined w with
             | (Returns r, w2) => (Returns (Success r), w2)
             | (Throws error, w2) =>
                 match toError error with
                 | Returns e' => (Returns (Failure e'), w2)
                 | Throws typeError => (Throws typeError, w2)
                 end
             end = (Returns (Failure e), w1) ->
             exists (w0 : World) (v : Value),
               operation w0 = (Throws v, w1)
               /\ match toError v with
                  | Returns e' => e = e'
                  | Throws typeError => ErrorValue e = typeError
                  end).
  { intros T operation e w1 H.
    destruct (retry_loop setTimeout operation _ _ _ _ w) as [[r|v] w2] eqn:Hloop;
      [discriminate|].
    destruct (retry_loop_throws_from setTimeout operation config_retries (fun _ => True)
                ltac:(trivial) ltac:(trivial) 3 1 Undefined w w2 v
                ltac:(lia) ltac:(reflexivity) I Hloop)
      as (w0 & v0 & _ & _ & Hop & ->).
    cbn [toError] in H. injection H as <- <-.
    exists w0, v0. split; [exact Hop|].
    destruct (toError_cases v0) as [->|[-> ->]]; reflexivity. }
  assert (Hreturns : forall (T : Type) (operation : Async World T),
             exists (r : Result T) (w1 : World),
               match retry_loop setTimeout operation config_retries 3 1 Undefined w with
               | (Returns r, w2) => (Returns (Success r), w2)
               | (Throws error, w2) =>
                   match toError error with
                   | Returns e' => (Returns (Failure e'), w2)
                   | Throws typeError => (Throws typeError, w2)
                   end
               end = (Returns r, w1)).
  { intros T operation.
    destruct (retry_loop setTimeout operation _ _ _ _ w) as [[r|v] w2] eqn:Hloop; [eauto|].
    destruct (retry_loop_throws_from setTimeout operation config_retries (fun _ => True)
                ltac:(trivial) ltac:(trivial) 3 1 Undefined w w2 v
                ltac:(lia) ltac:(reflexivity) I Hloop)
      as (w0 & v0 & _ & _ & _ & ->).
    cbn [toError]. eauto. }
  rewrite scrape_wraps, getListingDetails_wraps. unfold retryOperation.
  change (Z.to_nat config_retries) with 3%nat.
  split; [apply Hreturns|]. split; [apply Hreturns|].
  split; intros e w1 H; exact (Hends _ _ e w1 H).
Qed.

(** X5. Every navigation of a search goes to the URL built from the
    filters, and there are three at most; when no URL can be built
    there is none.  The web itself is left as it is. *)
Theorem X5_scrape_navigations (d : OlxDomain) (filters : SearchFilters)
    (signal : option (AbortSignal World)) (w : World) :
  let w' := snd (scraper_scrape toLowerCase URL_new d filters signal w) in
  web w' = web w
  /\ match buildSearchUrl URL_new (domainConfig toLowerCase d) filters with
     | Some u =>
         exists k : nat,
           (k <= 3)%nat /\ navigations (log w') = (repeat u k ++ navigations (log w))%list
     | None => navigations (log w') = navigations (log w)
     end.
Proof.
  cbv zeta. unfold scraper_scrape. rewrite scrape_wraps.
  set (op := performSearch toLowerCase URL_new (extractListingId d) d filters signal).
  pose (P := fun w' : World =>
               web w' = web w
               /\ match buildSearchUrl URL_new (domainConfig toLowerCase d) filters with
                  | Some u =>
                      exists k : nat,
                        navigations (log w') = (repeat u k ++ navigations (log w))%list
                  | None => navigations (log w') = navigations (log w)
                  end).
  assert (HP : P (snd (retryOperation setTimeout op config_retries w))).
  { unfold retryOperation. apply retry_loop_keeps.
    - intros w0 [Hweb Hnav]. subst op.
      destruct (performSearch_navigates toLowerCase URL_new d filters signal w0)
        as [Hweb1 Hnav1].
      split; [now rewrite Hweb1|].
      destruct Hnav1 as [Hsame|(u & Hu & Hone)].
      + rewrite Hsame. exact Hnav.
      + rewrite Hu in *. destruct Hnav as [k Hk]. exists (S k).
        rewrite Hone, Hk. reflexivity.
    - intros ms w0 H. exact H.
    - split; [reflexivity|].
      destruct (buildSearchUrl _ _ _); [exists 0%nat|]; reflexivity. }
  assert (Hcount : (List.length (navigations
                                   (log (snd (retryOperation setTimeout op config_retries w))))
                    <= List.length (navigations (log w)) + 3)%nat).
  { unfold retryOperation. change (Z.to_nat config_retries) with 3%nat.
    apply (retry_loop_bounded setTimeout op config_retries
             (fun w0 => List.length (navigations (log w0)))).
    - intros w0. subst op.
      destruct (performSearch_navigates toLowerCase URL_new d filters signal w0)
        as [_ [Hsame|(u & _ & Hone)]].
      + rewrite Hsame. lia.
      + rewrite Hone. cbn [List.length]. lia.
    - reflexivity. }
  destruct (retryOperation setTimeout op config_retries w) as [[result|v] w1];
    [|destruct (toError v)];
    cbn [snd] in *; destruct HP as [Hweb Hnav]; (split; [exact Hweb|]).
  all: destruct (buildSearchUrl _ _ _) as [u|]; [|exact Hnav].
  all: destruct Hnav as [k Hk]; exists k; split; [|exact Hk].
  all: rewrite Hk, length_app, repeat_length in Hcount; lia.
Qed.

(** X6. After a successful search the cache of the scraper is the cache
    from before with the URL of each returned listing written under its
    identifier, in the order of the listings: an identifier that occurs
    twice keeps the URL of the later listing, the other entries are as
    they were, and the caches of the other domains are untouched. *)
Theorem X6_scrape_writes_the_cache (d : OlxDomain) (filters : SearchFilters)
    (signal : option (AbortSignal World)) (w w' : World) (result : SearchResult) :
  scraper_scrape toLowerCase URL_new d filters signal w = (Returns (Success result), w') ->
  urlCache d w' = cache_after (urlCache d w) (listings result)
  /\ (forall k : string,
         ~ In k (List.map id (listings result)) -> urlCache d w' !! k = urlCache d w !! k)
  /\ (forall (before after : list Listing) (l : Listing),
         listings result = (before ++ l :: after)%list ->
         ~ In (id l) (List.map id after) ->
         urlCache d w' !! id l = Some (url l))
  /\ (forall d' : OlxDomain, d' <> d -> scrapers w' d' = scrapers w d').
Proof.
  unfold scraper_scrape. rewrite scrape_wraps. unfold retryOperation.
  destruct (retry_loop _ _ _ _ _ _ w) as [[r|error] w1] eqn:Hloop;
    [|destruct (toError error); discriminate].
  intros [= <- <-].
  destruct (retry_loop_returns_from setTimeout _ config_retries
              (fun w0 => scrapers w0 = scrapers w)
              ltac:(intros w0 w2 v H0 Hf;
                    destruct (performSearch_fails toLowerCase URL_new d filters signal
                                w0 w2 v Hf) as (_ & _ & _ & Hs & _);
                    now rewrite Hs)
              ltac:(intros ms w0 H0; exact H0)
              _ _ _ w w1 r eq_refl Hloop) as (w0 & Hs0 & Hop).
  rewrite performSearch_runs in Hop. cbv zeta in Hop.
  destruct (signaled signal _); [discriminate|].
  destruct (buildSearchUrl _ _ _) as [u|]; [|discriminate].
  destruct (web w0 _ u) as [doc|error]; [|discriminate].
  destruct (signaled signal _); [discriminate|].
  unfold cards_read in Hop.
  destruct (extract_cards_runs toLowerCase URL_new d (doc (attr "data-cy" "l-card")) []
              (show doc (record (Goto u) (show blank (record NewPage w0)))))
    as (found & w3 & Hrun & _ & Htruthy & Hcache & _ & _ & _ & Hother).
  rewrite Hrun in Hop. cbn [app] in Hop. injection Hop as <- <-.
  cbn [listings].
  change (urlCache d (record ClosePage w3)) with (urlCache d w3).
  change (scrapers (record ClosePage w3)) with (scrapers w3).
  change (urlCache d (show doc (record (Goto u) (show blank (record NewPage w0)))))
    with (urlCache d w0) in Hcache.
  assert (Hstart : urlCache d w0 = urlCache d w) by (unfold urlCache; now rewrite Hs0).
  rewrite Hstart in Hcache.
  split; [exact Hcache|]. split; [|split].
  - intros k Hk. rewrite Hcache.
    exact (proj2 (cache_after_lookup found Htruthy (urlCache d w) k) Hk).
  - intros before after l Heq Hlast. unfold search_result_on in Heq.
    cbn [listings] in Heq. subst found. rewrite Hcache.
    unfold cache_after. rewrite fold_left_app. cbn [fold_left].
    change (fold_left _ after ?m) with (cache_after m after).
    apply Forall_app in Htruthy as [_ Htruthy]. apply Forall_cons_1 in Htruthy as [_ Htruthy].
    rewrite (proj2 (cache_after_lookup after Htruthy _ (id l)) Hlast).
    apply lookup_insert_eq.
  - intros d' Hne. rewrite (Hother d' Hne). cbn [show record scrapers]. now rewrite Hs0.
Qed.

(** X7. A search that fails has written nothing to any cache and has
    read no clock. *)
Theorem X7_failed_scrape_keeps_the_cache (d : OlxDomain) (filters : SearchFilters)
    (signal : option (AbortSignal World)) (w w' : World) (e : ErrorObject) :
  scraper_scrape toLowerCase URL_new d filters signal w = (Returns (Failure e), w') ->
  scrapers w' = scrapers w /\ clock_reads w' = clock_reads w.
Proof.
  unfold scraper_scrape. rewrite scrape_wraps. unfold retryOperation.
  change (Z.to_nat config_retries) with 3%nat.
  destruct (retry_loop _ _ _ _ _ _ w) as [[r|error] w1] eqn:Hloop; [discriminate|].
  destruct (toError error); [|discriminate].
  intros [= _ <-].
  destruct (retry_loop_throws_from setTimeout _ config_retries
              (fun w0 => scrapers w0 = scrapers w /\ clock_reads w0 = clock_reads w)
              ltac:(intros w0 w2 v [H0 H1] Hf;
                    destruct (performSearch_fails toLowerCase URL_new d filters signal
                                w0 w2 v Hf) as (_ & _ & Hc & Hs & _);
                    now rewrite Hs, Hc)
              ltac:(intros ms w0 H0; exact H0)
              3 1 Undefined w w1 error ltac:(lia) ltac:(reflexivity)
              (conj eq_refl eq_refl) Hloop) as (_ & _ & _ & H & _).
  exact H.
Qed.

End ScraperOperations.

(** ** Searches from start to end *)

Section Journeys.

Variable toLowerCase : string -> string.
Variable URL_new : string -> string -> option URL.

(** X8. A signal that is raised and stays raised does not stop the
    retries: each of the three attempts opens a page, finds the signal
    raised and closes the page, with the pauses of 1 s and 2 s in
    between and not a single navigation, and the operation fails with
    the cancellation error.  This holds for [scrape] and for
    [getListingDetails], whatever the subclass hooks are. *)
Theorem X8_raised_signal_is_retried
    (extract find : string -> Async World string) (d : OlxDomain)
    (filters : SearchFilters) (listingId : string)
    (signal : option (AbortSignal World)) (w : World) :
  (forall w' : World, signaled signal w' = true) ->
  let events := [ClosePage; NewPage; Timer 2000;
                 ClosePage; NewPage; Timer 1000;
                 ClosePage; NewPage] in
  (exists w' : World,
      scrape toLowerCase URL_new extract d filters signal w
      = (Returns (Failure (Error "Operation cancelled")), w')
      /\ log w' = (events ++ log w)%list
      /\ scrapers w' = scrapers w)
  /\ (exists w' : World,
         getListingDetails toLowerCase find d listingId signal w
         = (Returns (Failure (Error "Operation cancelled")), w')
         /\ log w' = (events ++ log w)%list
         /\ scrapers w' = scrapers w).
Proof.
  intros Hraised events.
  assert (Hloop : forall (T : Type) (fn : Async World T),
             retryOperation setTimeout (withPage fn signal) config_retries w
             = (Throws cancelled,
                record ClosePage (show blank (record NewPage
                  (setTimeout 2000 (record ClosePage (show blank (record NewPage
                    (setTimeout 1000 (record ClosePage (show blank (record NewPage w)))))))))))).
  { intros T fn. unfold retryOperation. change (Z.to_nat config_retries) with 3%nat.
    cbn [retry_loop].
    rewrite (withPage_cancelled fn signal w (Hraised _)).
    change (1 =? config_retries) with false. cbv iota. change (delay 1) with 1000.
    rewrite (withPage_cancelled fn signal _ (Hraised _)).
    change (1 + 1 =? config_retries) with false. cbv iota. change (delay (1 + 1)) with 2000.
    rewrite (withPage_cancelled fn signal _ (Hraised _)).
    reflexivity. }
  split.
  - eexists. rewrite scrape_wraps. unfold performSearch. rewrite Hloop.
    split; [reflexivity|]. split; reflexivity.
  - eexists. rewrite getListingDetails_wraps. unfold performGetListingDetails.
    rewrite Hloop. split; [reflexivity|]. split; reflexivity.
Qed.

(** One attempt on a site that does not answer. *)
Lemma attempt_unreachable (d : OlxDomain) (filters : SearchFilters)
    (signal : option (AbortSignal World)) (w : World) (u : string) (error : Value) :
  (forall w' : World, signaled signal w' = false) ->
  buildSearchUrl URL_new (domainConfig toLowerCase d) filters = Some u ->
  web w (List.length (navigations (log w))) u = NavigationFailed error ->
  performSearch toLowerCase URL_new (extractListingId d) d filters signal w
  = (Throws error, record ClosePage (record (Goto u) (show blank (record NewPage w)))).
Proof.
  intros Hquiet Hu Hweb. rewrite performSearch_runs. cbv zeta.
  now rewrite Hquiet, Hu, Hweb.
Qed.

(** One attempt on a page that loads. *)
Lemma attempt_loads (d : OlxDomain) (filters : SearchFilters)
    (signal : option (AbortSignal World)) (w : World) (u : string) (doc : Document) :
  (forall w' : World, signaled signal w' = false) ->
  buildSearchUrl URL_new (domainConfig toLowerCase d) filters = Some u ->
  web w (List.length (navigations (log w))) u = Loaded doc ->
  exists (found : list Listing) (w1 : World),
    performSearch toLowerCase URL_new (extractListingId d) d filters signal w
    = (Returns (search_result_on doc found (page_or_1 filters)), w1)
    /\ log w1 = ClosePage :: Goto u :: NewPage :: log w
    /\ List.map entry_of found
       = omap (card_entry toLowerCase URL_new d) (doc (attr "data-cy" "l-card")).
Proof.
  intros Hquiet Hu Hweb. rewrite performSearch_runs. cbv zeta.
  rewrite Hquiet, Hu, Hweb, Hquiet. unfold cards_read.
  destruct (extract_cards_runs toLowerCase URL_new d (doc (attr "data-cy" "l-card")) []
              (show doc (record (Goto u) (show blank (record NewPage w)))))
    as (found & w3 & Hrun & Hentries & _ & _ & _ & Hlog & _).
  rewrite Hrun. cbn [app]. exists found, (record ClosePage w3).
  split; [reflexivity|]. split; [|exact Hentries].
  cbn [record log]. now rewrite Hlog.
Qed.

(** X9. A site that does not answer is tried three times: the search
    navigates to the same URL three times, pauses 1 s and 2 s in
    between, and fails with the error of the third navigation, as an
    [Error].  The retries stop early at a navigation error that is no
    [Error] and has no string form: the search then fails with the
    [TypeError] of the conversion, after one navigation when it is the
    first error and after two, with the pause of 1 s, when it is the
    second.  The cache is left as it was in every case. *)
Theorem X9_unreachable_site_is_tried_three_times
    (d : OlxDomain) (filters : SearchFilters) (signal : option (AbortSignal World))
    (w : World) (u : string) (e1 e2 e3 : Value) :
  (forall w' : World, signaled signal w' = false) ->
  buildSearchUrl URL_new (domainConfig toLowerCase d) filters = Some u ->
  let n := List.length (navigations (log w)) in
  web w n u = NavigationFailed e1 ->
  web w (S n) u = NavigationFailed e2 ->
  web w (S (S n)) u = NavigationFailed e3 ->
  (convertible e1 = true ->
   convertible e2 = true ->
   exists w' : World,
     scraper_scrape toLowerCase URL_new d filters signal w
     = (Returns (Failure (as_Error e3)), w')
     /\ log w' = ([ClosePage; Goto u; NewPage; Timer 2000;
                   ClosePage; Goto u; NewPage; Timer 1000;
                   ClosePage; Goto u; NewPage] ++ log w)%list
     /\ scrapers w' = scrapers w)
  /\ (convertible e1 = true ->
      convertible e2 = false ->
      exists w' : World,
        scraper_scrape toLowerCase URL_new d filters signal w
        = (Returns (Failure cannot_convert), w')
        /\ log w' = ([ClosePage; Goto u; NewPage; Timer 1000;
                      ClosePage; Goto u; NewPage] ++ log w)%list
        /\ scrapers w' = scrapers w)
  /\ (convertible e1 = false ->
      exists w' : World,
        scraper_scrape toLowerCase URL_new d filters signal w
        = (Returns (Failure cannot_convert), w')
        /\ log w' = ([ClosePage; Goto u; NewPage] ++ log w)%list
        /\ scrapers w' = scrapers w).
Proof.
  intros Hquiet Hu n H1 H2 H3.
  pose (w1 := setTimeout 1000
                (record ClosePage (record (Goto u) (show blank (record NewPage w))))).
  pose (w2 := setTimeout 2000
                (record ClosePage (record (Goto u) (show blank (record NewPage w1))))).
  unfold scraper_scrape. rewrite scrape_wraps. unfold retryOperation.
  change (Z.to_nat config_retries) with 3%nat. cbn [retry_loop].
  rewrite (attempt_unreachable d filters signal w u e1 Hquiet Hu H1).
  split; [|split].
  - intros C1 C2. rewrite (toError_convertible e1 C1).
    change (1 =? config_retries) with false. cbv iota. change (delay 1) with 1000.
    fold w1.
    rewrite (attempt_unreachable d filters signal w1 u e2 Hquiet Hu H2).
    rewrite (toError_convertible e2 C2).
    change (1 + 1 =? config_retries) with false. cbv iota. change (delay (1 + 1)) with 2000.
    fold w2.
    rewrite (attempt_unreachable d filters signal w2 u e3 Hquiet Hu H3).
    exists (record ClosePage (record (Goto u) (show blank (record NewPage w2)))).
    destruct (toError_cases e3) as [->|[-> ->]];
      change (1 + 1 + 1 =? config_retries) with true; cbv iota; cbn [toError];
      (split; [reflexivity | split; reflexivity]).
  - intros C1 C2. rewrite (toError_convertible e1 C1).
    change (1 =? config_retries) with false. cbv iota. change (delay 1) with 1000.
    fold w1.
    rewrite (attempt_unreachable d filters signal w1 u e2 Hquiet Hu H2).
    rewrite (toError_not_convertible e2 C2). cbn [toError].
    exists (record ClosePage (record (Goto u) (show blank (record NewPage w1)))).
    split; [reflexivity | split; reflexivity].
  - intros C1. rewrite (toError_not_convertible e1 C1). cbn [toError].
    exists (record ClosePage (record (Goto u) (show blank (record NewPage w)))).
    split; [reflexivity | split; reflexivity].
Qed.

(** X10. A page that loads is never a reason to fail: whatever it
    holds, the search succeeds at the first attempt, with one
    navigation and no pause.  The listings are the cards that have a
    title and a link that resolves, in the order of the page; the
    total is the Number that [parseInt] makes of the first run of
    digits in the text of the counter, and 0 without a counter; the
    number of pages is [Math.max(Math.ceil(total / 40), 1)], computed
    on doubles. *)
Theorem X10_loaded_page_always_succeeds
    (d : OlxDomain) (filters : SearchFilters) (signal : option (AbortSignal World))
    (w : World) (u : string) (doc : Document) :
  (forall w' : World, signaled signal w' = false) ->
  buildSearchUrl URL_new (domainConfig toLowerCase d) filters = Some u ->
  web w (List.length (navigations (log w))) u = Loaded doc ->
  exists (result : SearchResult) (w' : World),
    scraper_scrape toLowerCase URL_new d filters signal w = (Returns (Success result), w')
    /\ log w' = ClosePage :: Goto u :: NewPage :: log w
    /\ List.map entry_of (listings result)
       = omap (card_entry toLowerCase URL_new d) (doc (attr "data-cy" "l-card"))
    /\ totalCount result = count_on doc
    /\ totalPages result = Math_max (Math_ceil_div (count_on doc) 40) (Finite 1)
    /\ currentPage result = page_or_1 filters
    /\ hasNextPage result = present doc ("a" ++ attr "data-cy" "pagination-forward")
    /\ (doc (attr "data-cy" "l-card") = [] -> listings result = [])
    /\ (doc (attr "data-testid" "total-count") = [] ->
        totalCount result = Finite 0 /\ totalPages result = Finite 1).
Proof.
  intros Hquiet Hu Hweb.
  destruct (attempt_loads d filters signal w u doc Hquiet Hu Hweb)
    as (found & w1 & Hrun & Hlog & Hentries).
  exists (search_result_on doc found (page_or_1 filters)), w1.
  split.
  { unfold scraper_scrape. rewrite scrape_wraps.
    now rewrite (retryOperation_returns_first setTimeout _ config_retries w w1 _
                   ltac:(unfold config_retries; lia) Hrun). }
  split; [exact Hlog|]. split; [exact Hentries|].
  split; [reflexivity|]. split; [reflexivity|]. split; [reflexivity|].
  split; [reflexivity|]. split.
  - intros Hnone. rewrite Hnone in Hentries. cbn [listings search_result_on].
    destruct found; [reflexivity | discriminate].
  - intros Hnone. unfold search_result_on, count_on. cbn [totalCount totalPages].
    rewrite Hnone. split; reflexivity.
Qed.

(** X11. A navigation that fails once costs a pause of one second: the
    second attempt starts from a fresh page and, when the page loads,
    the search succeeds as if nothing had happened.  There is no second
    attempt when the navigation error is no [Error] and has no string
    form: the search fails at once with the [TypeError] of the
    conversion. *)
Theorem X11_second_attempt_recovers
    (d : OlxDomain) (filters : SearchFilters) (signal : option (AbortSignal World))
    (w : World) (u : string) (error : Value) (doc : Document) :
  (forall w' : World, signaled signal w' = false) ->
  buildSearchUrl URL_new (domainConfig toLowerCase d) filters = Some u ->
  let n := List.length (navigations (log w)) in
  web w n u = NavigationFailed error ->
  web w (S n) u = Loaded doc ->
  (convertible error = true ->
   exists (result : SearchResult) (w' : World),
     scraper_scrape toLowerCase URL_new d filters signal w = (Returns (Success result), w')
     /\ log w' = ([ClosePage; Goto u; NewPage; Timer 1000;
                   ClosePage; Goto u; NewPage] ++ log w)%list
     /\ List.map entry_of (listings result)
        = omap (card_entry toLowerCase URL_new d) (doc (attr "data-cy" "l-card")))
  /\ (convertible error = false ->
      exists w' : World,
        scraper_scrape toLowerCase URL_new d filters signal w
        = (Returns (Failure cannot_convert), w')
        /\ log w' = ([ClosePage; Goto u; NewPage] ++ log w)%list).
Proof.
  intros Hquiet Hu n H1 H2.
  unfold scraper_scrape. rewrite scrape_wraps. unfold retryOperation.
  change (Z.to_nat config_retries) with 3%nat. cbn [retry_loop].
  rewrite (attempt_unreachable d filters signal w u error Hquiet Hu H1).
  split.
  - intros C.
    destruct (attempt_loads d filters signal
                (setTimeout 1000
                   (record ClosePage (record (Goto u) (show blank (record NewPage w)))))
                u doc Hquiet Hu H2)
      as (found & w1 & Hrun & Hlog & Hentries).
    exists (search_result_on doc found (page_or_1 filters)), w1.
    split; [|split; [exact Hlog | exact Hentries]].
    rewrite (toError_convertible error C).
    change (1 =? config_retries) with false. cbv iota. change (delay 1) with 1000.
    now rewrite Hrun.
  - intros C. rewrite (toError_not_convertible error C). cbn [toError].
    exists (record ClosePage (record (Goto u) (show blank (record NewPage w)))).
    split; reflexivity.
Qed.

End Journeys.

(** ** Worked examples: a site that is down, and one that recovers *)

Definition dead_world : World :=
  {| web := fun _ _ => NavigationFailed (Str "net::ERR_NAME_NOT_RESOLVED");
     clock := fun n => 1700000000000 + Z.of_nat n;
     clock_reads := 0;
     log := [];
     document := blank;
     scrapers := fun _ => None |}.

Definition recovering_world : World :=
  {| web := fun n u => if (n =? 0)%nat then NavigationFailed (Str "Timeout 30000ms exceeded")
                        else sample_web n u;
     clock := fun n => 1700000000000 + Z.of_nat n;
     clock_reads := 0;
     log := [];
     document := blank;
     scrapers := fun _ => None |}.

Definition bike_url : string := "https://www.olx.pt/ads/q-bike/".

Lemma bike_url_built :
  buildSearchUrl example_URL_new (domainConfig ascii_toLowerCase olx_pt) bike_filters
  = Some bike_url.
Proof. vm_compute. reflexivity. Qed.

Lemma dead_search_fails :
  fst (scraper_scrape ascii_toLowerCase example_URL_new olx_pt bike_filters None dead_world)
  = Returns (Failure (Error "net::ERR_NAME_NOT_RESOLVED")).
Proof. vm_compute. reflexivity. Qed.

Lemma X4_witness :
  exists (r : Result SearchResult) (w1 : World),
    scrape ascii_toLowerCase example_URL_new (extractListingId olx_pt) olx_pt bike_filters
      None dead_world
    = (Returns r, w1).
Proof.
  exact (proj1 (X4_scraper_operations_never_throw ascii_toLowerCase example_URL_new
                  (extractListingId olx_pt)
                  (findListingUrl ascii_toLowerCase example_URL_new olx_pt)
                  olx_pt bike_filters "abc12" None dead_world)).
Defined.

Lemma X6_witness :
  urlCache olx_pt (snd bike_search)
  = cache_after (urlCache olx_pt sample_world) (listings bike_result).
Proof.
  exact (proj1 (X6_scrape_writes_the_cache ascii_toLowerCase example_URL_new olx_pt
                  bike_filters None sample_world (snd bike_search) bike_result
                  bike_search_runs)).
Defined.

Lemma X7_witness :
  let w' := snd (scraper_scrape ascii_toLowerCase example_URL_new olx_pt bike_filters None
                   dead_world) in
  scrapers w' = scrapers dead_world /\ clock_reads w' = clock_reads dead_world.
Proof.
  exact (X7_failed_scrape_keeps_the_cache ascii_toLowerCase example_URL_new olx_pt
           bike_filters None dead_world _ (Error "net::ERR_NAME_NOT_RESOLVED")
           (with_state _ _ dead_search_fails)).
Defined.

Lemma X8_witness :
  exists w' : World,
    scrape ascii_toLowerCase example_URL_new (extractListingId olx_pt) olx_pt bike_filters
      (Some (fun _ => true)) sample_world
    = (Returns (Failure (Error "Operation cancelled")), w')
    /\ log w' = [ClosePage; NewPage; Timer 2000;
                 ClosePage; NewPage; Timer 1000;
                 ClosePage; NewPage]
    /\ scrapers w' = scrapers sample_world.
Proof.
  exact (proj1 (X8_raised_signal_is_retried ascii_toLowerCase example_URL_new
                  (extractListingId olx_pt)
                  (findListingUrl ascii_toLowerCase example_URL_new olx_pt)
                  olx_pt bike_filters "abc12" (Some (fun _ => true)) sample_world
                  (fun _ => eq_refl))).
Defined.

Lemma X9_witness :
  exists w' : World,
    scraper_scrape ascii_toLowerCase example_URL_new olx_pt bike_filters None dead_world
    = (Returns (Failure (Error "net::ERR_NAME_NOT_RESOLVED")), w')
    /\ log w' = [ClosePage; Goto bike_url; NewPage; Timer 2000;
                 ClosePage; Goto bike_url; NewPage; Timer 1000;
                 ClosePage; Goto bike_url; NewPage]
    /\ scrapers w' = scrapers dead_world.
Proof.
  exact (proj1 (X9_unreachable_site_is_tried_three_times ascii_toLowerCase example_URL_new
                  olx_pt bike_filters None dead_world bike_url
                  (Str "net::ERR_NAME_NOT_RESOLVED") (Str "net::ERR_NAME_NOT_RESOLVED")
                  (Str "net::ERR_NAME_NOT_RESOLVED")
                  (fun _ => eq_refl) bike_url_built eq_refl eq_refl eq_refl)
           eq_refl eq_refl).
Defined.

Lemma X10_witness :
  exists (result : SearchResult) (w' : World),
    scraper_scrape ascii_toLowerCase example_URL_new olx_pt bike_filters None sample_world
    = (Returns (Success result), w')
    /\ log w' = [ClosePage; Goto bike_url; NewPage]
    /\ totalCount result = Finite 81
    /\ totalPages result = Finite 3.
Proof.
  destruct (X10_loaded_page_always_succeeds ascii_toLowerCase example_URL_new olx_pt
              bike_filters None sample_world bike_url results_page
              (fun _ => eq_refl) bike_url_built eq_refl)
    as (result & w' & Hrun & Hlog & _ & Hcount & Hpages & _).
  exists result, w'. split; [exact Hrun|]. split; [exact Hlog|].
  split; [rewrite Hcount | rewrite Hpages]; vm_compute; reflexivity.
Defined.

Lemma X11_witness :
  exists (result : SearchResult) (w' : World),
    scraper_scrape ascii_toLowerCase example_URL_new olx_pt bike_filters None
      recovering_world
    = (Returns (Success result), w')
    /\ log w' = [ClosePage; Goto bike_url; NewPage; Timer 1000;
                 ClosePage; Goto bike_url; NewPage].
Proof.
  destruct (proj1 (X11_second_attempt_recovers ascii_toLowerCase example_URL_new olx_pt
                     bike_filters None recovering_world bike_url
                     (Str "Timeout 30000ms exceeded") results_page
                     (fun _ => eq_refl) bike_url_built eq_refl eq_refl) eq_refl)
    as (result & w' & Hrun & Hlog & _).
  exists result, w'. split; [exact Hrun | exact Hlog].
Defined.

(** ** Details of a listing that is not in the cache *)

Section Lookup.

Variable toLowerCase : string -> string.
Variable URL_new : string -> string -> option URL.

(** X12. [findListingUrl] never throws.  It navigates exactly once, to
    the search-by-id page of the domain ([/oferty/q-<id>/] on olx.pl,
    [/ads/q-<id>/] elsewhere), on the page it is given; it reads no
    clock and writes no cache.  It returns the empty string when the
    navigation fails and when no result card links to the identifier,
    and otherwise the link of the first such card, resolved against
    the base URL (the empty string again if it does not resolve). *)
Theorem X12_findListingUrl_never_throws (d : OlxDomain) (listingId : string) (w : World) :
  exists (found : string) (w1 : World),
    findListingUrl toLowerCase URL_new d listingId w = (Returns found, w1)
    /\ log w1 = Goto (find_url d listingId) :: log w
    /\ find_url d listingId
       = "https://www." ++ domain_name d
         ++ (if domain_eqb d olx_pl then "/oferty/q-" else "/ads/q-") ++ listingId ++ "/"
    /\ scrapers w1 = scrapers w
    /\ clock_reads w1 = clock_reads w
    /\ web w1 = web w
    /\ (forall error : Value,
           web w (List.length (navigations (log w))) (find_url d listingId)
           = NavigationFailed error ->
           found = "" /\ document w1 = document w)
    /\ (forall doc : Document,
           web w (List.length (navigations (log w))) (find_url d listingId) = Loaded doc ->
           document w1 = doc
           /\ found = found_url toLowerCase URL_new d doc listingId
           /\ (doc (card_link_selector listingId) = [] -> found = "")).
Proof.
  rewrite findListingUrl_runs.
  assert (Hurl : find_url d listingId
                 = "https://www." ++ domain_name d
                   ++ (if domain_eqb d olx_pl then "/oferty/q-" else "/ads/q-")
                   ++ listingId ++ "/") by (destruct d; reflexivity).
  destruct (web w _ (find_url d listingId)) as [doc|error].
  - do 2 eexists. split; [reflexivity|]. split; [reflexivity|]. split; [exact Hurl|].
    split; [reflexivity|]. split; [reflexivity|]. split; [reflexivity|].
    split; [discriminate|].
    intros doc' [= <-]. split; [reflexivity|]. split; [reflexivity|].
    intros Hnone. unfold found_url, card_link. now rewrite Hnone.
  - do 2 eexists. split; [reflexivity|]. split; [reflexivity|]. split; [exact Hurl|].
    split; [reflexivity|]. split; [reflexivity|]. split; [reflexivity|].
    split; [|discriminate].
    intros error' _. split; reflexivity.
Qed.

(** One attempt at the details of a listing with no cached URL, for a
    hook that returns. *)
Lemma performGetListingDetails_looked_up (find : string -> Async World string)
    (d : OlxDomain) (listingId found : string) (signal : option (AbortSignal World))
    (w wf : World) :
  truthy_opt (urlCache d w !! listingId) = false ->
  find listingId (show blank (record NewPage w)) = (Returns found, wf) ->
  performGetListingDetails toLowerCase find d listingId signal w =
  if signaled signal (show blank (record NewPage w))
  then (Throws cancelled, record ClosePage (show blank (record NewPage w)))
  else if truthy found then
    match web wf (List.length (navigations (log wf))) found with
    | NavigationFailed error => (Throws error, record ClosePage (record (Goto found) wf))
    | Loaded doc =>
        let w2 := show doc (record (Goto found) wf) in
        if signaled signal w2 then (Throws cancelled, record ClosePage w2)
        else (Returns (details_on doc listingId found), record ClosePage w2)
    end
  else (Throws (not_found listingId), record ClosePage wf).
Proof.
  intros Hmiss Hfind. unfold performGetListingDetails.
  destruct (signaled signal (show blank (record NewPage w))) eqn:Hsig.
  { now apply withPage_cancelled. }
  assert (Hget : urlCache_get d listingId (show blank (record NewPage w))
                 = (Returns (urlCache d w !! listingId), show blank (record NewPage w)))
    by reflexivity.
  assert (Hstart : forall (k : string -> Async World Listing),
             (cachedUrl <- urlCache_get d listingId ;;
              finalUrl <- (if truthy_opt cachedUrl then ret (default "" cachedUrl)
                           else find listingId) ;;
              k finalUrl) (show blank (record NewPage w))
             = k found wf).
  { intros k. rewrite (bind_returns _ _ _ _ _ Hget). rewrite Hmiss.
    now rewrite (bind_returns _ _ _ _ _ Hfind). }
  destruct (truthy found) eqn:Hfound.
  2:{ apply withPage_runs; [exact Hsig|]. rewrite Hstart. now rewrite Hfound. }
  destruct (web wf (List.length (navigations (log wf))) found) as [doc|error] eqn:Hweb.
  - cbv zeta. destruct (signaled signal (show doc (record (Goto found) wf))) eqn:Hsig2.
    + apply withPage_runs; [exact Hsig|]. rewrite Hstart. rewrite Hfound. cbn [negb].
      rewrite (bind_returns _ _ _ _ _ (goto_loaded found wf doc Hweb)).
      rewrite (bind_returns _ _ _ _ _ (aborted_signaled _ _)). now rewrite Hsig2.
    + apply withPage_runs; [exact Hsig|]. rewrite Hstart. rewrite Hfound. cbn [negb].
      rewrite (bind_returns _ _ _ _ _ (goto_loaded found wf doc Hweb)).
      rewrite (bind_returns _ _ _ _ _ (aborted_signaled _ _)). rewrite Hsig2.
      apply read_details.
  - apply withPage_runs; [exact Hsig|]. rewrite Hstart. rewrite Hfound. cbn [negb].
    now rewrite (bind_throws _ _ _ _ _ (goto_failed found wf error Hweb)).
Qed.

(** An attempt with the factory's hook writes no cache and reads no
    clock; the listing it returns has the identifier that was asked
    for, a non-empty URL and no image. *)
Lemma performGetListingDetails_frame (d : OlxDomain) (listingId : string)
    (signal : option (AbortSignal World)) (w : World) :
  let r := performGetListingDetails toLowerCase (findListingUrl toLowerCase URL_new d)
             d listingId signal w in
  scrapers (snd r) = scrapers w
  /\ clock_reads (snd r) = clock_reads w
  /\ web (snd r) = web w
  /\ forall listing : Listing,
       fst r = Returns listing ->
       id listing = listingId /\ imageUrl listing = None /\ truthy (url listing) = true.
Proof.
  cbv zeta.
  destruct (truthy_opt (urlCache d w !! listingId)) eqn:Hhit.
  - destruct (urlCache d w !! listingId) as [u|] eqn:Hu; [|discriminate].
    cbn [truthy_opt] in Hhit.
    rewrite (performGetListingDetails_cached toLowerCase _ d listingId u signal w Hu Hhit).
    cbv zeta.
    destruct (signaled signal _); [repeat split; try reflexivity; discriminate|].
    destruct (web w _ u) as [doc|error]; [|repeat split; try reflexivity; discriminate].
    destruct (signaled signal _); [repeat split; try reflexivity; discriminate|].
    repeat split; try reflexivity; cbn [fst] in H; injection H as <-; try reflexivity.
    exact Hhit.
  - pose proof (findListingUrl_runs toLowerCase URL_new d listingId
                  (show blank (record NewPage w))) as Hfind.
    destruct (web (show blank (record NewPage w)) _ (find_url d listingId)) as [page|error].
    + rewrite (performGetListingDetails_looked_up _ d listingId _ signal w _ Hhit Hfind).
      destruct (signaled signal _); [repeat split; try reflexivity; discriminate|].
      destruct (truthy (found_url toLowerCase URL_new d page listingId)) eqn:Hfound;
        [|repeat split; try reflexivity; discriminate].
      destruct (web _ _ _) as [doc|error];
        [|repeat split; try reflexivity; discriminate].
      cbv zeta.
      destruct (signaled signal _); [repeat split; try reflexivity; discriminate|].
      repeat split; try reflexivity; cbn [fst] in H; injection H as <-; try reflexivity.
      exact Hfound.
    + rewrite (performGetListingDetails_looked_up _ d listingId _ signal w _ Hhit Hfind).
      destruct (signaled signal _); repeat split; try reflexivity; discriminate.
Qed.

(** X13. [getListingDetails] never writes to a URL cache and never
    reads the clock, whatever its outcome: a URL that had to be looked
    up is not remembered.  A listing it returns has the identifier that
    was asked for, a non-empty URL and no image. *)
Theorem X13_getListingDetails_writes_no_cache (d : OlxDomain) (listingId : string)
    (signal : option (AbortSignal World)) (w : World) :
  let r := scraper_getListingDetails toLowerCase URL_new d listingId signal w in
  scrapers (snd r) = scrapers w
  /\ clock_reads (snd r) = clock_reads w
  /\ web (snd r) = web w
  /\ forall listing : Listing,
       fst r = Returns (Success listing) ->
       id listing = listingId /\ imageUrl listing = None /\ truthy (url listing) = true.
Proof.
  cbv zeta. unfold scraper_getListingDetails. rewrite getListingDetails_wraps.
  set (op := performGetListingDetails toLowerCase (findListingUrl toLowerCase URL_new d)
               d listingId signal).
  pose (P := fun w0 : World =>
               scrapers w0 = scrapers w /\ clock_reads w0 = clock_reads w /\ web w0 = web w).
  assert (Hkeep : forall w0, P w0 -> P (snd (op w0))).
  { intros w0 (Hs & Hc & Hw). subst op.
    destruct (performGetListingDetails_frame d listingId signal w0) as (Hs1 & Hc1 & Hw1 & _).
    repeat split; congruence. }
  assert (HP : P (snd (retryOperation setTimeout op config_retries w))).
  { unfold retryOperation. apply retry_loop_keeps; [exact Hkeep | | repeat split].
    intros ms w0 H. exact H. }
  unfold retryOperation in *.
  destruct (retry_loop setTimeout op config_retries _ _ _ w) as [[listing|error] w1] eqn:Hloop;
    [|destruct (toError error)];
    cbn [fst snd] in *; destruct HP as (Hs & Hc & Hw).
  - repeat split; try assumption.
    all: injection H as <-.
    all: destruct (retry_loop_returns setTimeout op config_retries _ _ _ w w1 listing Hloop)
        as [w0 Hop].
    all: destruct (performGetListingDetails_frame d listingId signal w0) as (_ & _ & _ & Hl).
    all: subst op; rewrite Hop in Hl; destruct (Hl listing eq_refl) as (H1 & H2 & H3);
      assumption.
  - repeat split; try assumption; discriminate.
  - repeat split; try assumption; discriminate.
Qed.

(** X14. A listing that is not in the cache but on the site is found
    in two navigations on the same page: the search-by-id page, then
    the link of the first matching card.  The details are read off the
    second page, and the cache is as before. *)
Theorem X14_details_through_lookup (d : OlxDomain) (listingId u : string)
    (results doc : Document) (signal : option (AbortSignal World)) (w : World) :
  truthy_opt (urlCache d w !! listingId) = false ->
  (forall w' : World, signaled signal w' = false) ->
  let n := List.length (navigations (log w)) in
  web w n (find_url d listingId) = Loaded results ->
  found_url toLowerCase URL_new d results listingId = u ->
  truthy u = true ->
  web w (S n) u = Loaded doc ->
  exists w' : World,
    scraper_getListingDetails toLowerCase URL_new d listingId signal w
    = (Returns (Success (details_on doc listingId u)), w')
    /\ log w' = ([ClosePage; Goto u; Goto (find_url d listingId); NewPage] ++ log w)%list
    /\ urlCache d w' !! listingId = urlCache d w !! listingId.
Proof.
  intros Hmiss Hquiet n Hresults Hfound Hu Hdoc.
  pose proof (findListingUrl_runs toLowerCase URL_new d listingId
                (show blank (record NewPage w))) as Hfind.
  change (web (show blank (record NewPage w))) with (web w) in Hfind.
  change (navigations (log (show blank (record NewPage w))))
    with (navigations (log w)) in Hfind.
  fold n in Hfind. rewrite Hresults, Hfound in Hfind.
  eexists. split; [|split].
  - unfold scraper_getListingDetails. apply getListingDetails_returns.
    rewrite (performGetListingDetails_looked_up _ d listingId u signal w _ Hmiss Hfind).
    rewrite Hquiet, Hu.
    change (web (show results (record (Goto (find_url d listingId))
                                 (show blank (record NewPage w))))) with (web w).
    change (List.length (navigations (log (show results
              (record (Goto (find_url d listingId)) (show blank (record NewPage w)))))))
      with (S n).
    rewrite Hdoc. cbv zeta. rewrite Hquiet. reflexivity.
  - reflexivity.
  - reflexivity.
Qed.

End Lookup.

(** ** The identifier of a listing *)

Lemma span_alnum_spec (s : string) :
  s = fst (span_alnum s) ++ snd (span_alnum s)
  /\ all_bytes is_alnum (fst (span_alnum s)) = true.
Proof.
  induction s as [|a s [IH1 IH2]]; [split; reflexivity|].
  cbn [span_alnum]. destruct (is_alnum a) eqn:Ha; [|split; reflexivity].
  destruct (span_alnum s) as [run rest]. cbn [fst snd] in *.
  split; [rewrite append_cons; now f_equal|].
  cbn [all_bytes]. now rewrite Ha, IH2.
Qed.

Lemma starts_with_spec (pat s : string) :
  starts_with pat s = true -> exists post : string, s = pat ++ post.
Proof.
  revert s. induction pat as [|a pat IH]; intros s H.
  - now exists s.
  - destruct s as [|b s]; [discriminate|]. cbn [starts_with] in H.
    apply andb_prop in H as [Hab H]. apply Ascii.eqb_eq in Hab as ->.
    destruct (IH s H) as [post ->]. exists post. now rewrite append_cons.
Qed.

(** What the pattern matches is in the URL. *)
Lemma match_ID_html_sound (url token : string) :
  match_ID_html url = Some token ->
  truthy token = true
  /\ all_bytes is_alnum token = true
  /\ exists pre post : string, url = pre ++ "ID" ++ token ++ ".html" ++ post.
Proof.
  induction url as [|a url IH]; [discriminate|].
  cbn [match_ID_html].
  destruct (Ascii.eqb a "I") eqn:Ha.
  - apply Ascii.eqb_eq in Ha as ->.
    destruct url as [|b url'].
    + intros H. destruct (IH H) as (H1 & H2 & pre & post & H3).
      destruct pre; discriminate.
    + destruct (Ascii.eqb b "D") eqn:Hb.
      * apply Ascii.eqb_eq in Hb as ->.
        destruct (id_token_here url') as [t|] eqn:Hhere.
        -- intros [= <-]. unfold id_token_here in Hhere.
           destruct (span_alnum_spec url') as [Hsplit Hall].
           destruct (span_alnum url') as [run rest]. cbn [fst snd] in *.
           destruct (truthy run) eqn:Hrun; [|discriminate].
           destruct (starts_with ".html" rest) eqn:Hrest; [|discriminate].
           injection Hhere as <-.
           destruct (starts_with_spec _ _ Hrest) as [post ->].
           split; [exact Hrun|]. split; [exact Hall|].
           exists "", post. rewrite Hsplit. reflexivity.
        -- intros H. destruct (IH H) as (H1 & H2 & pre & post & H3).
           split; [exact H1|]. split; [exact H2|].
           exists (String "I" pre), post. rewrite append_cons. now f_equal.
      * intros H. destruct (IH H) as (H1 & H2 & pre & post & H3).
        split; [exact H1|]. split; [exact H2|].
        exists (String "I" pre), post. rewrite append_cons. now f_equal.
  - intros H. destruct (IH H) as (H1 & H2 & pre & post & H3).
    split; [exact H1|]. split; [exact H2|].
    exists (String a pre), post. rewrite append_cons. now f_equal.
Qed.

Lemma pretty_Z_truthy (z : Z) : truthy (pretty z) = true.
Proof.
  destruct z as [|p|p]; [reflexivity| |reflexivity].
  change (pretty (Z.pos p)) with (pretty (N.pos p)).
  exact (proj1 (parseInt_pretty_N (N.pos p))).
Qed.

Lemma large_toString_truthy (x : Z) : truthy (large_toString x) = true.
Proof.
  unfold large_toString.
  destruct (shortest 17 x _ 1) as [s k].
  destruct (s =? 10 ^ k).
  - change (pretty 1) with "1". destruct (_ <=? 21); reflexivity.
  - pose proof (pretty_Z_truthy s) as Hs.
    destruct (pretty s) as [|a rest]; [discriminate|].
    destruct (_ <=? 21); reflexivity.
Qed.

Lemma positive_toString_truthy (m : Z) : truthy (positive_toString m) = true.
Proof.
  unfold positive_toString.
  destruct (Number_of_integer m) as [x|]; [|reflexivity].
  destruct (Z.log2 x <=? 52); [apply pretty_Z_truthy | apply large_toString_truthy].
Qed.

(** A number never prints as the empty string. *)
Lemma number_toString_truthy (n : Z) : truthy (number_toString n) = true.
Proof.
  unfold number_toString.
  destruct (n <? 0); [reflexivity | apply positive_toString_truthy].
Qed.

(** X15. [extractListingId] never throws and never returns the empty
    string, in any of the three classes.  The identifier is either cut
    out of the URL, in which case it is a non-empty run of letters and
    digits that stands in the URL between [ID] and [.html] and the
    clock is not read, or it is the decimal reading of the clock, which
    is read exactly once. *)
Theorem X15_extractListingId_is_never_empty (d : OlxDomain) (url : string) (w : World) :
  exists (id : string) (w1 : World),
    extractListingId d url w = (Returns id, w1)
    /\ truthy id = true
    /\ ((w1 = w
         /\ all_bytes is_alnum id = true
         /\ exists pre post : string, url = pre ++ "ID" ++ id ++ ".html" ++ post)
        \/ (w1 = tick w
            /\ id = number_toString (clock w (clock_reads w))
            /\ match_ID_html url = None)).
Proof.
  rewrite extractListingId_runs. unfold listing_id, after_id.
  destruct (match_ID_html url) as [token|] eqn:Hmatch.
  - destruct (match_ID_html_sound url token Hmatch) as (H1 & H2 & H3).
    exists token, w. split; [reflexivity|]. split; [exact H1|]. left. now split.
  - do 2 eexists. split; [reflexivity|]. split; [apply number_toString_truthy|].
    right. now split.
Qed.

(** ** The parameters of the search URL, in order *)

Definition sort_parameter (s : option SortBy) : list (string * string) :=
  match s with
  | Some date => [("search[order]", "created_at:desc")]
  | Some price_asc => [("search[order]", "filter_float_price:asc")]
  | Some price_desc => [("search[order]", "filter_float_price:desc")]
  | Some relevance | None => []
  end.

(** The parameters [buildSearchUrl] sets for these filters. *)
Definition search_parameters (filters : SearchFilters) : list (string * string) :=
  ((if truthy_opt (category filters) then [("c", default "" (category filters))] else [])
   ++ (if truthy_num (minPrice filters)
       then [("search[filter_float_price:from]",
              number_toString (default 0 (minPrice filters)))]
       else [])
   ++ (if truthy_num (maxPrice filters)
       then [("search[filter_float_price:to]",
              number_toString (default 0 (maxPrice filters)))]
       else [])
   ++ sort_parameter (sortBy filters)
   ++ (match page filters with
       | Some n => if 1 <? n then [("page", number_toString n)] else []
       | None => []
       end))%list.

Section SearchUrlParameters.

Variable toLowerCase : string -> string.
Variable URL_new : string -> string -> option URL.

(** X16. [buildSearchUrl] fails only when the URL constructor rejects
    the path.  On a parsed path without parameters of its own it sets,
    in this order and under the same names in all five domains: the
    category, the lower and the upper price bound, the sort order and
    the page, each one only as described by [search_parameters]; the
    scheme, the host and the path are those of the parsed path, and
    with no parameter to set the parsed URL is returned as it is. *)
Theorem X16_buildSearchUrl_parameter_list (d : OlxDomain) (filters : SearchFilters)
    (parsed : URL) :
  let cfg := domainConfig toLowerCase d in
  URL_new (searchPath (urlPatterns cfg) (location filters) (query filters)) (baseUrl cfg)
  = Some parsed ->
  searchParams parsed = [] ->
  exists u : URL,
    buildSearchUrl_object URL_new cfg filters = Some u
    /\ searchParams u = search_parameters filters
    /\ scheme u = scheme parsed
    /\ hier_part u = hier_part parsed
    /\ fragment u = fragment parsed
    /\ (search_parameters filters = [] -> u = parsed)
    /\ (search_parameters filters <> [] ->
        url_query u = Some (serialize_params (search_parameters filters))).
Proof.
  intros cfg Hparse Hempty. unfold buildSearchUrl_object. fold cfg. rewrite Hparse.
  eexists. split; [reflexivity|].
  assert (Hnames : categoryParam (urlPatterns cfg) = "c"
                   /\ priceParams_min (urlPatterns cfg) = "search[filter_float_price:from]"
                   /\ priceParams_max (urlPatterns cfg) = "search[filter_float_price:to]"
                   /\ pageParam (urlPatterns cfg) = "page"
                   /\ sortParams (urlPatterns cfg) = common_sortParams).
  { subst cfg. destruct d; repeat split; reflexivity. }
  destruct Hnames as (-> & -> & -> & -> & ->).
  destruct parsed as [sch hier q frag params]. cbn [searchParams] in Hempty. subst params.
  assert (Hpage : (truthy_num (page filters) && (1 <? default 0 (page filters)))%bool
                  = match page filters with Some n => 1 <? n | None => false end).
  { destruct (page filters) as [n|]; [|reflexivity]. cbn [truthy_num default].
    destruct (Z.ltb_spec 1 n), (Z.eqb_spec n 0); cbn; try reflexivity; lia. }
  rewrite Hpage. unfold search_parameters, sort_parameter.
  destruct (page filters) as [n|]; cbn [default];
    [destruct (1 <? n)|];
    destruct (truthy_opt (category filters)), (truthy_num (minPrice filters)),
      (truthy_num (maxPrice filters)), (sortBy filters) as [[| | |]|];
    cbn [app];
    (split; [reflexivity|]); (split; [reflexivity|]); (split; [reflexivity|]);
    (split; [reflexivity|]);
    (split; [intros H; first [reflexivity | discriminate H]
            | intros H; first [reflexivity | now contradiction H]]).
Qed.

End SearchUrlParameters.

(** Prices are printed as [String] prints a number: from [10^21] on in
    exponent notation, whose [+] the query string encodes. *)
Example buildSearchUrl_large_prices :
  buildSearchUrl example_URL_new (domainConfig ascii_toLowerCase olx_pt)
    {| domain := olx_pt;
       query := Some "villa";
       category := None;
       location := None;
       minPrice := Some (2 ^ 53);
       maxPrice := Some (10 ^ 21);
       page := Some 2;
       limit := None;
       sortBy := None |}
  = Some ("https://www.olx.pt/ads/q-villa/"
          ++ "?search%5Bfilter_float_price%3Afrom%5D=9007199254740992"
          ++ "&search%5Bfilter_float_price%3Ato%5D=1e%2B21&page=2").
Proof. vm_compute. reflexivity. Qed.

Lemma X16_witness :
  exists u : URL,
    buildSearchUrl_object example_URL_new (domainConfig ascii_toLowerCase olx_pl)
      {| domain := olx_pl;
         query := Some "rower";
         category := None;
         location := None;
         minPrice := Some 100;
         maxPrice := None;
         page := Some 3;
         limit := None;
         sortBy := Some date |}
    = Some u
    /\ searchParams u = [("search[filter_float_price:from]", "100");
                         ("search[order]", "created_at:desc");
                         ("page", "3")].
Proof.
  destruct (X16_buildSearchUrl_parameter_list ascii_toLowerCase example_URL_new olx_pl
              {| domain := olx_pl;
                 query := Some "rower";
                 category := None;
                 location := None;
                 minPrice := Some 100;
                 maxPrice := None;
                 page := Some 3;
                 limit := None;
                 sortBy := Some date |}
              {| scheme := "https";
                 hier_part := "//www.olx.pl/oferty/q-rower/";
                 url_query := None;
                 fragment := None;
                 searchParams := [] |}
              eq_refl eq_refl) as (u & Hu & Hparams & _).
  exists u. split; [exact Hu | exact Hparams].
Defined.

(** ** What the schemas let through *)

Lemma check_min_ok (field : string) (lo : Z) (v : option Z) :
  Schema.check_min field lo v = [] -> forall n, v = Some n -> lo <= n.
Proof.
  intros H n ->. unfold Schema.check_min in H.
  destruct (Z.ltb_spec n lo); [discriminate | assumption].
Qed.

Lemma check_max_ok (field : string) (hi : Z) (v : option Z) :
  Schema.check_max field hi v = [] -> forall n, v = Some n -> n <= hi.
Proof.
  intros H n ->. unfold Schema.check_max in H.
  destruct (Z.ltb_spec hi n); [discriminate | assumption].
Qed.

Lemma parse_domain_name (s : string) (d : OlxDomain) :
  Schema.parse_domain s = Some d <-> s = domain_name d.
Proof.
  split.
  - unfold Schema.parse_domain. intros H.
    repeat match type of H with
           | (if String.eqb ?a ?b then _ else _) = _ =>
               destruct (String.eqb_spec a b) as [->|_];
               [injection H as <-; reflexivity|]
           end.
    discriminate.
  - intros ->. destruct d; reflexivity.
Qed.

(** X17. The arguments [SearchListingsArgsSchema] lets through: the
    domain is the one that was named; the page is 1 or more and 1 when
    none was given; the limit is between 1 and 50 and 20 when none was
    given; the sort mode is [relevance] when none was given; a query
    has 1 to 100 UTF-16 units; the price bounds are not negative, and
    ordered when both are set and neither is 0; at least one of query,
    category and location is a non-empty string.  The optional fields
    are passed on as they came. *)
Theorem X17_accepted_search_arguments (i : Schema.SearchListingsInput)
    (a : Schema.SearchListingsArgs) :
  Schema.SearchListingsArgsSchema i = inr a ->
  Schema.in_domain i = domain_name (Schema.domain a)
  /\ Schema.page a = default 1 (Schema.in_page i) /\ 1 <= Schema.page a
  /\ Schema.limit a = default 20 (Schema.in_limit i) /\ 1 <= Schema.limit a <= 50
  /\ (Schema.in_sortBy i = None -> Schema.sortBy a = relevance)
  /\ (Schema.query a, Schema.category a, Schema.location a)
     = (Schema.in_query i, Schema.in_category i, Schema.in_location i)
  /\ (Schema.minPrice a, Schema.maxPrice a) = (Schema.in_minPrice i, Schema.in_maxPrice i)
  /\ (forall q, Schema.query a = Some q -> 1 <= Schema.js_length q <= 100)
  /\ (forall lo, Schema.minPrice a = Some lo -> 0 <= lo)
  /\ (forall hi, Schema.maxPrice a = Some hi -> 0 <= hi)
  /\ (forall lo hi,
         Schema.minPrice a = Some lo -> Schema.maxPrice a = Some hi ->
         lo <> 0 -> hi <> 0 -> lo <= hi)
  /\ Schema.some_criterion (Schema.query a) (Schema.category a) (Schema.location a) = true.
Proof.
  unfold Schema.SearchListingsArgsSchema.
  destruct (Schema.parse_domain (Schema.in_domain i)) as [d|] eqn:Hd.
  2:{ destruct (match Schema.in_sortBy i with Some _ => _ | None => _ end); discriminate. }
  destruct (match Schema.in_sortBy i with
            | Some s => Schema.parse_sortBy s
            | None => Some relevance
            end) as [s|] eqn:Hs; [|discriminate].
  destruct (Schema.field_issues i ++ Schema.refinement_issues i)%list eqn:Hissues;
    [|discriminate].
  intros [= <-]. cbn.
  apply app_eq_nil in Hissues as [Hfield Hrefine].
  unfold Schema.field_issues in Hfield.
  apply app_eq_nil in Hfield as [Hquery Hfield].
  apply app_eq_nil in Hfield as [Hmin Hfield].
  apply app_eq_nil in Hfield as [Hmax Hfield].
  apply app_eq_nil in Hfield as [Hpage Hfield].
  apply app_eq_nil in Hfield as [Hlimit1 Hlimit50].
  unfold Schema.refinement_issues in Hrefine.
  apply app_eq_nil in Hrefine as [Hrange Hsome].
  split; [now apply parse_domain_name|].
  split; [reflexivity|]. split.
  { destruct (Schema.in_page i) as [p|] eqn:Hp; cbn [default]; [|lia].
    exact (check_min_ok _ _ _ Hpage p eq_refl). }
  split; [reflexivity|]. split.
  { destruct (Schema.in_limit i) as [l|] eqn:Hl; cbn [default]; [|lia].
    split; [exact (check_min_ok _ _ _ Hlimit1 l eq_refl)
           | exact (check_max_ok _ _ _ Hlimit50 l eq_refl)]. }
  split. { intros Hnone. rewrite Hnone in Hs. congruence. }
  split; [reflexivity|]. split; [reflexivity|]. split.
  { intros q Hq. rewrite Hq in Hquery. unfold Schema.check_query in Hquery.
    apply app_eq_nil in Hquery as [H1 H100].
    destruct (Z.ltb_spec (Schema.js_length q) 1); [discriminate|].
    destruct (Z.ltb_spec 100 (Schema.js_length q)); [discriminate|]. lia. }
  split; [exact (check_min_ok _ _ _ Hmin)|].
  split; [exact (check_min_ok _ _ _ Hmax)|]. split.
  { intros lo hi Hlo Hhi Hlo0 Hhi0. rewrite Hlo, Hhi in Hrange.
    destruct (Schema.price_range_ok (Some lo) (Some hi)) eqn:E; [|discriminate].
    unfold Schema.price_range_ok in E. cbn [truthy_num default] in E.
    destruct (Z.eqb_spec lo 0); [contradiction|].
    destruct (Z.eqb_spec hi 0); [contradiction|].
    cbn [negb orb] in E. now apply Z.leb_le. }
  destruct (Schema.some_criterion _ _ _); [reflexivity | discriminate].
Qed.

Lemma X17_witness :
  Schema.in_domain free_items_input = "olx.pt"
  /\ 1 <= 1 /\ 1 <= 20 <= 50.
Proof.
  destruct (X17_accepted_search_arguments free_items_input _ eq_refl)
    as (Hd & _ & Hp & _ & Hl & _).
  split; [exact Hd|]. split; [exact Hp | exact Hl].
Defined.

Lemma js_length_nonneg (s : string) : 0 <= Schema.js_length s.
Proof.
  induction s as [|a s IH]; [reflexivity|]. cbn [Schema.js_length].
  destruct (in_range 128 191 a); [lia|]. destruct (N.leb 240 (code a)); lia.
Qed.

(** X18. The arguments [GetListingDetailsArgsSchema] lets through: the
    domain is the one that was named and the identifier is the one
    that was given, which is not the empty string; images are off and
    seller information is on unless the input says otherwise. *)
Theorem X18_accepted_details_arguments (i : Schema.GetListingDetailsInput)
    (a : Schema.GetListingDetailsArgs) :
  Schema.GetListingDetailsArgsSchema i = inr a ->
  Schema.din_domain i = domain_name (Schema.d_domain a)
  /\ Schema.listingId a = Schema.din_listingId i
  /\ truthy (Schema.listingId a) = true
  /\ Schema.includeImages a = default false (Schema.din_includeImages i)
  /\ Schema.includeSellerInfo a = default true (Schema.din_includeSellerInfo i).
Proof.
  unfold Schema.GetListingDetailsArgsSchema.
  destruct (Schema.parse_domain (Schema.din_domain i)) as [d|] eqn:Hd.
  2:{ destruct (Schema.js_length (Schema.din_listingId i) <? 1); discriminate. }
  destruct (Z.ltb_spec (Schema.js_length (Schema.din_listingId i)) 1) as [|Hlen];
    [discriminate|].
  intros [= <-]. cbn.
  split; [now apply parse_domain_name|]. split; [reflexivity|].
  split; [|split; reflexivity].
  destruct (Schema.din_listingId i); [cbn in Hlen; lia | reflexivity].
Qed.

Lemma X18_witness :
  Schema.includeImages
    {| Schema.d_domain := olx_pt; Schema.listingId := "abc12";
       Schema.includeImages := false; Schema.includeSellerInfo := true |}
  = false.
Proof.
  exact (proj1 (proj2 (proj2 (proj2
           (X18_accepted_details_arguments
              {| Schema.din_domain := "olx.pt"; Schema.din_listingId := "abc12";
                 Schema.din_includeImages := None; Schema.din_includeSellerInfo := None |}
              _ eq_refl))))).
Defined.

(** The fields an issue can name. *)
Definition names_a_field (fields : list string) (e : ZodIssue) : Prop :=
  exists f : string, path e = [Key f] /\ In f fields.

(** X19. A rejection is never empty-handed: when a schema rejects an
    input that has the declared types it reports one issue at least,
    and every issue names one field of that schema, among those that
    carry a constraint. *)
Theorem X19_rejections_carry_issues :
  (forall (i : Schema.SearchListingsInput) (issues : list ZodIssue),
      Schema.SearchListingsArgsSchema i = inl issues ->
      issues <> []
      /\ Forall (names_a_field ["domain"; "query"; "minPrice"; "maxPrice"; "page"; "limit";
                                "sortBy"]) issues)
  /\ (forall (i : Schema.GetListingDetailsInput) (issues : list ZodIssue),
         Schema.GetListingDetailsArgsSchema i = inl issues ->
         issues <> []
         /\ Forall (names_a_field ["domain"; "listingId"]) issues).
Proof.
  assert (Hissue : forall fields f m, In f fields ->
                     names_a_field fields (Schema.issue f m)).
  { intros fields f m Hin. exists f. split; [reflexivity | exact Hin]. }
  assert (Hmin : forall fields f lo v, In f fields ->
                   Forall (names_a_field fields) (Schema.check_min f lo v)).
  { intros fields f lo [n|] Hin; cbn; [|constructor].
    destruct (n <? lo); repeat constructor. now apply Hissue. }
  assert (Hmax : forall fields f hi v, In f fields ->
                   Forall (names_a_field fields) (Schema.check_max f hi v)).
  { intros fields f hi [n|] Hin; cbn; [|constructor].
    destruct (hi <? n); repeat constructor. now apply Hissue. }
  split.
  - intros i issues. unfold Schema.SearchListingsArgsSchema.
    set (fields := ["domain"; "query"; "minPrice"; "maxPrice"; "page"; "limit"; "sortBy"]).
    assert (Hfield : Forall (names_a_field fields) (Schema.field_issues i)).
    { unfold Schema.field_issues. repeat apply Forall_app_2.
      - unfold Schema.check_query. destruct (Schema.in_query i) as [q|]; [|constructor].
        apply Forall_app_2.
        + destruct (Schema.js_length q <? 1); repeat constructor.
          apply Hissue. cbn. tauto.
        + destruct (100 <? Schema.js_length q); repeat constructor.
          apply Hissue. cbn. tauto.
      - apply Hmin. cbn. tauto.
      - apply Hmin. cbn. tauto.
      - apply Hmin. cbn. tauto.
      - apply Hmin. cbn. tauto.
      - apply Hmax. cbn. tauto. }
    assert (Hrefine : Forall (names_a_field fields) (Schema.refinement_issues i)).
    { unfold Schema.refinement_issues. apply Forall_app_2.
      - destruct (Schema.price_range_ok _ _); repeat constructor.
        apply Hissue. cbn. tauto.
      - destruct (Schema.some_criterion _ _ _); repeat constructor.
        apply Hissue. cbn. tauto. }
    destruct (Schema.parse_domain (Schema.in_domain i)) as [d|].
    + destruct (match Schema.in_sortBy i with Some _ => _ | None => _ end) as [s|].
      * destruct (Schema.field_issues i ++ Schema.refinement_issues i)%list
          as [|e rest] eqn:Hall; [discriminate|].
        intros [= <-]. split; [discriminate|]. rewrite <- Hall.
        now apply Forall_app_2.
      * intros [= <-]. split.
        -- cbn [app]. intros H. apply app_eq_nil in H as [_ H]. discriminate.
        -- cbn [app]. apply Forall_app_2; [exact Hfield|]. repeat constructor.
           apply Hissue. cbn. tauto.
    + intros H.
      assert (Hsort : Forall (names_a_field fields)
                        (match match Schema.in_sortBy i with
                               | Some s => Schema.parse_sortBy s
                               | None => Some relevance
                               end with
                         | None => [Schema.sortBy_issue (default "" (Schema.in_sortBy i))]
                         | Some _ => []
                         end)).
      { destruct (match Schema.in_sortBy i with Some _ => _ | None => _ end);
          repeat constructor. apply Hissue. cbn. tauto. }
      destruct (match Schema.in_sortBy i with Some _ => _ | None => _ end);
        injection H as <-; (split; [discriminate|]);
        cbn [app]; constructor;
        try (apply Hissue; cbn; tauto);
        apply Forall_app_2; assumption.
  - intros i issues. unfold Schema.GetListingDetailsArgsSchema.
    destruct (Schema.parse_domain (Schema.din_domain i)) as [d|];
      destruct (Schema.js_length (Schema.din_listingId i) <? 1);
      try discriminate; intros [= <-]; (split; [discriminate|]);
      repeat constructor; apply Hissue; cbn; tauto.
Qed.

(** ** The tools *)

Section Rejection.

Context {W TInput TArgs TResult : Type}.

Variable schema : TInput -> list ZodIssue + TArgs.
Variable executeImpl : TArgs -> option (AbortSignal W) -> Async W TResult.

(** X20. An input the schema rejects stops [execute] before the
    implementation: the state is untouched, and the result is a
    failure whose message is [Validation error: ] followed by the
    issues, each as [path: message] with the path segments joined by
    dots, separated by a comma and a space. *)
Theorem X20_rejected_input_stops_execute
    (args : TInput) (signal : option (AbortSignal W)) (w : W) (issues : list ZodIssue) :
  signaled signal w = false ->
  schema args = inl issues ->
  BaseTool.execute (BaseTool.parse_with schema) executeImpl args signal w
  = (Returns
       (Failure
          (Error ("Validation error: "
                  ++ join ", "
                       (List.map (fun e => path_join (path e) ++ ": " ++ issue_message e)
                          issues)))),
     w).
Proof.
  intros Hquiet Hschema. rewrite execute_guarded. unfold guarded.
  rewrite (bind_returns _ _ _ _ _ (aborted_signaled signal w)). rewrite Hquiet.
  rewrite bind_ret. unfold BaseTool.parse_with. rewrite Hschema. reflexivity.
Qed.

End Rejection.

Lemma X20_witness :
  Tools.getListingDetailsTool ascii_toLowerCase example_URL_new
    {| Schema.din_domain := "olx.de"; Schema.din_listingId := "";
       Schema.din_includeImages := None; Schema.din_includeSellerInfo := None |}
    None sample_world
  = (Returns
       (Failure
          (Error ("Validation error: domain: Invalid enum value. Expected 'olx.pt' | 'olx.pl' | "
                  ++ "'olx.bg' | 'olx.ro' | 'olx.ua', received 'olx.de', "
                  ++ "listingId: String must contain at least 1 character(s)"))),
     sample_world).
Proof.
  exact (X20_rejected_input_stops_execute Schema.GetListingDetailsArgsSchema
           (Tools.GetListingDetailsTool_executeImpl ascii_toLowerCase example_URL_new)
           {| Schema.din_domain := "olx.de"; Schema.din_listingId := "";
              Schema.din_includeImages := None; Schema.din_includeSellerInfo := None |}
           None sample_world _ eq_refl eq_refl).
Defined.

(** What [execute] makes of a [Result] that its implementation
    rethrows: a failure that carries a [ZodError] is reported as a
    validation error, every other result as it is. *)
Definition reported {T} (r : Result T) : Result T :=
  match r with
  | Failure (ZodError errors) =>
      Failure (Error ("Validation error: " ++ BaseTool.formattedErrors errors))
  | _ => r
  end.

Section ToolsAndScrapers.

Variable toLowerCase : string -> string.
Variable URL_new : string -> string -> option URL.

(** X21. For an input the schema accepts and a token that is not raised
    at the call, a tool is its scraper operation run on the scraper the
    factory holds for the domain (made on the spot if there is none):
    [searchListings] returns what [scrape] returns for the validated
    arguments, [getListingDetails] what the scraper's
    [getListingDetails] returns for the identifier, in the same final
    state. *)
Theorem X21_tools_return_what_the_scraper_returns (signal : option (AbortSignal World))
    (w : World) :
  signaled signal w = false ->
  (forall (input : Schema.SearchListingsInput) (args : Schema.SearchListingsArgs),
      Schema.SearchListingsArgsSchema input = inr args ->
      exists (r : Result SearchResult) (w' : World),
        scraper_scrape toLowerCase URL_new (Schema.domain args) (Tools.filters_of args) signal
          (snd (Factory.createScraper (Schema.domain args) w))
        = (Returns r, w')
        /\ Tools.searchListings toLowerCase URL_new input signal w = (Returns (reported r), w'))
  /\ (forall (input : Schema.GetListingDetailsInput) (args : Schema.GetListingDetailsArgs),
         Schema.GetListingDetailsArgsSchema input = inr args ->
         exists (r : Result Listing) (w' : World),
           scraper_getListingDetails toLowerCase URL_new (Schema.d_domain args)
             (Schema.listingId args) signal
             (snd (Factory.createScraper (Schema.d_domain args) w))
           = (Returns r, w')
           /\ Tools.getListingDetailsTool toLowerCase URL_new input signal w
              = (Returns (reported r), w')).
Proof.
  intros Hquiet.
  assert (Hmade : forall d, Factory.getScraper d w
                            = (Returns d, snd (Factory.createScraper d w))).
  { intros d. unfold Factory.getScraper, Factory.createScraper.
    destruct (scrapers w d); reflexivity. }
  split.
  - intros input args Hschema.
    unfold Tools.searchListings. rewrite execute_guarded. unfold guarded.
    rewrite (bind_returns _ _ _ _ _ (aborted_signaled signal w)). rewrite Hquiet.
    rewrite bind_ret. unfold BaseTool.parse_with. rewrite Hschema. rewrite bind_ret.
    unfold Tools.SearchListingsTool_executeImpl.
    rewrite (bind_returns _ _ _ _ _ (Hmade _)).
    unfold scraper_scrape. unfold bind at 1. rewrite scrape_wraps.
    destruct (retryOperation _ _ _ _) as [[result|error] w1] eqn:Hloop.
    + do 2 eexists. split; reflexivity.
    + destruct (retryOperation_throws_Error _ _ _ _ Hloop) as [e ->]. cbn [toError].
      do 2 eexists. split; [reflexivity|].
      destruct e as [m|m|errors]; reflexivity.
  - intros input args Hschema.
    unfold Tools.getListingDetailsTool. rewrite execute_guarded. unfold guarded.
    rewrite (bind_returns _ _ _ _ _ (aborted_signaled signal w)). rewrite Hquiet.
    rewrite bind_ret. unfold BaseTool.parse_with. rewrite Hschema. rewrite bind_ret.
    unfold Tools.GetListingDetailsTool_executeImpl.
    rewrite (bind_returns _ _ _ _ _ (Hmade _)).
    unfold scraper_getListingDetails. unfold bind at 1. rewrite getListingDetails_wraps.
    destruct (retryOperation _ _ _ _) as [[result|error] w1] eqn:Hloop.
    + do 2 eexists. split; reflexivity.
    + destruct (retryOperation_throws_Error _ _ _ _ Hloop) as [e ->]. cbn [toError].
      do 2 eexists. split; [reflexivity|].
      destruct e as [m|m|errors]; reflexivity.
Qed.

(** X22. The details tool reads the domain and the identifier of its
    input and nothing else: [includeImages] and [includeSellerInfo]
    make no difference to what it does or returns. *)
Theorem X22_details_flags_are_ignored (i1 i2 : Schema.GetListingDetailsInput)
    (signal : option (AbortSignal World)) (w : World) :
  Schema.din_domain i1 = Schema.din_domain i2 ->
  Schema.din_listingId i1 = Schema.din_listingId i2 ->
  Tools.getListingDetailsTool toLowerCase URL_new i1 signal w
  = Tools.getListingDetailsTool toLowerCase URL_new i2 signal w.
Proof.
  intros Hd Hid. unfold Tools.getListingDetailsTool.
  rewrite !execute_guarded. unfold guarded.
  rewrite !(bind_returns _ _ _ _ _ (aborted_signaled signal w)).
  destruct (signaled signal w); [reflexivity|].
  rewrite !bind_ret. unfold BaseTool.parse_with, Schema.GetListingDetailsArgsSchema.
  rewrite Hd, Hid.
  destruct (Schema.parse_domain (Schema.din_domain i2)) as [d|];
    destruct (Schema.js_length (Schema.din_listingId i2) <? 1); reflexivity.
Qed.

End ToolsAndScrapers.

Lemma X21_witness :
  exists (r : Result SearchResult) (w' : World),
    scraper_scrape ascii_toLowerCase example_URL_new olx_pt free_items_filters None
      (snd (Factory.createScraper olx_pt sample_world))
    = (Returns r, w')
    /\ Tools.searchListings ascii_toLowerCase example_URL_new free_items_input None
         sample_world
       = (Returns (reported r), w').
Proof.
  exact (proj1 (X21_tools_return_what_the_scraper_returns ascii_toLowerCase example_URL_new
                  None sample_world eq_refl)
           free_items_input _ eq_refl).
Defined.

Lemma X22_witness :
  Tools.getListingDetailsTool ascii_toLowerCase example_URL_new
    {| Schema.din_domain := "olx.pt"; Schema.din_listingId := "abc12";
       Schema.din_includeImages := Some true; Schema.din_includeSellerInfo := Some false |}
    None sample_world
  = Tools.getListingDetailsTool ascii_toLowerCase example_URL_new
      {| Schema.din_domain := "olx.pt"; Schema.din_listingId := "abc12";
         Schema.din_includeImages := None; Schema.din_includeSellerInfo := None |}
      None sample_world.
Proof.
  exact (X22_details_flags_are_ignored ascii_toLowerCase example_URL_new
           {| Schema.din_domain := "olx.pt"; Schema.din_listingId := "abc12";
              Schema.din_includeImages := Some true;
              Schema.din_includeSellerInfo := Some false |}
           {| Schema.din_domain := "olx.pt"; Schema.din_listingId := "abc12";
              Schema.din_includeImages := None; Schema.din_includeSellerInfo := None |}
           None sample_world eq_refl eq_refl).
Defined.

(** ** [validateAndTransform] *)

(** X23. [validateAndTransform] returns or throws what [execute] does
    for a tool whose implementation hands back its validated arguments,
    called without a token: the two methods report the outcome of a
    schema in the same way.  It returns a success when the schema
    returns and a failure when the schema throws a value that can be
    made an [Error]; the conversion in its [catch] block is not
    guarded, and it throws the [TypeError] of the conversion when the
    schema throws a value that is no [Error] and has no string form. *)
Theorem X23_validateAndTransform_agrees_with_execute {W TData T : Type}
    (parse : TData -> Async W T) (data : TData) (w : W) :
  Validation.validateAndTransform parse data w
  = BaseTool.execute parse (fun validated _ => ret validated) data None w
  /\ (forall (validated : T) (w1 : W),
         parse data w = (Returns validated, w1) ->
         Validation.validateAndTransform parse data w = (Returns (Success validated), w1))
  /\ (forall (error : Value) (w1 : W),
         parse data w = (Throws error, w1) ->
         convertible error = true ->
         Validation.validateAndTransform parse data w
         = (Returns (reported (Failure (as_Error error))), w1))
  /\ (forall (error : Value) (w1 : W),
         parse data w = (Throws error, w1) ->
         convertible error = false ->
         Validation.validateAndTransform parse data w
         = (Throws (ErrorValue cannot_convert), w1)).
Proof.
  unfold Validation.validateAndTransform, BaseTool.execute, try_catch, bind, aborted, ret,
    throw, eval.
  destruct (parse data w) as [[validated|error] w1].
  - split; [reflexivity|]. split; [now intros v' w1' [= <- <-]|].
    split; intros; discriminate.
  - split; [destruct error as [| | | | | | |[m|m|errors]]; reflexivity|].
    split; [intros; discriminate|].
    split; intros error' w1' [= <- <-] C; unfold convertible, as_Error in *.
    + destruct error as [| |[|]| | |props| |[m|m|errors]]; try reflexivity;
        try discriminate.
      cbn [toError] in *. destruct (has_own "toString" props); [discriminate | reflexivity].
    + destruct error as [| |[|]| | |props| |[m|m|errors]]; try reflexivity;
        try discriminate.
      cbn [toError] in *. destruct (has_own "toString" props); [reflexivity | discriminate].
Qed.

(** ** The scraper factory *)

(** X24. The factory holds one scraper per domain at most.
    [createScraper] returns the scraper of the domain and makes one
    only when there is none: an existing scraper keeps its URL cache,
    a new one starts with an empty cache, and the scrapers of the other
    domains are not touched; a second call changes nothing.
    [getScraper] is [createScraper].  After [clearCache] the factory
    holds no scraper, and a scraper made afterwards starts with an
    empty cache. *)
Theorem X24_factory_holds_one_scraper_per_domain (d : OlxDomain) (w : World) :
  let w1 := snd (Factory.createScraper d w) in
  fst (Factory.createScraper d w) = Returns d
  /\ Factory.hasScraper d w1 = (Returns true, w1)
  /\ (forall d' : OlxDomain, d' <> d -> scrapers w1 d' = scrapers w d')
  /\ (forall d' : OlxDomain, urlCache d' w1 = urlCache d' w)
  /\ Factory.createScraper d w1 = (Returns d, w1)
  /\ Factory.getScraper d w = Factory.createScraper d w
  /\ (forall d' : OlxDomain,
         Factory.hasScraper d' (snd (Factory.clearCache w1))
         = (Returns false, snd (Factory.clearCache w1))
         /\ urlCache d' (snd (Factory.createScraper d' (snd (Factory.clearCache w1)))) = ∅).
Proof.
  cbv zeta.
  assert (Hcleared : forall (w0 : World) (d' : OlxDomain),
             Factory.hasScraper d' (snd (Factory.clearCache w0))
             = (Returns false, snd (Factory.clearCache w0))
             /\ urlCache d' (snd (Factory.createScraper d' (snd (Factory.clearCache w0))))
                = ∅).
  { intros w0 d'. split; [reflexivity|].
    unfold urlCache, Factory.createScraper, Factory.clearCache. cbn.
    now rewrite (proj2 (domain_eqb_eq d' d') eq_refl). }
  unfold Factory.getScraper, Factory.createScraper, Factory.hasScraper.
  destruct (scrapers w d) as [cache|] eqn:Hd; cbn [fst snd].
  - rewrite Hd. split; [reflexivity|]. split; [reflexivity|]. split; [reflexivity|].
    split; [reflexivity|]. split; [reflexivity|]. split; [reflexivity|].
    apply Hcleared.
  - assert (Hsame : scrapers (with_scraper d (Some ∅) w) d = Some ∅).
    { cbn. now rewrite (proj2 (domain_eqb_eq d d) eq_refl). }
    rewrite Hsame. split; [reflexivity|]. split; [reflexivity|]. split.
    { intros d' Hne. now apply scrapers_with_scraper_other. }
    split.
    { intros d'. unfold urlCache.
      destruct (domain_eqb d' d) eqn:E.
      - apply domain_eqb_eq in E as ->. now rewrite Hsame, Hd.
      - rewrite scrapers_with_scraper_other; [reflexivity|].
        intros ->. now rewrite (proj2 (domain_eqb_eq d d) eq_refl) in E. }
    split; [reflexivity|]. split; [reflexivity|].
    apply Hcleared.
Qed.

(** ** The domain table *)

Section DomainTable.

Variable toLowerCase : string -> string.


End DomainTable.

(** X26. [isDomainSupported] is the [in] operator on the table: it
    holds for the five domains, and for a name that is no property
    inherited from [Object.prototype] it holds exactly when the
    schemas' enumeration has the name. *)
Theorem X26_isDomainSupported (Object_prototype_has : string -> bool) (name : string) :
  (forall d : OlxDomain, Domains.isDomainSupported Object_prototype_has (domain_name d) = true)
  /\ (Object_prototype_has name = false ->
      (Domains.isDomainSupported Object_prototype_has name = true
       <-> exists d : OlxDomain, Schema.parse_domain name = Some d))
  /\ (Object_prototype_has name = true ->
      Domains.isDomainSupported Object_prototype_has name = true).
Proof.
  split; [|split].
  - intros d. destruct d; reflexivity.
  - intros Hown. unfold Domains.isDomainSupported. rewrite Hown, orb_false_r.
    unfold Domains.getSupportedDomains, Schema.parse_domain. cbn [existsb].
    destruct (String.eqb name "olx.pt"); [split; eauto|].
    destruct (String.eqb name "olx.pl"); [split; eauto|].
    destruct (String.eqb name "olx.bg"); [split; eauto|].
    destruct (String.eqb name "olx.ro"); [split; eauto|].
    destruct (String.eqb name "olx.ua"); [split; eauto|].
    cbn. split; [discriminate | intros [d H]; discriminate].
  - intros Hin. unfold Domains.isDomainSupported. rewrite Hin. apply orb_true_r.
Qed.

(** ** The tool registry *)

Section RegistryFacts.

Variable MCPTool : Type.
Variable tool_name : MCPTool -> string.

(** What a [Map] filled through [register] looks like: no name occurs
    twice, and every tool sits under its own name. *)
Definition well_formed (tools : Registry.Tools MCPTool) : Prop :=
  List.NoDup (Registry.getToolNames MCPTool tools)
  /\ Forall (fun entry => fst entry = tool_name (snd entry)) tools.

Lemma has_In (name : string) (tools : Registry.Tools MCPTool) :
  Registry.has MCPTool name tools = true <-> In name (Registry.getToolNames MCPTool tools).
Proof.
  induction tools as [|[n t] tools IH]; cbn; [split; [discriminate | tauto]|].
  destruct (String.eqb_spec n name) as [->|Hne]; cbn.
  - split; [now left | reflexivity].
  - rewrite IH. split; [now right | intros [H|H]; [contradiction | exact H]].
Qed.

Lemma get_has (name : string) (tools : Registry.Tools MCPTool) :
  Registry.has MCPTool name tools
  = match Registry.get MCPTool name tools with Some _ => true | None => false end.
Proof.
  induction tools as [|[n t] tools IH]; cbn; [reflexivity|].
  destruct (String.eqb n name); [reflexivity | exact IH].
Qed.

Lemma Map_set_new (name : string) (tool : MCPTool) (tools : Registry.Tools MCPTool) :
  Registry.has MCPTool name tools = false ->
  Registry.Map_set MCPTool name tool tools = (tools ++ [(name, tool)])%list.
Proof.
  induction tools as [|[n t] tools IH]; cbn; [reflexivity|].
  destruct (String.eqb n name); cbn; [discriminate|].
  intros H. now rewrite IH.
Qed.

Lemma get_app (name : string) (tools more : Registry.Tools MCPTool) :
  Registry.get MCPTool name (tools ++ more)%list
  = match Registry.get MCPTool name tools with
    | Some t => Some t
    | None => Registry.get MCPTool name more
    end.
Proof.
  induction tools as [|[n t] tools IH]; cbn; [reflexivity|].
  destruct (String.eqb n name); [reflexivity | exact IH].
Qed.

Lemma get_delete (name other : string) (tools : Registry.Tools MCPTool) :
  Registry.get MCPTool other (Registry.Map_delete MCPTool name tools)
  = if String.eqb other name then None else Registry.get MCPTool other tools.
Proof.
  unfold Registry.Map_delete.
  induction tools as [|[n t] tools IH]; cbn.
  - now destruct (String.eqb other name).
  - destruct (String.eqb_spec n name) as [->|Hne]; cbn.
    + rewrite IH. destruct (String.eqb_spec other name) as [->|Hne]; [reflexivity|].
      destruct (String.eqb_spec name other) as [->|_]; [contradiction | reflexivity].
    + destruct (String.eqb_spec n other) as [->|Hne'].
      * destruct (String.eqb_spec other name) as [->|_]; [contradiction | reflexivity].
      * exact IH.
Qed.

(** X27. The registry keeps its shape: starting from the empty
    registry, [register], [unregister] and [clear] leave a registry in
    which no name occurs twice and every tool sits under its own name.
    In such a registry a tool found under a name has that name, the
    names of [getAllTools] are [getToolNames], in the same order, and
    [hasTools] tells whether there is a name at all. *)
Theorem X27_registry_keeps_its_shape (tools : Registry.Tools MCPTool) :
  well_formed (Registry.empty MCPTool)
  /\ (well_formed tools ->
      (forall tool : MCPTool, well_formed (snd (Registry.register MCPTool tool_name tool tools)))
      /\ (forall name : string, well_formed (snd (Registry.unregister MCPTool name tools)))
      /\ well_formed (snd (Registry.clear MCPTool tools))
      /\ (forall (name : string) (tool : MCPTool),
             Registry.get MCPTool name tools = Some tool -> tool_name tool = name)
      /\ List.map tool_name (Registry.getAllTools MCPTool tools)
         = Registry.getToolNames MCPTool tools
      /\ (Registry.hasTools MCPTool tools = false
          <-> Registry.getToolNames MCPTool tools = [])).
Proof.
  assert (Hempty : well_formed []) by (split; constructor).
  split; [exact Hempty|].
  intros [Hnodup Hnames]. split; [|split; [|split; [exact Hempty|split; [|split]]]].
  - intros tool. unfold Registry.register.
    destruct (Registry.has MCPTool (tool_name tool) tools) eqn:Hhas; cbn [snd].
    + now split.
    + rewrite (Map_set_new _ _ _ Hhas). split.
      * unfold Registry.getToolNames. rewrite List.map_app. cbn [List.map fst].
        apply List.NoDup_app; [exact Hnodup | |].
        -- apply List.NoDup_cons; [intros [] | apply List.NoDup_nil].
        -- intros name Hin [<-|[]]. apply has_In in Hin. congruence.
      * apply Forall_app_2; [exact Hnames|]. now repeat constructor.
  - intros name. cbn [Registry.unregister snd]. unfold Registry.Map_delete. split.
    + unfold Registry.getToolNames in *.
      clear Hnames. induction tools as [|[n t] tools IH]; cbn; [constructor|].
      apply List.NoDup_cons_iff in Hnodup as [Hnotin Hnodup].
      destruct (negb (String.eqb n name)); cbn; [|now apply IH].
      apply List.NoDup_cons; [|now apply IH].
      intros Hin. apply Hnotin. apply in_map_iff in Hin as (e & He & Hin).
      apply filter_In in Hin as [Hin _]. apply in_map_iff. now exists e.
    + apply List.Forall_forall. intros e Hin. apply filter_In in Hin as [Hin _].
      exact (proj1 (List.Forall_forall _ _) Hnames e Hin).
  - intros name tool. clear Hnodup.
    induction Hnames as [|[n t] tools Hn Hnames IH]; cbn; [discriminate|].
    destruct (String.eqb_spec n name) as [<-|_]; [|exact IH].
    intros [= <-]. cbn in Hn. now symmetry.
  - unfold Registry.getAllTools, Registry.getToolNames. rewrite List.map_map.
    clear Hnodup. induction Hnames as [|e tools He Hnames IH]; cbn; [reflexivity|].
    now rewrite He, IH.
  - unfold Registry.hasTools, Registry.getToolNames.
    destruct tools; cbn; split; try reflexivity; discriminate.
Qed.

(** [register], for a name that is taken and for a new name. *)
Lemma register_runs (tool : MCPTool) (tools : Registry.Tools MCPTool) :
  (Registry.has MCPTool (tool_name tool) tools = true ->
   Registry.register MCPTool tool_name tool tools
   = (Throws (ErrorValue (Error ("Tool " ++ tool_name tool ++ " already registered"))),
      tools))
  /\ (Registry.has MCPTool (tool_name tool) tools = false ->
      exists tools' : Registry.Tools MCPTool,
        Registry.register MCPTool tool_name tool tools = (Returns tt, tools')
        /\ Registry.get MCPTool (tool_name tool) tools' = Some tool
        /\ (forall name : string,
               name <> tool_name tool ->
               Registry.get MCPTool name tools' = Registry.get MCPTool name tools)
        /\ Registry.getToolNames MCPTool tools'
           = (Registry.getToolNames MCPTool tools ++ [tool_name tool])%list
        /\ Registry.getAllTools MCPTool tools'
           = (Registry.getAllTools MCPTool tools ++ [tool])%list).
Proof.
  unfold Registry.register. split; intros Hhas; rewrite Hhas; [reflexivity|].
  eexists. split; [reflexivity|]. rewrite (Map_set_new _ _ _ Hhas).
  rewrite get_has in Hhas.
  split; [|split; [|split]].
  - rewrite get_app. destruct (Registry.get MCPTool (tool_name tool) tools); [discriminate|].
    cbn. now rewrite String.eqb_refl.
  - intros name Hne. rewrite get_app.
    destruct (Registry.get MCPTool name tools); [reflexivity|]. cbn.
    destruct (String.eqb_spec (tool_name tool) name) as [Heq|_]; [|reflexivity].
    now contradiction Hne.
  - unfold Registry.getToolNames. now rewrite List.map_app.
  - unfold Registry.getAllTools. now rewrite List.map_app.
Qed.

(** [unregister], and what is found afterwards. *)
Lemma unregister_runs (name : string) (tools : Registry.Tools MCPTool) :
  exists tools' : Registry.Tools MCPTool,
    Registry.unregister MCPTool name tools = (Returns (Registry.has MCPTool name tools), tools')
    /\ Registry.has MCPTool name tools' = false
    /\ Registry.get MCPTool name tools' = None
    /\ (forall other : string,
           other <> name ->
           Registry.get MCPTool other tools' = Registry.get MCPTool other tools)
    /\ (forall tool : MCPTool,
           tool_name tool = name ->
           exists tools'' : Registry.Tools MCPTool,
             Registry.register MCPTool tool_name tool tools' = (Returns tt, tools'')).
Proof.
  eexists. split; [reflexivity|].
  assert (Hget : Registry.get MCPTool name (Registry.Map_delete MCPTool name tools) = None).
  { rewrite get_delete. now rewrite String.eqb_refl. }
  assert (Hhas : Registry.has MCPTool name (Registry.Map_delete MCPTool name tools) = false).
  { rewrite get_has. now rewrite Hget. }
  split; [exact Hhas|]. split; [exact Hget|]. split.
  - intros other Hne. rewrite get_delete.
    destruct (String.eqb_spec other name); [contradiction | reflexivity].
  - intros tool <-. unfold Registry.register. rewrite Hhas. eauto.
Qed.

(** X28. [register] refuses a name that is taken: it throws
    [Tool <name> already registered] and the registry is as before, so
    the tool that was registered first stays.  A tool with a new name
    goes to the end of the registry: it is found under its name, the
    tools registered before are found as before, and it is the last of
    [getAllTools] and its name the last of [getToolNames].
    [unregister] tells whether the name was registered; afterwards the
    name is not found, every other name is found as before, and a tool
    of that name can be registered again. *)
Theorem X28_register_and_unregister (tool : MCPTool) (name : string)
    (tools : Registry.Tools MCPTool) :
  (Registry.has MCPTool (tool_name tool) tools = true ->
   Registry.register MCPTool tool_name tool tools
   = (Throws (ErrorValue (Error ("Tool " ++ tool_name tool ++ " already registered"))),
      tools))
  /\ (Registry.has MCPTool (tool_name tool) tools = false ->
      exists tools' : Registry.Tools MCPTool,
        Registry.register MCPTool tool_name tool tools = (Returns tt, tools')
        /\ Registry.get MCPTool (tool_name tool) tools' = Some tool
        /\ (forall other : string,
               other <> tool_name tool ->
               Registry.get MCPTool other tools' = Registry.get MCPTool other tools)
        /\ Registry.getToolNames MCPTool tools'
           = (Registry.getToolNames MCPTool tools ++ [tool_name tool])%list
        /\ Registry.getAllTools MCPTool tools'
           = (Registry.getAllTools MCPTool tools ++ [tool])%list)
  /\ (exists tools' : Registry.Tools MCPTool,
         Registry.unregister MCPTool name tools
         = (Returns (Registry.has MCPTool name tools), tools')
         /\ Registry.has MCPTool name tools' = false
         /\ Registry.get MCPTool name tools' = None
         /\ (forall other : string,
                other <> name ->
                Registry.get MCPTool other tools' = Registry.get MCPTool other tools)
         /\ (tool_name tool = name ->
             exists tools'' : Registry.Tools MCPTool,
               Registry.register MCPTool tool_name tool tools' = (Returns tt, tools''))).
Proof.
  destruct (register_runs tool tools) as [Htaken Hnew].
  split; [exact Htaken|]. split; [exact Hnew|].
  destruct (unregister_runs name tools) as (tools' & Hrun & Hhas & Hget & Hother & Hagain).
  exists tools'. repeat split; try assumption. apply Hagain.
Qed.

End RegistryFacts.

(** Two tools by name, for the examples. *)
Lemma X27_witness :
  well_formed string (fun name => name)
    (snd (Registry.register string (fun name => name) "getListingDetails"
            (snd (Registry.register string (fun name => name) "searchListings"
                    (Registry.empty string))))).
Proof.
  exact (proj1 (proj2 (X27_registry_keeps_its_shape string (fun name => name)
                         (snd (Registry.register string (fun name => name) "searchListings"
                                 (Registry.empty string))))
                  (proj1 (proj2 (X27_registry_keeps_its_shape string (fun name => name)
                                   (Registry.empty string))
                            (proj1 (X27_registry_keeps_its_shape string (fun name => name)
                                      (Registry.empty string))))
                     "searchListings"))
           "getListingDetails").
Defined.

Lemma X28_witness :
  Registry.register string (fun name => name) "searchListings"
    [("searchListings", "searchListings")]
  = (Throws (ErrorValue (Error "Tool searchListings already registered")),
     [("searchListings", "searchListings")]).
Proof.
  exact (proj1 (X28_register_and_unregister string (fun name => name) "searchListings"
                  "getListingDetails" [("searchListings", "searchListings")]) eq_refl).
Defined.

(** ** The query slug *)

Definition slug_byte (a : ascii) : bool := (is_lower a || is_digit a || is_dash a)%bool.

Fixpoint no_double_dash (s : string) : bool :=
  match s with
  | String a s1 =>
      match s1 with
      | String b _ => (negb (is_dash a && is_dash b) && no_double_dash s1)%bool
      | EmptyString => true
      end
  | EmptyString => true
  end.

Definition starts_with_dash (s : string) : bool :=
  match s with String a _ => is_dash a | EmptyString => false end.

Fixpoint ends_with_dash (s : string) : bool :=
  match s with
  | EmptyString => false
  | String a EmptyString => is_dash a
  | String _ s1 => ends_with_dash s1
  end.

(** Lower-case letters, digits and single dashes, with no dash at
    either end. *)
Definition is_slug (s : string) : bool :=
  (all_bytes slug_byte s && no_double_dash s
   && negb (starts_with_dash s) && negb (ends_with_dash s))%bool.

(** The four replacements every configuration ends the query slug
    with. *)
Definition slug_of (s : string) : string :=
  trim_dashes (collapse_dashes (replace_spaces_with_dash (strip_non_slug s))).

(** The encodings of white space, as [units] finds them. *)
Definition space_encoding (b : string) : bool :=
  match b with
  | String a EmptyString => is_space1 a
  | String a (String b EmptyString) => (negb (is_space1 a) && is_space2 a b)%bool
  | String a (String b (String c EmptyString)) =>
      (negb (is_space1 a) && negb (is_space2 a b) && is_space3 a b c)%bool
  | _ => false
  end.

(** A unit that [strip_non_slug] keeps. *)
Definition clean_unit (u : unit_kind * string) : bool :=
  match u with
  | (Space, b) => space_encoding b
  | (Other, String a EmptyString) => slug_byte a
  | (Other, _) => false
  end.

Lemma units_kept_bounded (n : nat) :
  forall s : string,
    (String.length s <= n)%nat ->
    Forall (fun u => clean_unit u = true) (List.filter keep_slug_unit (units s)).
Proof.
  induction n as [|n IH]; intros s Hlen.
  - destruct s; [constructor | cbn in Hlen; lia].
  - destruct s as [|a s1]; [constructor|].
    cbn [String.length] in Hlen. cbn [units].
    destruct (is_space1 a) eqn:H1.
    { cbn [List.filter keep_slug_unit]. constructor; [cbn; exact H1|].
      apply IH. lia. }
    assert (Hother : forall rest,
               Forall (fun u => clean_unit u = true) (List.filter keep_slug_unit rest) ->
               Forall (fun u => clean_unit u = true)
                 (List.filter keep_slug_unit ((Other, String a "") :: rest))).
    { intros rest Hrest. cbn [List.filter keep_slug_unit].
      destruct (is_lower a || is_digit a || is_dash a)%bool eqn:Hkeep; [|exact Hrest].
      constructor; [exact Hkeep | exact Hrest]. }
    destruct s1 as [|b s2]; [apply (Hother []); constructor|].
    destruct (is_space2 a b) eqn:H2.
    { cbn [List.filter keep_slug_unit]. constructor; [cbn; now rewrite H1, H2|].
      apply IH. cbn [String.length] in Hlen. lia. }
    destruct s2 as [|c s3].
    { apply Hother. apply IH. cbn [String.length] in *. lia. }
    destruct (is_space3 a b c) eqn:H3.
    { cbn [List.filter keep_slug_unit]. constructor; [cbn; now rewrite H1, H2, H3|].
      apply IH. cbn [String.length] in Hlen. lia. }
    apply Hother. apply IH. cbn [String.length] in *. lia.
Qed.

Lemma units_kept (s : string) :
  Forall (fun u => clean_unit u = true) (List.filter keep_slug_unit (units s)).
Proof. exact (units_kept_bounded (String.length s) s (le_n _)). Qed.

(** A byte of a slug starts no white space. *)
Lemma slug_byte_no_space (a : ascii) :
  slug_byte a = true ->
  is_space1 a = false
  /\ (forall b, is_space2 a b = false)
  /\ (forall b c, is_space3 a b c = false).
Proof.
  destruct a as [[] [] [] [] [] [] [] []]; try discriminate; intros _;
    (split; [reflexivity|]); split; intros; reflexivity.
Qed.

(** Reading the kept units back gives the same units. *)
Lemma units_concat_clean (us : list (unit_kind * string)) :
  Forall (fun u => clean_unit u = true) us -> units (concat_units us) = us.
Proof.
  induction 1 as [|[kind b] us Hu Hall IH]; [reflexivity|].
  cbn [concat_units]. destruct kind.
  - cbn [clean_unit] in Hu. unfold space_encoding in Hu.
    destruct b as [|a [|b [|c [|e b']]]]; try discriminate.
    + change (String a "" ++ concat_units us) with (String a (concat_units us)).
      cbn [units]. now rewrite Hu, IH.
    + change (String a (String b "") ++ concat_units us)
        with (String a (String b (concat_units us))).
      apply andb_prop in Hu as [H1 H2]. apply negb_true_iff in H1.
      cbn [units]. now rewrite H1, H2, IH.
    + change (String a (String b (String c "")) ++ concat_units us)
        with (String a (String b (String c (concat_units us)))).
      apply andb_prop in Hu as [H12 H3]. apply andb_prop in H12 as [H1 H2].
      apply negb_true_iff in H1, H2.
      cbn [units]. now rewrite H1, H2, H3, IH.
  - cbn [clean_unit] in Hu. destruct b as [|a [|b b']]; try discriminate.
    change (String a "" ++ concat_units us) with (String a (concat_units us)).
    destruct (slug_byte_no_space a Hu) as (H1 & H2 & H3).
    cbn [units]. rewrite H1.
    destruct (concat_units us) as [|b s2] eqn:Hrest.
    + rewrite <- IH. reflexivity.
    + rewrite H2. destruct s2 as [|c s3]; [now rewrite IH|].
      rewrite H3. now rewrite IH.
Qed.

Lemma all_bytes_app (f : ascii -> bool) (s t : string) :
  all_bytes f (s ++ t) = (all_bytes f s && all_bytes f t)%bool.
Proof.
  induction s as [|a s IH]; [reflexivity|].
  rewrite append_cons. cbn [all_bytes]. now rewrite IH, andb_assoc.
Qed.

Lemma dash_spaces_slug (us : list (unit_kind * string)) :
  Forall (fun u => clean_unit u = true) us ->
  forall in_run : bool, all_bytes slug_byte (dash_spaces in_run us) = true.
Proof.
  induction 1 as [|[kind b] us Hu Hall IH]; intros in_run; [reflexivity|].
  cbn [dash_spaces]. destruct kind.
  - destruct in_run; [apply IH|].
    change ("-" ++ dash_spaces true us) with (String "-" (dash_spaces true us)).
    cbn [all_bytes]. now rewrite IH.
  - cbn [clean_unit] in Hu. destruct b as [|a [|b b']]; try discriminate.
    rewrite all_bytes_app. cbn [all_bytes]. now rewrite Hu, IH.
Qed.

Lemma collapse_dashes_bytes (f : ascii -> bool) (s : string) :
  all_bytes f s = true -> all_bytes f (collapse_dashes s) = true.
Proof.
  induction s as [|a s IH]; [reflexivity|].
  cbn [all_bytes]. intros H. apply andb_prop in H as [Ha Hs].
  cbn [collapse_dashes]. destruct (is_dash a).
  - destruct s as [|b s']; [cbn; now rewrite Ha|].
    destruct (is_dash b); [now apply IH|].
    cbn [all_bytes]. now rewrite Ha, (IH Hs).
  - cbn [all_bytes]. now rewrite Ha, (IH Hs).
Qed.

Lemma collapse_dashes_head (s : string) :
  starts_with_dash (collapse_dashes s) = starts_with_dash s.
Proof.
  induction s as [|a s IH]; [reflexivity|].
  cbn [collapse_dashes]. destruct (is_dash a) eqn:Ha.
  - destruct s as [|b s']; [reflexivity|].
    destruct (is_dash b) eqn:Hb.
    + rewrite IH. cbn. now rewrite Ha, Hb.
    + reflexivity.
  - reflexivity.
Qed.

Lemma no_double_dash_cons (a : ascii) (s : string) :
  no_double_dash (String a s)
  = (negb (is_dash a && starts_with_dash s) && no_double_dash s)%bool.
Proof. destruct s; [cbn; now rewrite andb_false_r | reflexivity]. Qed.

Lemma collapse_dashes_single (s : string) : no_double_dash (collapse_dashes s) = true.
Proof.
  induction s as [|a s IH]; [reflexivity|].
  cbn [collapse_dashes]. destruct (is_dash a) eqn:Ha.
  - destruct s as [|b s']; [reflexivity|].
    destruct (is_dash b) eqn:Hb; [exact IH|].
    rewrite no_double_dash_cons, IH, collapse_dashes_head. cbn [starts_with_dash].
    now rewrite Hb, andb_false_r.
  - rewrite no_double_dash_cons, IH, Ha. reflexivity.
Qed.

Lemma drop_trailing_dash_cons (a b : ascii) (s : string) :
  drop_trailing_dash (String a (String b s)) = String a (drop_trailing_dash (String b s)).
Proof. reflexivity. Qed.

Lemma drop_trailing_dash_head (s : string) :
  starts_with_dash s = false -> starts_with_dash (drop_trailing_dash s) = false.
Proof.
  destruct s as [|a [|b s]]; [reflexivity| |].
  - cbn [starts_with_dash drop_trailing_dash]. intros H. rewrite H. exact H.
  - rewrite drop_trailing_dash_cons. intros H. exact H.
Qed.

Lemma ends_with_dash_cons (a b : ascii) (s : string) :
  ends_with_dash (String a (String b s)) = ends_with_dash (String b s).
Proof. reflexivity. Qed.

Lemma drop_trailing_dash_shape (f : ascii -> bool) (s : string) :
  all_bytes f s = true ->
  no_double_dash s = true ->
  all_bytes f (drop_trailing_dash s) = true
  /\ no_double_dash (drop_trailing_dash s) = true
  /\ ends_with_dash (drop_trailing_dash s) = false.
Proof.
  induction s as [|a s IH]; [repeat split; reflexivity|].
  cbn [all_bytes]. intros Hall Hnd. apply andb_prop in Hall as [Ha Hs].
  rewrite no_double_dash_cons in Hnd. apply andb_prop in Hnd as [Hab Hnd].
  destruct s as [|b s'].
  - cbn [drop_trailing_dash]. destruct (is_dash a) eqn:Hd.
    + repeat split; reflexivity.
    + cbn. rewrite Ha, Hd. repeat split; reflexivity.
  - destruct (IH Hs Hnd) as (I1 & I2 & I3).
    rewrite drop_trailing_dash_cons.
    cbn [all_bytes]. rewrite Ha, I1, no_double_dash_cons, I2.
    split; [reflexivity|]. split.
    + rewrite andb_true_r. apply negb_true_iff. apply negb_true_iff in Hab.
      cbn [starts_with_dash] in Hab.
      destruct (is_dash a) eqn:Hd; [|reflexivity]. cbn [andb] in *.
      now apply drop_trailing_dash_head.
    + destruct (drop_trailing_dash (String b s')) as [|c t] eqn:Hrest.
      * (* the rest was a single dash, and [a] is none *)
        assert (Hb : is_dash b = true).
        { destruct s' as [|c s'']; [|rewrite drop_trailing_dash_cons in Hrest; discriminate].
          cbn [drop_trailing_dash] in Hrest. destruct (is_dash b); [reflexivity | discriminate]. }
        cbn [starts_with_dash] in Hab. rewrite Hb, andb_true_r in Hab.
        apply negb_true_iff in Hab. cbn. exact Hab.
      * rewrite ends_with_dash_cons. exact I3.
Qed.

(** The four replacements leave a slug. *)
Lemma slug_of_is_slug (s : string) : is_slug (slug_of s) = true.
Proof.
  unfold slug_of, replace_spaces_with_dash, strip_non_slug.
  rewrite (units_concat_clean _ (units_kept s)).
  pose proof (dash_spaces_slug _ (units_kept s) false) as Hbytes.
  set (t := dash_spaces false (List.filter keep_slug_unit (units s))) in *.
  pose proof (collapse_dashes_bytes slug_byte t Hbytes) as Hc.
  pose proof (collapse_dashes_single t) as Hnd.
  set (c := collapse_dashes t) in *.
  unfold trim_dashes.
  assert (Hlead : all_bytes slug_byte (drop_leading_dash c) = true
                  /\ no_double_dash (drop_leading_dash c) = true
                  /\ starts_with_dash (drop_leading_dash c) = false).
  { destruct c as [|a c']; [repeat split; reflexivity|].
    cbn [drop_leading_dash]. destruct (is_dash a) eqn:Ha.
    - cbn [all_bytes] in Hc. apply andb_prop in Hc as [_ Hc].
      destruct c' as [|b c'']; [repeat split; reflexivity|].
      rewrite no_double_dash_cons in Hnd. apply andb_prop in Hnd as [Hab Hnd].
      rewrite Ha in Hab. cbn [andb] in Hab. apply negb_true_iff in Hab.
      repeat split; assumption.
    - repeat split; assumption. }
  destruct Hlead as (L1 & L2 & L3).
  destruct (drop_trailing_dash_shape slug_byte _ L1 L2) as (T1 & T2 & T3).
  unfold is_slug. now rewrite T1, T2, T3, (drop_trailing_dash_head _ L3).
Qed.

Section QuerySlug.

Variable toLowerCase : string -> string.

(** A pattern whose first byte is not in the text is not found. *)
Lemma replace_all_absent (p : ascii) (pat rep s : string) :
  all_bytes (fun a => negb (Ascii.eqb p a)) s = true ->
  replace_all (String p pat) rep s = s.
Proof.
  unfold replace_all. induction s as [|a s IH]; [reflexivity|].
  cbn [all_bytes]. intros H. apply andb_prop in H as [Ha Hs].
  apply negb_true_iff in Ha.
  cbn [replace_from starts_with]. rewrite Ha. cbn [andb]. now rewrite (IH Hs).
Qed.

(** The first bytes of the letters the Romanian configuration folds:
    C3, C4 and C8. *)
Definition no_folded_lead (a : ascii) : bool :=
  negb (N.eqb (code a) 195 || N.eqb (code a) 196 || N.eqb (code a) 200).

Lemma space_encoding_leads (b : string) :
  space_encoding b = true -> all_bytes no_folded_lead b = true.
Proof.
  unfold space_encoding.
  destruct b as [|x [|y [|z [|e b']]]]; try discriminate.
  - destruct x as [[] [] [] [] [] [] [] []]; try discriminate; reflexivity.
  - intros H. apply andb_prop in H as [_ H]. unfold is_space2 in H.
    apply andb_prop in H as [Hx Hy]. apply N.eqb_eq in Hx, Hy.
    cbn [all_bytes]. unfold no_folded_lead. now rewrite Hx, Hy.
  - intros H. apply andb_prop in H as [_ H]. unfold is_space3, in_range in H.
    cbn [all_bytes]. unfold no_folded_lead.
    cbv zeta in H.
    destruct (N.eqb_spec (code x) 195) as [Ex|_];
      [rewrite Ex in H; cbn in H; discriminate|].
    destruct (N.eqb_spec (code x) 196) as [Ex|_];
      [rewrite Ex in H; cbn in H; discriminate|].
    destruct (N.eqb_spec (code x) 200) as [Ex|_];
      [rewrite Ex in H; cbn in H; discriminate|].
    destruct (N.eqb_spec (code y) 195) as [Ey|_];
      [rewrite Ey in H; cbn in H; rewrite ?andb_false_r in H; cbn in H; discriminate|].
    destruct (N.eqb_spec (code y) 196) as [Ey|_];
      [rewrite Ey in H; cbn in H; rewrite ?andb_false_r in H; cbn in H; discriminate|].
    destruct (N.eqb_spec (code y) 200) as [Ey|_];
      [rewrite Ey in H; cbn in H; rewrite ?andb_false_r in H; cbn in H; discriminate|].
    destruct (N.eqb_spec (code z) 195) as [Ez|_];
      [rewrite Ez in H; cbn in H; rewrite ?andb_false_r in H; cbn in H; discriminate|].
    destruct (N.eqb_spec (code z) 196) as [Ez|_];
      [rewrite Ez in H; cbn in H; rewrite ?andb_false_r in H; cbn in H; discriminate|].
    destruct (N.eqb_spec (code z) 200) as [Ez|_];
      [rewrite Ez in H; cbn in H; rewrite ?andb_false_r in H; cbn in H; discriminate|].
    reflexivity.
Qed.

Lemma clean_units_leads (us : list (unit_kind * string)) :
  Forall (fun u => clean_unit u = true) us ->
  all_bytes no_folded_lead (concat_units us) = true.
Proof.
  induction 1 as [|[kind b] us Hu Hall IH]; [reflexivity|].
  cbn [concat_units]. rewrite all_bytes_app, IH, andb_true_r. destruct kind.
  - now apply space_encoding_leads.
  - cbn [clean_unit] in Hu. destruct b as [|a [|b b']]; try discriminate.
    cbn [all_bytes]. rewrite andb_true_r.
    destruct a as [[] [] [] [] [] [] [] []]; try discriminate; reflexivity.
Qed.

Lemma all_bytes_weaken (f g : ascii -> bool) (s : string) :
  (forall a, f a = true -> g a = true) -> all_bytes f s = true -> all_bytes g s = true.
Proof.
  intros Hfg. induction s as [|a s IH]; [reflexivity|].
  cbn [all_bytes]. intros H. apply andb_prop in H as [Ha Hs].
  now rewrite (Hfg a Ha), (IH Hs).
Qed.

(** What is left by [strip_non_slug] holds none of the letters the
    Romanian configuration folds. *)
Lemma folding_after_stripping (s : string) :
  strip_non_slug s
  |> replace_all "ă" "a" |> replace_all "â" "a" |> replace_all "î" "i"
  |> replace_all "ș" "s" |> replace_all "ț" "t"
  = strip_non_slug s.
Proof.
  pose proof (clean_units_leads _ (units_kept s)) as Hleads.
  fold (strip_non_slug s) in Hleads.
  assert (Hno : forall p : ascii,
             (N.eqb (code p) 195 || N.eqb (code p) 196 || N.eqb (code p) 200)%bool = true ->
             all_bytes (fun a => negb (Ascii.eqb p a)) (strip_non_slug s) = true).
  { intros p Hp. apply (all_bytes_weaken no_folded_lead); [|exact Hleads].
    intros a Ha. unfold no_folded_lead in Ha. apply negb_true_iff in Ha.
    apply negb_true_iff. destruct (Ascii.eqb_spec p a) as [->|_]; [congruence | reflexivity]. }
  change "ă" with (String (ascii_of_N 196) (String (ascii_of_N 131) "")).
  change "â" with (String (ascii_of_N 195) (String (ascii_of_N 162) "")).
  change "î" with (String (ascii_of_N 195) (String (ascii_of_N 174) "")).
  change "ș" with (String (ascii_of_N 200) (String (ascii_of_N 153) "")).
  change "ț" with (String (ascii_of_N 200) (String (ascii_of_N 155) "")).
  rewrite (replace_all_absent (ascii_of_N 196) _ _ _ (Hno (ascii_of_N 196) eq_refl)).
  rewrite (replace_all_absent (ascii_of_N 195) _ _ _ (Hno (ascii_of_N 195) eq_refl)).
  rewrite (replace_all_absent (ascii_of_N 195) _ _ _ (Hno (ascii_of_N 195) eq_refl)).
  rewrite (replace_all_absent (ascii_of_N 200) _ _ _ (Hno (ascii_of_N 200) eq_refl)).
  rewrite (replace_all_absent (ascii_of_N 200) _ _ _ (Hno (ascii_of_N 200) eq_refl)).
  reflexivity.
Qed.

(** X29. The query segment of a search path is [q-<slug>/], where the
    slug holds only lower-case letters a-z, digits and single dashes,
    and neither begins nor ends with a dash, in every configuration
    and whatever the query is (the slug is empty when nothing of the
    query is left). *)
Theorem X29_query_slug_is_clean (d : OlxDomain) (q : string) :
  truthy q = true ->
  exists slug : string,
    path_of toLowerCase d None (Some q) = flat_prefix d ++ "q-" ++ slug ++ "/"
    /\ is_slug slug = true.
Proof.
  intros Hq. rewrite path_of_unfold.
  destruct d;
    unfold searchPath_pt, searchPath_pl, searchPath_bg, searchPath_ro, searchPath_ua;
    cbn [truthy_opt default flat_prefix]; rewrite Hq.
  - eexists. split; [reflexivity|]. apply slug_of_is_slug.
  - eexists. split; [reflexivity|]. apply slug_of_is_slug.
  - eexists. split; [reflexivity|]. apply slug_of_is_slug.
  - rewrite folding_after_stripping.
    eexists. split; [reflexivity|]. apply slug_of_is_slug.
  - eexists. split; [reflexivity|]. apply slug_of_is_slug.
Qed.

(** X30. In the Romanian configuration the query is stripped of
    everything outside [a-z0-9], white space and dashes before its
    diacritics are folded, so there is nothing left to fold: a letter
    with a diacritic is dropped from the slug, and the path of a query
    is the one the Portuguese configuration builds. *)
Theorem X30_romanian_folding_comes_too_late (q : option string) :
  path_of toLowerCase olx_ro None q = path_of toLowerCase olx_pt None q.
Proof.
  rewrite !path_of_unfold. unfold searchPath_ro, searchPath_pt.
  cbn [truthy_opt]. destruct (truthy_opt q); [|reflexivity].
  now rewrite folding_after_stripping.
Qed.

End QuerySlug.

Lemma X29_witness :
  exists slug : string,
    path_of ascii_toLowerCase olx_pl None (Some "  Rower -- górski! ")
    = flat_prefix olx_pl ++ "q-" ++ slug ++ "/"
    /\ is_slug slug = true.
Proof.
  exact (X29_query_slug_is_clean ascii_toLowerCase olx_pl "  Rower -- górski! " eq_refl).
Defined.

Example query_slug_examples :
  path_of ascii_toLowerCase olx_pl None (Some "  Rower -- górski! ") = "/oferty/q-rower-gorski/"
  /\ path_of ascii_toLowerCase olx_pt None (Some "!!!") = "/ads/q-/"
  /\ path_of ascii_toLowerCase olx_ro None (Some "mașină de spălat") = "/ads/q-main-de-splat/".
Proof. repeat split; reflexivity. Qed.

(** ** A worked example: a listing found through the search by identifier *)

(** The search-by-id page for [abc12]: one card that links to it. *)
Definition lookup_page : Document :=
  fun s =>
    if String.eqb s (card_link_selector "abc12")
    then [link_element "/d/anuncio/bike-IDabc12.html"]
    else [].

Definition lookup_world : World :=
  {| web := fun n u =>
              if String.eqb u "https://www.olx.pt/ads/q-abc12/" then Loaded lookup_page
              else if String.eqb u "https://www.olx.pt/d/anuncio/bike-IDabc12.html"
                   then Loaded detail_page
                   else Loaded blank;
     clock := fun n => 1700000000000 + Z.of_nat n;
     clock_reads := 0;
     log := [];
     document := blank;
     scrapers := fun _ => None |}.

Lemma X12_witness :
  exists (found : string) (w1 : World),
    findListingUrl ascii_toLowerCase example_URL_new olx_pt "abc12" lookup_world
    = (Returns found, w1)
    /\ log w1 = [Goto "https://www.olx.pt/ads/q-abc12/"]
    /\ found = "https://www.olx.pt/d/anuncio/bike-IDabc12.html".
Proof.
  destruct (X12_findListingUrl_never_throws ascii_toLowerCase example_URL_new olx_pt "abc12"
              lookup_world)
    as (found & w1 & Hrun & Hlog & _ & _ & _ & _ & _ & Hloaded).
  exists found, w1. split; [exact Hrun|]. split; [exact Hlog|].
  destruct (Hloaded lookup_page eq_refl) as (_ & -> & _). reflexivity.
Defined.

Lemma X13_witness :
  scrapers (snd (scraper_getListingDetails ascii_toLowerCase example_URL_new olx_pt "abc12"
                   None lookup_world))
  = scrapers lookup_world.
Proof.
  exact (proj1 (X13_getListingDetails_writes_no_cache ascii_toLowerCase example_URL_new
                  olx_pt "abc12" None lookup_world)).
Defined.

Lemma X14_witness :
  exists w' : World,
    scraper_getListingDetails ascii_toLowerCase example_URL_new olx_pt "abc12" None
      lookup_world
    = (Returns (Success (details_on detail_page "abc12"
                           "https://www.olx.pt/d/anuncio/bike-IDabc12.html")), w')
    /\ log w' = [ClosePage; Goto "https://www.olx.pt/d/anuncio/bike-IDabc12.html";
                 Goto "https://www.olx.pt/ads/q-abc12/"; NewPage]
    /\ urlCache olx_pt w' !! "abc12" = None.
Proof.
  exact (X14_details_through_lookup ascii_toLowerCase example_URL_new olx_pt "abc12"
           "https://www.olx.pt/d/anuncio/bike-IDabc12.html" lookup_page detail_page None
           lookup_world eq_refl (fun _ => eq_refl) eq_refl eq_refl eq_refl eq_refl).
Defined.

(** A search that names no supported domain and asks for page 0. *)
Definition page_zero_input : Schema.SearchListingsInput :=
  {| Schema.in_domain := "olx.de";
     Schema.in_query := None;
     Schema.in_category := None;
     Schema.in_location := None;
     Schema.in_minPrice := None;
     Schema.in_maxPrice := None;
     Schema.in_page := Some 0;
     Schema.in_limit := None;
     Schema.in_sortBy := None |}.

Lemma X19_witness :
  exists issues : list ZodIssue,
    Schema.SearchListingsArgsSchema page_zero_input = inl issues
    /\ List.map (fun e => path e) issues = [[Key "domain"]; [Key "page"]]
    /\ issues <> [].
Proof.
  eexists. split; [reflexivity|]. split; [reflexivity|].
  exact (proj1 (proj1 X19_rejections_carry_issues page_zero_input _ eq_refl)).
Defined.
